(** * Domain / DNS / hosting managers: a shallow embedding and its properties

    The development follows the Python sources
      app/core/shared/exceptions.py
      app/core/domain/manager.py      (DomainManager)
      app/core/domain/services.py     (DomainValidationService)
      app/core/domain/dns.py          (DNSManager)
      app/core/hosting/manager.py     (HostingManager)
      app/core/shared/repositories.py (BaseRepository, HostingAccountRepository)

    Stateful code is written in a state-and-exception monad: a Python
    exception keeps every side effect made before it was raised.  Remote
    clients (api_client) are duck-typed objects in the source; here they are
    records of handlers over an arbitrary remote state, so every theorem
    quantified over a client holds for the real HTTP client and for any stub.
    Strings are byte strings (one [ascii] per character). *)

From stdpp Require Import gmap strings list.
From Stdlib Require Import ZArith Ascii String Lia.

Open Scope string_scope.
Open Scope Z_scope.

(** ** Exceptions (app/core/shared/exceptions.py) *)

Inductive exn_class :=
| ValidationError | DomainError | HostingError | DNSError
| DatabaseError | APIError
| OtherException.   (* any other subclass of Exception: ValueError, TypeError, ... *)

Record exn := mkExn { exn_kind : exn_class; exn_msg : string }.

(** [exn_msg e] is Python's [str(e)]. *)
Definition str_exn (e : exn) : string := exn_msg e.

Definition exn_class_eqb (a b : exn_class) : bool :=
  match a, b with
  | ValidationError, ValidationError | DomainError, DomainError
  | HostingError, HostingError | DNSError, DNSError
  | DatabaseError, DatabaseError | APIError, APIError
  | OtherException, OtherException => true
  | _, _ => false
  end.

Inductive outcome (A : Type) :=
| Ok (a : A)
| Raise (e : exn).
Arguments Ok {A} a.
Arguments Raise {A} e.

Definition is_Some_b {A} (o : option A) : bool :=
  match o with Some _ => true | None => false end.

Definition is_ok {A} (o : outcome A) : bool :=
  match o with Ok _ => true | Raise _ => false end.

(** ** The state-and-exception monad *)

Definition M (W A : Type) : Type := W -> outcome A * W.

Definition ret {W A} (a : A) : M W A := fun w => (Ok a, w).
Definition raise {W A} (k : exn_class) (m : string) : M W A :=
  fun w => (Raise (mkExn k m), w).
Definition reraise {W A} (e : exn) : M W A := fun w => (Raise e, w).
Definition bind {W A B} (m : M W A) (f : A -> M W B) : M W B :=
  fun w => match m w with
           | (Ok a, w') => f a w'
           | (Raise e, w') => (Raise e, w')
           end.
(** [try: m except Exception as e: h e] *)
Definition try_except {W A} (m : M W A) (h : exn -> M W A) : M W A :=
  fun w => match m w with
           | (Ok a, w') => (Ok a, w')
           | (Raise e, w') => h e w'
           end.
Definition lift_outcome {W A} (o : outcome A) : M W A := fun w => (o, w).

Notation "'let*' x ':=' m 'in' k" := (bind m (fun x => k))
  (at level 10, x name, m at level 100, k at level 200).
Notation "m1 ';;' m2" := (bind m1 (fun _ => m2))
  (at level 100, m2 at level 200, right associativity).

(** [for x in xs: body x] *)
Fixpoint for_each {W A} (xs : list A) (body : A -> M W unit) : M W unit :=
  match xs with
  | [] => ret tt
  | x :: xs' => body x ;; for_each xs' body
  end.

(** ** Python string helpers on character lists *)

Module Py.

Definition chars (s : string) : list ascii := list_ascii_of_string s.

Definition len (s : string) : Z := Z.of_nat (String.length s).

(** Truthiness of a str: non-empty. *)
Definition truthy (s : string) : bool :=
  match s with EmptyString => false | _ => true end.

Definition ascii_eqb (a b : ascii) : bool := Ascii.eqb a b.

Definition startswith_char (c : ascii) (s : list ascii) : bool :=
  match s with a :: _ => ascii_eqb a c | [] => false end.

Fixpoint endswith_char (c : ascii) (s : list ascii) : bool :=
  match s with
  | [] => false
  | [a] => ascii_eqb a c
  | _ :: s' => endswith_char c s'
  end.

(** ['cc' in s] for a doubled character. *)
Fixpoint contains_double (c : ascii) (s : list ascii) : bool :=
  match s with
  | a :: (b :: _) as s' => (ascii_eqb a c && ascii_eqb b c) || contains_double c s'
  | _ => false
  end.

Fixpoint mem_char (c : ascii) (s : list ascii) : bool :=
  match s with
  | [] => false
  | a :: s' => ascii_eqb a c || mem_char c s'
  end.

(** [s.split(c)]: always at least one part. *)
Fixpoint split (c : ascii) (s : list ascii) : list (list ascii) :=
  match s with
  | [] => [[]]
  | a :: s' =>
      if ascii_eqb a c then [] :: split c s'
      else match split c s' with
           | p :: ps => (a :: p) :: ps
           | [] => [[a]]
           end
  end.

Definition in_range (lo hi : ascii) (a : ascii) : bool :=
  (nat_of_ascii lo <=? nat_of_ascii a)%nat && (nat_of_ascii a <=? nat_of_ascii hi)%nat.

Definition is_lower (a : ascii) : bool := in_range "a" "z" a.
Definition is_upper (a : ascii) : bool := in_range "A" "Z" a.
Definition is_digit (a : ascii) : bool := in_range "0" "9" a.
Definition is_alpha (a : ascii) : bool := is_lower a || is_upper a.
Definition is_alnum (a : ascii) : bool := is_alpha a || is_digit a.
Definition is_hex (a : ascii) : bool :=
  is_digit a || in_range "a" "f" a || in_range "A" "F" a.
Definition is_char (c : ascii) (a : ascii) : bool := ascii_eqb a c.
Definition not_char (c : ascii) (a : ascii) : bool := negb (ascii_eqb a c).

(** [s.replace(c, t)] for a single character [c]. *)
Fixpoint replace_char (c : ascii) (t : string) (s : string) : string :=
  match s with
  | EmptyString => EmptyString
  | String a s' =>
      if ascii_eqb a c then (t ++ replace_char c t s')%string
      else String a (replace_char c t s')
  end.

(** [str.lower] on ASCII letters. *)
Definition lower_char (a : ascii) : ascii :=
  if is_upper a then ascii_of_nat (nat_of_ascii a + 32) else a.
Definition lower (s : list ascii) : list ascii := map lower_char s.

End Py.

(** ** Regular expressions as used through [re.match]

    Only the constructs that occur in the sources: character classes,
    concatenation, alternation (for [?]), counted repetition [{lo,hi}],
    [*], [+], and the end anchor [$]. *)

Module Re.

Inductive re : Type :=
| Void
| Eps
| Class (p : ascii -> bool)
| Cat (r1 r2 : re)
| Alt (r1 r2 : re)
| Rep (lo : nat) (hi : option nat) (r : re).   (* r{lo,hi}; hi = None is unbounded *)

Definition Star (r : re) : re := Rep 0 None r.
Definition Plus (r : re) : re := Rep 1 None r.
Definition Opt (r : re) : re := Rep 0 (Some 1%nat) r.
Definition AtLeast (n : nat) (r : re) : re := Rep n None r.
Definition Between (lo hi : nat) (r : re) : re := Rep lo (Some hi) r.
Definition Chr (c : ascii) : re := Class (Py.is_char c).
(** Python's [$] (no MULTILINE): end of string, or just before a final newline. *)
Definition Eol : re := Opt (Chr "010").

Definition pred_hi (hi : option nat) : option nat :=
  match hi with Some n => Some (Nat.pred n) | None => None end.

Definition hi_is_zero (hi : option nat) : bool :=
  match hi with Some O => true | _ => false end.

(** The language of a pattern. *)
Inductive lang : re -> list ascii -> Prop :=
| L_eps : lang Eps []
| L_class p a : p a = true -> lang (Class p) [a]
| L_cat r1 r2 s1 s2 : lang r1 s1 -> lang r2 s2 -> lang (Cat r1 r2) (s1 ++ s2)
| L_alt_l r1 r2 s : lang r1 s -> lang (Alt r1 r2) s
| L_alt_r r1 r2 s : lang r2 s -> lang (Alt r1 r2) s
| L_rep_nil hi r : lang (Rep 0 hi r) []
| L_rep_cons lo hi r s1 s2 :
    hi_is_zero hi = false ->
    lang r s1 -> lang (Rep (Nat.pred lo) (pred_hi hi) r) s2 ->
    lang (Rep lo hi r) (s1 ++ s2).

(** Repetition bodies never match the empty string (true of every pattern
    in the sources); under this condition the derivative of a repetition
    has the simple form used below. *)
Fixpoint nullable (r : re) : bool :=
  match r with
  | Void => false
  | Eps => true
  | Class _ => false
  | Cat r1 r2 => nullable r1 && nullable r2
  | Alt r1 r2 => nullable r1 || nullable r2
  | Rep lo _ _ => Nat.eqb lo 0
  end.

Fixpoint wf (r : re) : bool :=
  match r with
  | Void | Eps | Class _ => true
  | Cat r1 r2 | Alt r1 r2 => wf r1 && wf r2
  | Rep _ _ r => wf r && negb (nullable r)
  end.

Definition cat (r1 r2 : re) : re :=
  match r1, r2 with
  | Void, _ => Void
  | _, Void => Void
  | Eps, _ => r2
  | _, _ => Cat r1 r2
  end.

Definition alt (r1 r2 : re) : re :=
  match r1, r2 with
  | Void, _ => r2
  | _, Void => r1
  | _, _ => Alt r1 r2
  end.

Fixpoint deriv (a : ascii) (r : re) : re :=
  match r with
  | Void | Eps => Void
  | Class p => if p a then Eps else Void
  | Cat r1 r2 =>
      if nullable r1 then alt (cat (deriv a r1) r2) (deriv a r2)
      else cat (deriv a r1) r2
  | Alt r1 r2 => alt (deriv a r1) (deriv a r2)
  | Rep lo hi r' =>
      if hi_is_zero hi then Void
      else cat (deriv a r') (Rep (Nat.pred lo) (pred_hi hi) r')
  end.

Fixpoint derivs (s : list ascii) (r : re) : re :=
  match s with
  | [] => r
  | a :: s' => derivs s' (deriv a r)
  end.

Definition accepts (r : re) (s : list ascii) : bool := nullable (derivs s r).

(** [bool(re.match(pattern, s))] for a pattern that ends in [$]
    (the anchor is part of [r]). *)
Definition re_match (r : re) (s : string) : bool := accepts r (Py.chars s).

End Re.

(** ** Patterns of the sources *)

Module Patterns.
Import Re.

Definition alnum : re := Class Py.is_alnum.
Definition alnum_hyphen : re := Class (fun a => Py.is_alnum a || Py.is_char "-" a).
Definition hexdig : re := Class Py.is_hex.

(** [[a-zA-Z0-9]([a-zA-Z0-9\-]{0,61}[a-zA-Z0-9])?] *)
Definition label : re := Cat alnum (Opt (Cat (Between 0 61 alnum_hyphen) alnum)).

(** manager.py:413
    [^[a-zA-Z0-9]([a-zA-Z0-9\-]{0,61}[a-zA-Z0-9])?(\.[a-zA-Z]{2,})+$] *)
Definition domain_pattern : re :=
  Cat label (Cat (Plus (Cat (Chr ".") (AtLeast 2 (Class Py.is_alpha)))) Eol).

(** services.py:372  [^[a-zA-Z0-9.-]+$] *)
Definition allowed_char (a : ascii) : bool :=
  Py.is_alnum a || Py.is_char "." a || Py.is_char "-" a.
Definition allowed_chars_pattern : re := Cat (Plus (Class allowed_char)) Eol.

(** dns.py:235
    [^(\*\.)?([a-zA-Z0-9]([a-zA-Z0-9\-]{0,61}[a-zA-Z0-9])?\.)*[a-zA-Z0-9]([a-zA-Z0-9\-]{0,61}[a-zA-Z0-9])?\.?$] *)
Definition dns_name_pattern : re :=
  Cat (Opt (Cat (Chr "*") (Chr ".")))
      (Cat (Star (Cat label (Chr ".")))
           (Cat label (Cat (Opt (Chr ".")) Eol))).

(** hosting/manager.py:364  [^[a-z][a-z0-9_]{2,}$] *)
Definition username_pattern : re :=
  Cat (Class Py.is_lower)
      (Cat (AtLeast 2 (Class (fun a => Py.is_lower a || Py.is_digit a || Py.is_char "_" a)))
           Eol).

(** dns.py:183-186 *)
Definition hextet : re := Between 1 4 hexdig.
Definition ipv6_full : re :=
  Cat (Between 7 7 (Cat hextet (Chr ":"))) (Cat hextet Eol).
Definition ipv6_leading : re :=
  Cat (Chr ":") (Cat (Chr ":") (Cat (Between 0 6 (Cat hextet (Chr ":"))) (Cat hextet Eol))).
Definition ipv6_trailing : re :=
  Cat (Between 1 7 (Cat hextet (Chr ":"))) (Cat (Chr ":") Eol).
Definition ipv6_mixed : re :=
  Cat (Between 1 6 (Cat hextet (Chr ":"))) (Cat (Chr ":") (Cat hextet Eol)).
Definition ipv6_patterns : list re := [ipv6_full; ipv6_leading; ipv6_trailing; ipv6_mixed].

End Patterns.

(** ** datetime / timedelta

    A datetime is a count of microseconds since 0001-01-01T00:00:00 together
    with its awareness; [datetime.max] is 9999-12-31T23:59:59.999999.
    Arithmetic outside the representable range raises OverflowError, and
    mixing naive and aware values raises TypeError, as in CPython. *)

Module DT.

Definition us_per_day : Z := 86400000000.
Definition max_us : Z := 3652059 * us_per_day - 1.
Definition max_delta_days : Z := 999999999.

Record datetime := mkDT { us : Z; aware : bool }.

Definition in_range (t : Z) : bool := (0 <=? t) && (t <=? max_us).

(** [timedelta(days=d)], in microseconds *)
Definition timedelta_days (d : Z) : outcome Z :=
  if (Z.abs d >? max_delta_days) then
    Raise (mkExn OtherException "days out of range for timedelta")
  else Ok (d * us_per_day).

(** [t + delta] *)
Definition add (t : datetime) (delta : Z) : outcome datetime :=
  if in_range (us t + delta) then Ok (mkDT (us t + delta) (aware t))
  else Raise (mkExn OtherException "date value out of range").

(** [a - b] *)
Definition sub (a b : datetime) : outcome Z :=
  if Bool.eqb (aware a) (aware b) then Ok (us a - us b)
  else Raise (mkExn OtherException "can't subtract offset-naive and offset-aware datetimes").

(** [delta.days] (floor) *)
Definition days (delta : Z) : Z := delta / us_per_day.

End DT.

(** ** Value objects and entities (app/core/shared/models.py) *)

Inductive DomainStatus := ACTIVE | EXPIRED | PENDING | SUSPENDED | PENDING_TRANSFER.

(** [DomainStatus(value)]: lookup by value, ValueError otherwise. *)
Definition DomainStatus_of_value (v : string) : outcome DomainStatus :=
  if String.eqb v "active" then Ok ACTIVE
  else if String.eqb v "expired" then Ok EXPIRED
  else if String.eqb v "pending" then Ok PENDING
  else if String.eqb v "suspended" then Ok SUSPENDED
  else if String.eqb v "pending_transfer" then Ok PENDING_TRANSFER
  else Raise (mkExn OtherException (v ++ " is not a valid DomainStatus")).

Record ContactInfo := mkContact {
  first_name : string; last_name : string; email : string;
  phone : string; address : string; city : string;
  country : string; zip_code : string; organization : string }.

Record Domain := mkDomain {
  name : string;
  status : DomainStatus;
  expiry_date : DT.datetime;
  registration_date : DT.datetime;
  nameservers : list string;
  locked : bool;
  privacy_protection : bool;
  auto_renew : bool }.

Definition set_privacy_protection (d : Domain) (b : bool) : Domain :=
  mkDomain (name d) (status d) (expiry_date d) (registration_date d)
           (nameservers d) (locked d) b (auto_renew d).

(** ** DomainValidationService.validate_domain_syntax (services.py:354-401) *)

Module DomainValidationService.

Record SyntaxResult := mkResult {
  valid : bool; errors : list string; warnings : list string }.

(** [result['valid'] = False; result['errors'].append(msg)] when [cond] *)
Definition flag (cond : bool) (msg : string) (r : SyntaxResult) : SyntaxResult :=
  if cond then mkResult false (errors r ++ [msg]) (warnings r) else r.

Definition check_part (r : SyntaxResult) (part : list ascii) : SyntaxResult :=
  if (List.length part <? 1)%nat then flag true "Domain name parts cannot be empty" r
  else if (63 <? List.length part)%nat then
    flag true "Domain name part too long (maximum 63 characters)" r
  else r.

Definition validate_domain_syntax (domain_name : string) : SyntaxResult :=
  let s := Py.chars domain_name in
  let r0 := mkResult true [] [] in
  let r1 :=
    if Py.len domain_name <? 4 then
      flag true "Domain name too short (minimum 4 characters)" r0
    else if Py.len domain_name >? 253 then
      flag true "Domain name too long (maximum 253 characters)" r0
    else r0 in
  let r2 := flag (negb (Re.re_match Patterns.allowed_chars_pattern domain_name))
                 "Domain name contains invalid characters" r1 in
  let r3 := flag (Py.startswith_char "-" s || Py.endswith_char "-" s)
                 "Domain name cannot start or end with hyphen" r2 in
  let r4 := flag (Py.contains_double "." s)
                 "Domain name cannot contain consecutive dots" r3 in
  let parts := Py.split "." s in
  let r5 := flag (List.length parts <? 2)%nat
                 "Domain name must have at least one dot" r4 in
  fold_left check_part parts r5.

End DomainValidationService.

(** ** DomainManager (app/core/domain/manager.py) *)

Module DomainManager.

(** Responses of the registrar client, read with [response.get(key, default)]:
    an absent key is [None] here. *)
Record AvailabilityResponse := { available : option bool }.
Record StatusResponse := { st_locked : option bool }.
Record PrivacyResponse := { success : option bool }.
Record InfoResponse := {
  info_status : option string;
  info_expiry_date : option string;
  info_registration_date : option string;
  info_nameservers : option (list string);
  info_locked : option bool;
  info_privacy : option bool;
  info_auto_renew : option bool }.

Record RegistrationData := {
  reg_domain : string; reg_years : Z; reg_contacts : ContactInfo;
  reg_privacy : bool; reg_auto_renew : bool }.

(** The duck-typed registrar client: each method may change the remote
    state and may raise. *)
Record RegistrarApi (R : Type) := {
  check_availability : string -> R -> outcome AvailabilityResponse * R;
  api_register_domain : RegistrationData -> R -> outcome unit * R;
  get_domain_status : string -> R -> outcome StatusResponse * R;
  get_domain_info : string -> R -> outcome InfoResponse * R;
  enable_whois_privacy : string -> R -> outcome PrivacyResponse * R }.
Arguments check_availability {R}.
Arguments api_register_domain {R}.
Arguments get_domain_status {R}.
Arguments get_domain_info {R}.
Arguments enable_whois_privacy {R}.

Inductive ApiCall :=
| Call_check_availability (d : string)
| Call_register_domain (data : RegistrationData)
| Call_get_domain_status (d : string)
| Call_get_domain_info (d : string)
| Call_enable_whois_privacy (d : string).

Definition is_register_call (c : ApiCall) : bool :=
  match c with Call_register_domain _ => true | _ => false end.

(** The world a DomainManager call runs in: the remote side, the log of
    client calls made so far, the wall clock ([clock n] is what the n-th
    [datetime.now()] returns, as naive microseconds), and whether the ORM
    constructor [Domain(...)] accepts the keyword arguments it is given. *)
Record World (R : Type) := mkWorld {
  remote : R;
  calls : list ApiCall;
  clock : nat -> Z;
  ticks : nat;
  orm_domain_ok : bool }.
Arguments mkWorld {R}.
Arguments remote {R}.
Arguments calls {R}.
Arguments clock {R}.
Arguments ticks {R}.
Arguments orm_domain_ok {R}.

Section Manager.
Context {R : Type} (api_client : RegistrarApi R).
(** [datetime.fromisoformat]: [None] stands for ValueError. *)
Context (fromisoformat : string -> option DT.datetime).

(** [self.api_client.method(args)] *)
Definition invoke {A} (c : ApiCall) (h : R -> outcome A * R) : M (World R) A :=
  fun w =>
    let '(o, r') := h (remote w) in
    (o, mkWorld r' (calls w ++ [c]) (clock w) (ticks w) (orm_domain_ok w)).

(** [datetime.now()] *)
Definition now : M (World R) DT.datetime :=
  fun w => (Ok (DT.mkDT (clock w (ticks w)) false),
            mkWorld (remote w) (calls w) (clock w) (S (ticks w)) (orm_domain_ok w)).

(** The ORM constructor [Domain] applied to its evaluated keyword arguments. *)
Definition orm_Domain (d : Domain) : M (World R) Domain :=
  fun w => if orm_domain_ok w then (Ok d, w)
           else (Raise (mkExn OtherException "invalid keyword argument for Domain"), w).

Definition _validate_domain_name (domain_name : string) : bool :=
  if negb (Py.truthy domain_name) || (Py.len domain_name >? 253) then false
  else Re.re_match Patterns.domain_pattern domain_name.

Definition _validate_registration_input (domain_name : string) (years : Z)
    (contact_info : option ContactInfo) : outcome unit :=
  if negb (_validate_domain_name domain_name) then
    Raise (mkExn ValidationError "Invalid domain name format")
  else if years <=? 0 then
    Raise (mkExn ValidationError "Years must be a positive integer")
  else match contact_info with
       | None => Raise (mkExn ValidationError "Valid contact information with email is required")
       | Some c =>
           if negb (Py.truthy (email c)) then
             Raise (mkExn ValidationError "Valid contact information with email is required")
           else if negb (Py.truthy (first_name c)) || negb (Py.truthy (last_name c)) then
             Raise (mkExn ValidationError "First name and last name are required")
           else Ok tt
       end.

Definition check_domain_availability (domain_name : string) : M (World R) bool :=
  try_except
    (if negb (_validate_domain_name domain_name) then
       raise ValidationError ("Invalid domain name: " ++ domain_name)
     else
       let* response := invoke (Call_check_availability domain_name)
                               (check_availability api_client domain_name) in
       ret (default false (available response)))
    (fun e =>
       match exn_kind e with
       | ValidationError => raise DomainError ("Invalid domain name: " ++ str_exn e)
       | _ => raise DomainError ("Failed to check domain availability: " ++ str_exn e)
       end).

Fixpoint bulk_loop (domain_list : list string) (results : gmap string bool)
    : M (World R) (gmap string bool) :=
  match domain_list with
  | [] => ret results
  | domain :: rest =>
      let* b := try_except (check_domain_availability domain) (fun _ => ret false) in
      bulk_loop rest (<[domain := b]> results)
  end.

Definition check_bulk_domains_availability (domain_list : list string)
    : M (World R) (gmap string bool) :=
  bulk_loop domain_list ∅.

(** The field values computed at manager.py:161-170 and again at 176-183. *)
Definition registered_fields (domain_name : string) (years : Z) : M (World R) Domain :=
  let* t_exp := now in
  let* delta := lift_outcome (DT.timedelta_days (365 * years)) in
  let* expiry := lift_outcome (DT.add t_exp delta) in
  let* t_reg := now in
  ret (mkDomain domain_name ACTIVE expiry t_reg
                ["ns1.default.com"; "ns2.default.com"] false false true).

Definition register_domain (domain_name : string) (years : Z)
    (contact_info : option ContactInfo) : M (World R) Domain :=
  try_except
    (lift_outcome (_validate_registration_input domain_name years contact_info) ;;
     let* is_available := check_domain_availability domain_name in
     if negb is_available then
       raise DomainError ("Domain " ++ domain_name ++ " is not available")
     else
       match contact_info with
       | None => raise OtherException "'NoneType' object has no attribute 'to_dict'"
       | Some c =>
           let registration_data :=
             Build_RegistrationData domain_name years c false true in
           invoke (Call_register_domain registration_data)
                  (api_register_domain api_client registration_data) ;;
           try_except
             (let* d := registered_fields domain_name years in orm_Domain d)
             (fun _ => registered_fields domain_name years)
       end)
    (fun e =>
       match exn_kind e with
       | DomainError => reraise e
       | _ => raise DomainError ("Domain registration failed: " ++ str_exn e)
       end).

Definition enable_privacy_protection (domain_name : string) : M (World R) bool :=
  try_except
    (let* response := invoke (Call_enable_whois_privacy domain_name)
                             (enable_whois_privacy api_client domain_name) in
     ret (default false (success response)))
    (fun e => raise DomainError ("Failed to enable privacy protection: " ++ str_exn e)).

Definition register_domain_with_privacy (domain_name : string) (years : Z)
    (contact_info : option ContactInfo) : M (World R) Domain :=
  try_except
    (let* domain := register_domain domain_name years contact_info in
     let* privacy_success := enable_privacy_protection domain_name in
     if privacy_success then ret (set_privacy_protection domain true)
     else ret domain)
    (fun e => reraise e).

Definition get_domain_locking_status (domain_name : string) : M (World R) bool :=
  try_except
    (let* response := invoke (Call_get_domain_status domain_name)
                             (get_domain_status api_client domain_name) in
     ret (default false (st_locked response)))
    (fun e => raise DomainError ("Failed to get domain lock status: " ++ str_exn e)).

(** [datetime.fromisoformat(response.get(key).replace('Z', '+00:00'))] *)
Definition parse_date (field : option string) : outcome DT.datetime :=
  match field with
  | None => Raise (mkExn OtherException "'NoneType' object has no attribute 'replace'")
  | Some s =>
      match fromisoformat (Py.replace_char "Z" "+00:00" s) with
      | Some t => Ok t
      | None => Raise (mkExn OtherException ("Invalid isoformat string: " ++ s))
      end
  end.

(** The field values computed at manager.py:438-447 and again at 452-459. *)
Definition detail_fields (domain_name : string) (response : InfoResponse) : outcome Domain :=
  match DomainStatus_of_value (default "active" (info_status response)) with
  | Raise e => Raise e
  | Ok st =>
      match parse_date (info_expiry_date response) with
      | Raise e => Raise e
      | Ok expiry =>
          match parse_date (info_registration_date response) with
          | Raise e => Raise e
          | Ok reg =>
              Ok (mkDomain domain_name st expiry reg
                           (default [] (info_nameservers response))
                           (default false (info_locked response))
                           (default false (info_privacy response))
                           (default true (info_auto_renew response)))
          end
      end
  end.

Definition get_domain_details (domain_name : string) : M (World R) Domain :=
  try_except
    (let* response := invoke (Call_get_domain_info domain_name)
                             (get_domain_info api_client domain_name) in
     try_except
       (let* d := lift_outcome (detail_fields domain_name response) in orm_Domain d)
       (fun _ => lift_outcome (detail_fields domain_name response)))
    (fun e => raise DomainError ("Failed to get domain details: " ++ str_exn e)).

Definition check_transfer_eligibility (domain_name : string) : M (World R) bool :=
  try_except
    (let* is_locked := get_domain_locking_status domain_name in
     if is_locked then ret false
     else
       let* domain_details := get_domain_details domain_name in
       let* t := now in
       let* delta := lift_outcome (DT.sub (expiry_date domain_details) t) in
       let days_until_expiry := DT.days delta in
       if days_until_expiry <? 60 then ret false else ret true)
    (fun _ => ret false).

End Manager.

End DomainManager.

(** ** DNSManager (app/core/domain/dns.py) *)

Module DNSManager.

Inductive DNSRecordType := A | AAAA | CNAME | MX | TXT | NS | SRV | CAA | PTR | SOA.

Definition DNSRecordType_value (t : DNSRecordType) : string :=
  match t with
  | A => "A" | AAAA => "AAAA" | CNAME => "CNAME" | MX => "MX" | TXT => "TXT"
  | NS => "NS" | SRV => "SRV" | CAA => "CAA" | PTR => "PTR" | SOA => "SOA"
  end.

Definition all_record_types : list DNSRecordType :=
  [A; AAAA; CNAME; MX; TXT; NS; SRV; CAA; PTR; SOA].

(** [DNSRecordType(value)]: lookup by value, ValueError otherwise. *)
Definition DNSRecordType_of_value (v : string) : outcome DNSRecordType :=
  match List.find (fun t => String.eqb (DNSRecordType_value t) v) all_record_types with
  | Some t => Ok t
  | None => Raise (mkExn OtherException (v ++ " is not a valid DNSRecordType"))
  end.

Definition is_MX (t : DNSRecordType) : bool :=
  match t with MX => true | _ => false end.

(** The in-memory DNSRecord objects the manager passes around. *)
Record DNSRecord := mkRecord {
  rec_id : option Z;
  rec_type : string;
  rec_name : string;
  rec_value : string;
  rec_ttl : Z;
  rec_priority : option Z }.

(** One element of the remote answer's ['records'] list. *)
Record RecordData := mkData {
  rd_id : option Z;
  rd_type : string;
  rd_name : string;
  rd_value : string;
  rd_ttl : option Z;
  rd_priority : option Z }.

Record DnsApi (R : Type) := {
  api_get_dns_records : string -> R -> outcome (option (list RecordData)) * R;
  api_add_dns_record :
    string -> DNSRecordType -> string -> string -> Z -> option Z -> R -> outcome unit * R;
  api_delete_dns_record : string -> option Z -> R -> outcome unit * R }.
Arguments api_get_dns_records {R}.
Arguments api_add_dns_record {R}.
Arguments api_delete_dns_record {R}.

(** The world of a DNSManager call: the remote provider and the datastore
    behind [db_session]. *)
Record World (R D : Type) := mkWorld { remote : R; db : D }.
Arguments mkWorld {R D}.
Arguments remote {R D}.
Arguments db {R D}.

Section Validation.
(** [_validate_ipv4_address] is referenced at dns.py:215 and defined in the
    part of the class that the file elides; [ipv6_strict s] says whether
    [ipaddress.IPv6Address(s)] succeeds. *)
Context (_validate_ipv4_address : string -> outcome unit).
Context (ipv6_strict : string -> bool).

Definition _validate_dns_name (name : string) : bool :=
  Re.re_match Patterns.dns_name_pattern name.

Definition _validate_ipv6_address (ip_address : string) : outcome unit :=
  if ipv6_strict ip_address then Ok tt
  else if existsb (fun pattern => Re.re_match pattern ip_address) Patterns.ipv6_patterns
       then Ok tt
       else Raise (mkExn ValidationError ("Invalid IPv6 address: " ++ ip_address)).

(** The table [validation_methods] of lambdas; a lambda's value ([None] or
    a bool) is what the call at dns.py:225 computes and then drops. *)
Definition validation_methods (record_type : DNSRecordType)
    : option (string -> outcome (option bool)) :=
  match record_type with
  | A => Some (fun v => match _validate_ipv4_address v with
                        | Ok _ => Ok None | Raise e => Raise e end)
  | AAAA => Some (fun v => match _validate_ipv6_address v with
                           | Ok _ => Ok None | Raise e => Raise e end)
  | CNAME => Some (fun v => Ok (Some (_validate_dns_name v || Py.endswith_char "." (Py.chars v))))
  | MX => Some (fun v => Ok (Some (_validate_dns_name v)))
  | NS => Some (fun v => Ok (Some (_validate_dns_name v)))
  | TXT => Some (fun v => Ok (Some (Py.len v <=? 255)))
  | _ => None
  end.

Definition _validate_dns_record_input (record_type : DNSRecordType)
    (name value : string) (ttl : Z) (priority : option Z) : outcome unit :=
  if negb (Py.truthy name) || negb (Py.truthy value) then
    Raise (mkExn ValidationError "Name and value are required for DNS record")
  else if (ttl <? 60) || (ttl >? 86400) then
    Raise (mkExn ValidationError "TTL must be between 60 and 86400 seconds")
  else if negb (_validate_dns_name name) then
    Raise (mkExn ValidationError ("Invalid DNS name: " ++ name))
  else if is_MX record_type && negb (is_Some_b priority) then
    Raise (mkExn ValidationError "Priority is required for MX records")
  else if is_MX record_type
          && match priority with
             | Some p => (p <? 0) || (p >? 65535)
             | None => false
             end then
    Raise (mkExn ValidationError "Priority must be between 0 and 65535")
  else
    match validation_methods record_type with
    | Some method =>
        match method value with
        | Ok _ => Ok tt
        | Raise e =>
            match exn_kind e with
            | ValidationError => Raise e
            | _ => Raise (mkExn ValidationError
                            ("Invalid value for " ++ DNSRecordType_value record_type
                             ++ " record: " ++ str_exn e))
            end
        end
    | None => Ok tt
    end.

End Validation.

Section Manager.
Context {R D : Type} (api_client : DnsApi R).
(** Truthiness of [self.db_session]. *)
Context (db_session : bool).
(** [add_dns_record] and [delete_dns_record] are called at dns.py:90-101 and
    belong to the elided part of the class; the reconciliation code below is
    stated for any implementation of them. *)
Context (add_dns_record :
           string -> DNSRecordType -> string -> string -> Z -> option Z -> M (World R D) unit).
Context (delete_dns_record : string -> option Z -> M (World R D) unit).

Definition invoke {T} (h : R -> outcome T * R) : M (World R D) T :=
  fun w => let '(o, r') := h (remote w) in (o, mkWorld r' (db w)).

(** [with self.db_session.begin(): body]: the datastore side of [body]
    is committed on normal exit and rolled back when [body] raises; the
    exception then propagates. *)
Definition with_begin {T} (body : M (World R D) T) : M (World R D) T :=
  fun w => match body w with
           | (Ok a, w') => (Ok a, w')
           | (Raise e, w') => (Raise e, mkWorld (remote w') (db w))
           end.

Definition record_of_data (record_data : RecordData) : DNSRecord :=
  mkRecord (rd_id record_data) (rd_type record_data) (rd_name record_data)
           (rd_value record_data) (default 3600 (rd_ttl record_data))
           (rd_priority record_data).

Definition get_dns_records (domain_name : string) : M (World R D) (list DNSRecord) :=
  try_except
    (let* response := invoke (api_get_dns_records api_client domain_name) in
     ret (map record_of_data (default [] response)))
    (fun e => raise DNSError ("Failed to get DNS records: " ++ str_exn e)).

(** [for record in current_records: self.delete_dns_record(domain_name, record.id)] *)
Definition delete_all (domain_name : string) (current_records : list DNSRecord)
    : M (World R D) unit :=
  for_each current_records (fun record => delete_dns_record domain_name (rec_id record)).

(** [for record in records: self.add_dns_record(..., DNSRecordType(record.type), ...)] *)
Definition add_all (domain_name : string) (records : list DNSRecord)
    : M (World R D) unit :=
  for_each records (fun record =>
    let* record_type := lift_outcome (DNSRecordType_of_value (rec_type record)) in
    add_dns_record domain_name record_type (rec_name record) (rec_value record)
                   (rec_ttl record) (rec_priority record)).

Definition _update_records_with_transaction (domain_name : string)
    (records : list DNSRecord) : M (World R D) bool :=
  try_except
    (with_begin
       (let* current_records := get_dns_records domain_name in
        delete_all domain_name current_records ;;
        add_all domain_name records) ;;
     ret true)
    (fun e => reraise e).

Definition _restore_from_backup (domain_name : string)
    (backup_records : list DNSRecord) : M (World R D) unit :=
  try_except
    (let* current_records := get_dns_records domain_name in
     delete_all domain_name current_records ;;
     add_all domain_name backup_records)
    (fun restore_error =>
       raise DNSError ("Critical: DNS restoration failed for " ++ domain_name)).

Definition _update_records_without_transaction (domain_name : string)
    (records : list DNSRecord) : M (World R D) bool :=
  try_except
    (let* backup_records := get_dns_records domain_name in
     try_except
       (let* current_records := get_dns_records domain_name in
        delete_all domain_name current_records ;;
        add_all domain_name records ;;
        ret true)
       (fun e =>
          _restore_from_backup domain_name backup_records ;;
          reraise e))
    (fun e => ret false).

Definition update_dns_records (domain_name : string) (records : list DNSRecord)
    : M (World R D) bool :=
  try_except
    (if db_session then _update_records_with_transaction domain_name records
     else _update_records_without_transaction domain_name records)
    (fun e => raise DNSError ("Failed to update DNS records: " ++ str_exn e)).

End Manager.

Section ElidedMethods.
Context {R D : Type} (api_client : DnsApi R).
Context (_validate_ipv4_address : string -> outcome unit).
Context (ipv6_strict : string -> bool).

(** Modelled from the spec: [DNSManager.add_dns_record] is not in dns.py.
    Spec 4.2: per-record validation before any write, then the remote add;
    spec 7: a failure is re-raised as the component's error carrying the
    original message. *)
Definition add_dns_record (domain_name : string) (record_type : DNSRecordType)
    (name value : string) (ttl : Z) (priority : option Z) : M (World R D) unit :=
  try_except
    (lift_outcome (_validate_dns_record_input _validate_ipv4_address ipv6_strict
                     record_type name value ttl priority) ;;
     invoke (D := D)
       (api_add_dns_record api_client domain_name record_type name value ttl priority))
    (fun e => raise DNSError ("Failed to add DNS record: " ++ str_exn e)).

(** Modelled from the spec: [DNSManager.delete_dns_record] is not in dns.py.
    Spec 6: the remote gateway deletes one record of a domain; spec 7 as above. *)
Definition delete_dns_record (domain_name : string) (record_id : option Z)
    : M (World R D) unit :=
  try_except
    (invoke (D := D) (api_delete_dns_record api_client domain_name record_id))
    (fun e => raise DNSError ("Failed to delete DNS record: " ++ str_exn e)).

End ElidedMethods.

(** *** An in-memory provider for concrete runs

    Records live in a list; every client call consumes one entry of the
    scripted fault list and raises APIError when that entry is [true]. *)
Record FakeRemote := mkFake {
  fake_records : list RecordData;
  fake_next_id : Z;
  fake_faults : list bool }.

Definition fake_step {T} (f : FakeRemote -> outcome T * FakeRemote) (r : FakeRemote)
    : outcome T * FakeRemote :=
  match fake_faults r with
  | true :: fs =>
      (Raise (mkExn APIError "remote unavailable"),
       mkFake (fake_records r) (fake_next_id r) fs)
  | false :: fs => f (mkFake (fake_records r) (fake_next_id r) fs)
  | [] => f r
  end.

Definition option_Z_eqb (x y : option Z) : bool :=
  match x, y with
  | Some u, Some v => u =? v
  | None, None => true
  | _, _ => false
  end.

Definition fake_api : DnsApi FakeRemote := {|
  api_get_dns_records := fun _ =>
    fake_step (fun r => (Ok (Some (fake_records r)), r));
  api_add_dns_record := fun _ t n v ttl pr =>
    fake_step (fun r =>
      (Ok tt,
       mkFake (fake_records r ++
                 [mkData (Some (fake_next_id r)) (DNSRecordType_value t) n v (Some ttl) pr])
              (fake_next_id r + 1) (fake_faults r)));
  api_delete_dns_record := fun _ rid =>
    fake_step (fun r =>
      (Ok tt,
       mkFake (List.filter (fun d => negb (option_Z_eqb (rd_id d) rid)) (fake_records r))
              (fake_next_id r) (fake_faults r))) |}.

End DNSManager.

(** ** HostingManager (app/core/hosting/manager.py) over the repositories
       (app/core/shared/repositories.py) *)

Module HostingManager.

Definition UUID := Z.

Inductive HostingStatus := HS_ACTIVE | HS_SUSPENDED | HS_PENDING | HS_CANCELLED.

Record HostingPackage := mkPackage {
  pkg_id : UUID;
  pkg_name : string;
  disk_space : Z;
  bandwidth : Z;
  pkg_active : bool }.

Record Customer := mkCustomer {
  cust_id : UUID;
  cust_email : string;
  cust_first_name : string;
  cust_last_name : string }.

Record HostingAccount := mkAccount {
  acc_id : UUID;
  acc_domain : string;
  acc_username : string;
  acc_status : HostingStatus;
  acc_ip_address : option string;
  acc_disk_usage : Z;
  acc_bandwidth_usage : Z;
  acc_suspended_reason : option string;
  acc_expires_date : option DT.datetime;
  acc_customer_id : option UUID;
  acc_package_id : option UUID }.

(** The tables behind the session, in row order. *)
Record Db := mkDb {
  hosting_accounts : list HostingAccount;
  hosting_packages : list HostingPackage;
  customers : list Customer }.

Record CreateResponse := { ip_address : option string }.
Record UsageData := mkUsage {
  ud_disk_usage : option Z;
  ud_bandwidth_usage : option Z;
  ud_disk_limit : option Z;
  ud_bandwidth_limit : option Z }.

Record HostingApi (R : Type) := {
  create_account :
    string -> string -> string -> string -> string -> R -> outcome CreateResponse * R;
  suspend_account_api : string -> string -> R -> outcome unit * R;
  unsuspend_account_api : string -> R -> outcome unit * R;
  change_plan : string -> string -> R -> outcome unit * R;
  get_account_usage_api : string -> R -> outcome UsageData * R;
  delete_account : string -> R -> outcome unit * R }.
Arguments create_account {R}.
Arguments suspend_account_api {R}.
Arguments unsuspend_account_api {R}.
Arguments change_plan {R}.
Arguments get_account_usage_api {R}.
Arguments delete_account {R}.

Inductive ApiCall :=
| Call_create_account (domain username : string)
| Call_suspend_account (username : string)
| Call_unsuspend_account (username : string)
| Call_change_plan (username plan : string)
| Call_get_account_usage (username : string)
| Call_delete_account (username : string).

Record World (R : Type) := mkWorld {
  db : Db;
  remote : R;
  calls : list ApiCall;
  clock : nat -> Z;
  ticks : nat;
  uuid_source : nat -> UUID;     (* what the n-th [uuid.uuid4()] returns *)
  uuid_drawn : nat }.
Arguments mkWorld {R}.
Arguments db {R}.
Arguments remote {R}.
Arguments calls {R}.
Arguments clock {R}.
Arguments ticks {R}.
Arguments uuid_source {R}.
Arguments uuid_drawn {R}.

(** [round(usage / limit * 100, 2) if limit > 0 else 0]; the float value is
    kept symbolic. *)
Inductive Percent :=
| PercentZero
| PercentRounded (usage limit : Z).

(** The returned [usage_data] dict: the fetched (or simulated) entries plus
    the two percentages. *)
Record UsageReport := mkReport {
  rep_usage : UsageData;
  disk_usage_percent : Percent;
  bandwidth_usage_percent : Percent }.

Section Manager.
Context {R : Type}.
(** [self.api_client], [None] when no remote client is configured. *)
Context (api_client : option (HostingApi R)).

Definition set_db (w : World R) (d : Db) : World R :=
  mkWorld d (remote w) (calls w) (clock w) (ticks w) (uuid_source w) (uuid_drawn w).

Definition invoke {T} (c : ApiCall) (h : R -> outcome T * R) : M (World R) T :=
  fun w =>
    let '(o, r') := h (remote w) in
    (o, mkWorld (db w) r' (calls w ++ [c]) (clock w) (ticks w)
                (uuid_source w) (uuid_drawn w)).

Definition now : M (World R) DT.datetime :=
  fun w => (Ok (DT.mkDT (clock w (ticks w)) false),
            mkWorld (db w) (remote w) (calls w) (clock w) (S (ticks w))
                    (uuid_source w) (uuid_drawn w)).

Definition uuid4 : M (World R) UUID :=
  fun w => (Ok (uuid_source w (uuid_drawn w)),
            mkWorld (db w) (remote w) (calls w) (clock w) (ticks w)
                    (uuid_source w) (S (uuid_drawn w))).

(** *** Repositories *)

(** [BaseRepository.get] on hosting_packages *)
Definition packages_get (id : UUID) : M (World R) (option HostingPackage) :=
  fun w => (Ok (List.find (fun p => pkg_id p =? id) (hosting_packages (db w))), w).

(** [BaseRepository.get] on customers *)
Definition customers_get (id : UUID) : M (World R) (option Customer) :=
  fun w => (Ok (List.find (fun c => cust_id c =? id) (customers (db w))), w).

(** [BaseRepository.get] on hosting_accounts *)
Definition accounts_get (id : UUID) : M (World R) (option HostingAccount) :=
  fun w => (Ok (List.find (fun a => acc_id a =? id) (hosting_accounts (db w))), w).

(** [HostingAccountRepository.get_by_domain] *)
Definition accounts_get_by_domain (domain : string) : M (World R) (option HostingAccount) :=
  fun w => (Ok (List.find (fun a => String.eqb (acc_domain a) domain)
                          (hosting_accounts (db w))), w).

(** [BaseRepository.create] with an [obj_in] that has no ['id'] key;
    [fields] builds the row from the drawn id. *)
Definition accounts_create (fields : UUID -> HostingAccount) : M (World R) HostingAccount :=
  let* id := uuid4 in
  fun w =>
    let obj := fields id in
    (Ok obj,
     set_db w (mkDb (hosting_accounts (db w) ++ [obj])
                    (hosting_packages (db w)) (customers (db w)))).

Fixpoint update_first (id : UUID) (f : HostingAccount -> HostingAccount)
    (rows : list HostingAccount) : list HostingAccount :=
  match rows with
  | [] => []
  | a :: rest => if acc_id a =? id then f a :: rest else a :: update_first id f rest
  end.

(** [BaseRepository.update]: [setattr] each field of [obj_in] on the row. *)
Definition accounts_update (id : UUID) (obj_in : HostingAccount -> HostingAccount)
    : M (World R) (option HostingAccount) :=
  let* obj := accounts_get id in
  match obj with
  | Some a =>
      fun w =>
        (Ok (Some (obj_in a)),
         set_db w (mkDb (update_first id obj_in (hosting_accounts (db w)))
                        (hosting_packages (db w)) (customers (db w))))
  | None => ret None
  end.

Fixpoint delete_first (id : UUID) (rows : list HostingAccount) : list HostingAccount :=
  match rows with
  | [] => []
  | a :: rest => if acc_id a =? id then rest else a :: delete_first id rest
  end.

(** [BaseRepository.delete] *)
Definition accounts_delete (id : UUID) : M (World R) bool :=
  let* obj := accounts_get id in
  match obj with
  | Some _ =>
      fun w =>
        (Ok true,
         set_db w (mkDb (delete_first id (hosting_accounts (db w)))
                        (hosting_packages (db w)) (customers (db w))))
  | None => ret false
  end.

(** [account.package] *)
Definition account_package (w : World R) (a : HostingAccount) : option HostingPackage :=
  match acc_package_id a with
  | Some pid => List.find (fun p => pkg_id p =? pid) (hosting_packages (db w))
  | None => None
  end.

(** *** The manager *)

Definition _validate_hosting_input (domain username password : string) : outcome unit :=
  if negb (Py.truthy domain) || negb (Py.mem_char "." (Py.chars domain)) then
    Raise (mkExn ValidationError "Invalid domain name")
  else if negb (Py.truthy username) || (Py.len username <? 3) then
    Raise (mkExn ValidationError "Username must be at least 3 characters")
  else if negb (Py.truthy password) || (Py.len password <? 8) then
    Raise (mkExn ValidationError "Password must be at least 8 characters")
  else if negb (Re.accepts Patterns.username_pattern (Py.lower (Py.chars username))) then
    Raise (mkExn ValidationError
             "Username can only contain lowercase letters, numbers, and underscores")
  else Ok tt.

(** [try: body except Exception as e: raise HostingError(f"{prefix}: {str(e)}")] *)
Definition wrap_hosting {T} (prefix : string) (body : M (World R) T) : M (World R) T :=
  try_except body (fun e => raise HostingError (prefix ++ ": " ++ str_exn e)).

Definition create_body (domain : string) (package_id customer_id : UUID)
    (username password : string) : M (World R) HostingAccount :=
  lift_outcome (_validate_hosting_input domain username password) ;;
  let* package := packages_get package_id in
  match package with
  | None => raise ValidationError "Hosting package not found or inactive"
  | Some package =>
  if negb (pkg_active package) then
    raise ValidationError "Hosting package not found or inactive"
  else
  let* customer := customers_get customer_id in
  match customer with
  | None => raise ValidationError "Customer not found"
  | Some customer =>
  let* existing_account := accounts_get_by_domain domain in
  match existing_account with
  | Some _ =>
      raise ValidationError ("Hosting account already exists for domain: " ++ domain)
  | None =>
  let* ip :=
    match api_client with
    | Some api =>
        let* hosting_response :=
          invoke (Call_create_account domain username)
                 (create_account api domain username password
                                 (pkg_name package) (cust_email customer)) in
        ret (default "0.0.0.0" (ip_address hosting_response))
    | None => ret "192.168.1.100"
    end in
  let* t := now in
  let* delta := lift_outcome (DT.timedelta_days 365) in
  let* expires := lift_outcome (DT.add t delta) in
  accounts_create (fun id =>
    mkAccount id domain username HS_PENDING (Some ip) 0 0 None (Some expires)
              (Some customer_id) (Some package_id))
  end end end.

Definition create_hosting_account (domain : string) (package_id customer_id : UUID)
    (username password : string) : M (World R) HostingAccount :=
  wrap_hosting "Failed to create hosting account"
    (create_body domain package_id customer_id username password).

Definition set_status_reason (st : HostingStatus) (reason : option string)
    (a : HostingAccount) : HostingAccount :=
  mkAccount (acc_id a) (acc_domain a) (acc_username a) st (acc_ip_address a)
            (acc_disk_usage a) (acc_bandwidth_usage a) reason (acc_expires_date a)
            (acc_customer_id a) (acc_package_id a).

Definition suspend_body (account_id : UUID) (reason : string) : M (World R) bool :=
  let* account := accounts_get account_id in
  match account with
  | None => raise ValidationError "Hosting account not found"
  | Some account =>
      match api_client with
      | Some api => invoke (Call_suspend_account (acc_username account))
                           (suspend_account_api api (acc_username account) reason)
      | None => ret tt
      end ;;
      accounts_update account_id (set_status_reason HS_SUSPENDED (Some reason)) ;;
      ret true
  end.

Definition suspend_account (account_id : UUID) (reason : string) : M (World R) bool :=
  wrap_hosting "Failed to suspend hosting account" (suspend_body account_id reason).

Definition unsuspend_body (account_id : UUID) : M (World R) bool :=
  let* account := accounts_get account_id in
  match account with
  | None => raise ValidationError "Hosting account not found"
  | Some account =>
      match api_client with
      | Some api => invoke (Call_unsuspend_account (acc_username account))
                           (unsuspend_account_api api (acc_username account))
      | None => ret tt
      end ;;
      accounts_update account_id (set_status_reason HS_ACTIVE None) ;;
      ret true
  end.

Definition unsuspend_account (account_id : UUID) : M (World R) bool :=
  wrap_hosting "Failed to unsuspend hosting account" (unsuspend_body account_id).

Definition set_package_id (pid : UUID) (a : HostingAccount) : HostingAccount :=
  mkAccount (acc_id a) (acc_domain a) (acc_username a) (acc_status a) (acc_ip_address a)
            (acc_disk_usage a) (acc_bandwidth_usage a) (acc_suspended_reason a)
            (acc_expires_date a) (acc_customer_id a) (Some pid).

Definition change_plan_body (account_id new_package_id : UUID) : M (World R) bool :=
  let* account := accounts_get account_id in
  match account with
  | None => raise ValidationError "Hosting account not found"
  | Some account =>
      let* new_package := packages_get new_package_id in
      match new_package with
      | None => raise ValidationError "New hosting package not found or inactive"
      | Some new_package =>
          if negb (pkg_active new_package) then
            raise ValidationError "New hosting package not found or inactive"
          else
            match api_client with
            | Some api =>
                invoke (Call_change_plan (acc_username account) (pkg_name new_package))
                       (change_plan api (acc_username account) (pkg_name new_package))
            | None => ret tt
            end ;;
            accounts_update account_id (set_package_id new_package_id) ;;
            ret true
      end
  end.

Definition change_hosting_plan (account_id new_package_id : UUID) : M (World R) bool :=
  wrap_hosting "Failed to change hosting plan" (change_plan_body account_id new_package_id).

Definition set_usage (disk bw : Z) (a : HostingAccount) : HostingAccount :=
  mkAccount (acc_id a) (acc_domain a) (acc_username a) (acc_status a) (acc_ip_address a)
            disk bw (acc_suspended_reason a) (acc_expires_date a)
            (acc_customer_id a) (acc_package_id a).

(** [usage_data[key]] *)
Definition subscript (key : string) (v : option Z) : outcome Z :=
  match v with
  | Some z => Ok z
  | None => Raise (mkExn OtherException ("'" ++ key ++ "'"))
  end.

Definition usage_body (account_id : UUID) : M (World R) UsageReport :=
  let* account := accounts_get account_id in
  match account with
  | None => raise ValidationError "Hosting account not found"
  | Some account =>
      let* usage_data :=
        match api_client with
        | Some api =>
            let* usage_data :=
              invoke (Call_get_account_usage (acc_username account))
                     (get_account_usage_api api (acc_username account)) in
            accounts_update account_id
              (set_usage (default 0 (ud_disk_usage usage_data))
                         (default 0 (ud_bandwidth_usage usage_data))) ;;
            ret usage_data
        | None =>
            fun w =>
              (Ok (mkUsage (Some (acc_disk_usage account))
                           (Some (acc_bandwidth_usage account))
                           (Some (match account_package w account with
                                  | Some p => disk_space p | None => 1024 end))
                           (Some (match account_package w account with
                                  | Some p => bandwidth p | None => 10240 end))), w)
        end in
      let disk_limit := default 1024 (ud_disk_limit usage_data) in
      let bandwidth_limit := default 10240 (ud_bandwidth_limit usage_data) in
      let* disk_percent :=
        if disk_limit >? 0 then
          let* u := lift_outcome (subscript "disk_usage" (ud_disk_usage usage_data)) in
          ret (PercentRounded u disk_limit)
        else ret PercentZero in
      let* bandwidth_percent :=
        if bandwidth_limit >? 0 then
          let* u := lift_outcome (subscript "bandwidth_usage" (ud_bandwidth_usage usage_data)) in
          ret (PercentRounded u bandwidth_limit)
        else ret PercentZero in
      ret (mkReport usage_data disk_percent bandwidth_percent)
  end.

Definition get_account_usage (account_id : UUID) : M (World R) UsageReport :=
  wrap_hosting "Failed to get account usage" (usage_body account_id).

Definition set_expiry_active (t : DT.datetime) (a : HostingAccount) : HostingAccount :=
  mkAccount (acc_id a) (acc_domain a) (acc_username a) HS_ACTIVE (acc_ip_address a)
            (acc_disk_usage a) (acc_bandwidth_usage a) (acc_suspended_reason a)
            (Some t) (acc_customer_id a) (acc_package_id a).

Definition renew_body (account_id : UUID) (years : Z) : M (World R) bool :=
  let* account := accounts_get account_id in
  match account with
  | None => raise ValidationError "Hosting account not found"
  | Some account =>
      let* current_expiry :=
        match acc_expires_date account with
        | Some t => ret t
        | None => now
        end in
      let* delta := lift_outcome (DT.timedelta_days (365 * years)) in
      let* new_expiry := lift_outcome (DT.add current_expiry delta) in
      accounts_update account_id (set_expiry_active new_expiry) ;;
      ret true
  end.

Definition renew_hosting_account (account_id : UUID) (years : Z) : M (World R) bool :=
  wrap_hosting "Failed to renew hosting account" (renew_body account_id years).

Definition delete_body (account_id : UUID) : M (World R) bool :=
  let* account := accounts_get account_id in
  match account with
  | None => raise ValidationError "Hosting account not found"
  | Some account =>
      match api_client with
      | Some api => invoke (Call_delete_account (acc_username account))
                           (delete_account api (acc_username account))
      | None => ret tt
      end ;;
      accounts_delete account_id
  end.

Definition delete_hosting_account (account_id : UUID) : M (World R) bool :=
  wrap_hosting "Failed to delete hosting account" (delete_body account_id).

End Manager.

End HostingManager.

(** ** Further operations of DomainManager (manager.py:77-120, 216-245,
       268-294, 330-384) *)

Module DomainOperations.

(** [list(dict.fromkeys(items))]: the keys in first-seen order. *)
Definition fromkeys (items : list string) : list string :=
  fold_left (fun keys x =>
               if existsb (String.eqb x) keys then keys else (keys ++ [x])%list)
            items [].

(** [items[:count]] *)
Definition slice_to {T} (count : Z) (items : list T) : list T :=
  if 0 <=? count then firstn (Z.to_nat count) items
  else firstn (List.length items - Z.to_nat (- count)) items.

Definition default_tlds : list string := [".com"; ".net"; ".org"; ".ir"].
Definition prefixes : list string := ["my"; "get"; "the"; "best"; "top"].
Definition suffixes : list string := ["online"; "site"; "web"; "hub"; "center"].

Definition base_suggestions (keyword : string) (tlds : list string) : list string :=
  map (fun tld => keyword ++ tld) tlds.

Definition combined_suggestions (keyword : string) (tlds : list string) : list string :=
  flat_map (fun tld =>
              (map (fun prefix => (prefix ++ keyword ++ tld)%string) prefixes
               ++ map (fun suffix => (keyword ++ suffix ++ tld)%string) suffixes)%list)
           tlds.

Definition suggest_domain_names (keyword : string) (tlds : option (list string))
    (count : Z) : list string :=
  let tlds := default default_tlds tlds in
  let all_suggestions :=
    (base_suggestions keyword tlds ++ combined_suggestions keyword tlds)%list in
  slice_to count (fromkeys all_suggestions).

Record AuthCodeResponse := { auth_code : option string }.

Record ContactResponse := {
  cr_first_name : option string; cr_last_name : option string;
  cr_email : option string; cr_phone : option string;
  cr_address : option string; cr_city : option string;
  cr_country : option string; cr_zip_code : option string }.

(** The registrar client methods used by the operations of this section and
    by the services of services.py. *)
Record OpsApi (R : Type) := {
  api_renew_domain : string -> Z -> R -> outcome unit * R;
  api_transfer_domain : string -> string -> ContactInfo -> R -> outcome unit * R;
  api_lock_domain : string -> R -> outcome unit * R;
  api_unlock_domain : string -> R -> outcome unit * R;
  get_auth_code : string -> R -> outcome AuthCodeResponse * R;
  get_contacts : string -> string -> R -> outcome ContactResponse * R;
  update_contacts : string -> string -> ContactInfo -> R -> outcome unit * R }.
Arguments api_renew_domain {R}.
Arguments api_transfer_domain {R}.
Arguments api_lock_domain {R}.
Arguments api_unlock_domain {R}.
Arguments get_auth_code {R}.
Arguments get_contacts {R}.
Arguments update_contacts {R}.

Inductive ApiCall :=
| Call_renew_domain (d : string) (years : Z)
| Call_transfer_domain (d : string)
| Call_lock_domain (d : string)
| Call_unlock_domain (d : string)
| Call_get_auth_code (d : string)
| Call_get_contacts (d : string) (contact_type : string)
| Call_update_contacts (d : string) (contact_type : string).

Record World (R : Type) := mkWorld { remote : R; calls : list ApiCall }.
Arguments mkWorld {R}.
Arguments remote {R}.
Arguments calls {R}.

Section Operations.
Context {R : Type} (api_client : OpsApi R).

Definition invoke {T} (c : ApiCall) (h : R -> outcome T * R) : M (World R) T :=
  fun w => let '(o, r') := h (remote w) in (o, mkWorld r' (calls w ++ [c])%list).

Definition renew_domain (domain_name : string) (years : Z) : M (World R) bool :=
  try_except
    (if years <=? 0 then raise ValidationError "Years must be a positive integer"
     else
       invoke (Call_renew_domain domain_name years)
              (api_renew_domain api_client domain_name years) ;;
       ret true)
    (fun e => raise DomainError ("Domain renewal failed: " ++ str_exn e)).

Definition transfer_domain (domain_name auth : string)
    (contact_info : option ContactInfo) : M (World R) bool :=
  try_except
    (match contact_info with
     | None => raise OtherException "'NoneType' object has no attribute 'to_dict'"
     | Some c =>
         invoke (Call_transfer_domain domain_name)
                (api_transfer_domain api_client domain_name auth c) ;;
         ret true
     end)
    (fun e => raise DomainError ("Domain transfer failed: " ++ str_exn e)).

Definition lock_domain (domain_name : string) : M (World R) bool :=
  try_except
    (invoke (Call_lock_domain domain_name) (api_lock_domain api_client domain_name) ;;
     ret true)
    (fun e => raise DomainError ("Failed to lock domain: " ++ str_exn e)).

Definition unlock_domain (domain_name : string) : M (World R) bool :=
  try_except
    (invoke (Call_unlock_domain domain_name) (api_unlock_domain api_client domain_name) ;;
     ret true)
    (fun e => raise DomainError ("Failed to unlock domain: " ++ str_exn e)).

Definition get_authorization_code (domain_name : string) : M (World R) string :=
  try_except
    (let* response := invoke (Call_get_auth_code domain_name)
                             (get_auth_code api_client domain_name) in
     let code := default "" (auth_code response) in
     if negb (Py.truthy code) then raise DomainError "No authorization code received"
     else ret code)
    (fun e => raise DomainError ("Failed to get authorization code: " ++ str_exn e)).

End Operations.

(** *** Pricing (manager.py:363-384); [config.get_tld_price] is the injected
    price table, a lookup that may raise. *)

Record PriceInfo (Price : Type) := mkPriceInfo {
  registration : Price; renewal : Price; transfer : Price; currency : string }.
Arguments mkPriceInfo {Price}.

Section Pricing.
Context {Price : Type} (get_tld_price : string -> string -> outcome Price).

(** [tld[1:] if tld.startswith('.') else tld] *)
Definition tld_clean (tld : string) : string :=
  match tld with
  | String "." rest => rest
  | _ => tld
  end.

(** The [PriceInfo(...)] expression of manager.py:374-379; its arguments are
    evaluated in order. *)
Definition price_entry (tld : string) : outcome (PriceInfo Price) :=
  match get_tld_price (tld_clean tld) "registration" with
  | Raise e => Raise e
  | Ok reg =>
      match get_tld_price (tld_clean tld) "renewal" with
      | Raise e => Raise e
      | Ok ren =>
          match get_tld_price (tld_clean tld) "transfer" with
          | Raise e => Raise e
          | Ok tr => Ok (mkPriceInfo reg ren tr "USD")
          end
      end
  end.

Definition get_tld_pricing (tld_list : list string) : gmap string (option (PriceInfo Price)) :=
  fold_left (fun pricing tld =>
               match price_entry tld with
               | Ok info => <[tld := Some info]> pricing
               | Raise _ => <[tld := None]> pricing
               end)
            tld_list ∅.

End Pricing.

End DomainOperations.

(** ** ContactService and BulkOperationsService (services.py:68-293) *)

Module DomainServices.
Import DomainOperations.

Inductive ContactType := REGISTRANT | ADMIN | TECH | BILLING.

Definition ContactType_value (t : ContactType) : string :=
  match t with
  | REGISTRANT => "registrant" | ADMIN => "admin" | TECH => "tech" | BILLING => "billing"
  end.

(** [\s] and [\d] on one-byte characters. *)
Definition is_space (a : ascii) : bool :=
  existsb (Nat.eqb (nat_of_ascii a)) [9; 10; 11; 12; 13; 28; 29; 30; 31; 32; 133; 160]%nat.
Definition is_separator (a : ascii) : bool :=
  is_space a || Py.is_char "." a || Py.is_char "-" a.

(** services.py:177  [^[a-zA-Z0-9._%+-]+@[a-zA-Z0-9.-]+\.[a-zA-Z]{2,}$] *)
Definition email_local_char (a : ascii) : bool :=
  Py.is_alnum a || Py.is_char "." a || Py.is_char "_" a || Py.is_char "%" a
  || Py.is_char "+" a || Py.is_char "-" a.
Definition email_pattern : Re.re :=
  Re.Cat (Re.Plus (Re.Class email_local_char))
    (Re.Cat (Re.Chr "@")
       (Re.Cat (Re.Plus (Re.Class Patterns.allowed_char))
          (Re.Cat (Re.Chr ".")
             (Re.Cat (Re.AtLeast 2 (Re.Class Py.is_alpha)) Re.Eol)))).

(** services.py:186
    [^\+\d{1,3}[\s.-]?\(?\d{1,4}\)?[\s.-]?\d{1,4}[\s.-]?\d{1,9}$] *)
Definition digits (lo hi : nat) : Re.re := Re.Between lo hi (Re.Class Py.is_digit).
Definition sep_opt : Re.re := Re.Opt (Re.Class is_separator).
Definition phone_pattern : Re.re :=
  Re.Cat (Re.Chr "+")
    (Re.Cat (digits 1 3)
       (Re.Cat sep_opt
          (Re.Cat (Re.Opt (Re.Chr "("))
             (Re.Cat (digits 1 4)
                (Re.Cat (Re.Opt (Re.Chr ")"))
                   (Re.Cat sep_opt
                      (Re.Cat (digits 1 4)
                         (Re.Cat sep_opt (Re.Cat (digits 1 9) Re.Eol))))))))).

Definition _validate_email (email : string) : bool :=
  if negb (Py.truthy email) then false else Re.re_match email_pattern email.

Definition _validate_phone (phone tld : string) : bool :=
  if negb (Py.truthy phone) then false else Re.re_match phone_pattern phone.

Definition _validate_contact_data (contact_data : ContactInfo) : outcome unit :=
  if negb (Py.truthy (email contact_data)) then
    Raise (mkExn ValidationError "Email is required")
  else if negb (Py.truthy (first_name contact_data))
          || negb (Py.truthy (last_name contact_data)) then
    Raise (mkExn ValidationError "First and last name are required")
  else Ok tt.

Record ContactValidation := mkValidation { cv_valid : bool; cv_errors : list string }.

(** [validation_results['valid'] = False; validation_results['errors'].append(msg)]
    when [cond] *)
Definition fail_if (cond : bool) (msg : string) (r : ContactValidation)
    : ContactValidation :=
  if cond then mkValidation false (cv_errors r ++ [msg])%list else r.

Definition eu_countries : list string :=
  ["EU"; "AT"; "BE"; "BG"; "HR"; "CY"; "CZ"; "DK";
   "EE"; "FI"; "FR"; "DE"; "GR"; "HU"; "IE"; "IT";
   "LV"; "LT"; "LU"; "MT"; "NL"; "PL"; "PT"; "RO";
   "SK"; "SI"; "ES"; "SE"].

Definition validate_contact_info (contact_data : ContactInfo) (tld : string)
    : ContactValidation :=
  let r0 := mkValidation true [] in
  let r1 := fail_if (negb (Py.truthy (first_name contact_data))
                     || negb (Py.truthy (last_name contact_data)))
                    "First and last name are required" r0 in
  let r2 := fail_if (negb (_validate_email (email contact_data)))
                    "Invalid email format" r1 in
  let r3 := fail_if (negb (_validate_phone (phone contact_data) tld))
                    "Invalid phone number format" r2 in
  if String.eqb tld ".eu" then
    fail_if (negb (existsb (String.eqb (country contact_data)) eu_countries))
            "EU domains require EU-based contact" r3
  else if String.eqb tld ".ca" then
    fail_if (negb (String.eqb (country contact_data) "CA"))
            ".ca domains require Canadian presence" r3
  else r3.

Section Services.
Context {R : Type} (api_client : OpsApi R).

Definition get_contact_info (domain_name : string) (contact_type : ContactType)
    : M (World R) ContactInfo :=
  try_except
    (let* response :=
       invoke (Call_get_contacts domain_name (ContactType_value contact_type))
              (get_contacts api_client domain_name (ContactType_value contact_type)) in
     ret (mkContact (default "" (cr_first_name response))
                    (default "" (cr_last_name response))
                    (default "" (cr_email response))
                    (default "" (cr_phone response))
                    (default "" (cr_address response))
                    (default "" (cr_city response))
                    (default "" (cr_country response))
                    (default "" (cr_zip_code response))
                    ""))
    (fun e => raise DomainError ("Failed to get contact information: " ++ str_exn e)).

Definition update_contact_info (domain_name : string) (contact_type : ContactType)
    (contact_data : ContactInfo) : M (World R) bool :=
  try_except
    (lift_outcome (_validate_contact_data contact_data) ;;
     invoke (Call_update_contacts domain_name (ContactType_value contact_type))
            (update_contacts api_client domain_name (ContactType_value contact_type)
                             contact_data) ;;
     ret true)
    (fun e =>
       match exn_kind e with
       | ValidationError => reraise e
       | _ => raise DomainError ("Failed to update contact information: " ++ str_exn e)
       end).

Record BulkResults := mkBulk {
  successful : list string; failed : list string; total_processed : Z }.

(** One turn of the [for domain in domain_list] loops of
    [bulk_domain_renewal], [bulk_contact_update] and [bulk_domain_lock]; the
    three loops differ only in the operation they try. *)
Definition bulk_turn (operation : string -> M (World R) bool) (results : BulkResults)
    (domain : string) : M (World R) BulkResults :=
  try_except
    (let* ok := operation domain in
     let results :=
       if ok then mkBulk (successful results ++ [domain])%list (failed results)
                         (total_processed results)
       else mkBulk (successful results) (failed results ++ [domain])%list
                   (total_processed results) in
     ret (mkBulk (successful results) (failed results) (total_processed results + 1)))
    (fun _ =>
       ret (mkBulk (successful results) (failed results ++ [domain])%list
                   (total_processed results + 1))).

Fixpoint bulk_run (operation : string -> M (World R) bool) (domain_list : list string)
    (results : BulkResults) : M (World R) BulkResults :=
  match domain_list with
  | [] => ret results
  | domain :: rest =>
      let* results' := bulk_turn operation results domain in
      bulk_run operation rest results'
  end.

Definition bulk_domain_renewal (domain_list : list string) (years : Z)
    : M (World R) BulkResults :=
  bulk_run (fun domain => renew_domain api_client domain years) domain_list
           (mkBulk [] [] 0).

Definition bulk_contact_update (domain_list : list string) (contact_type : ContactType)
    (contact_data : ContactInfo) : M (World R) BulkResults :=
  bulk_run (fun domain => update_contact_info domain contact_type contact_data)
           domain_list (mkBulk [] [] 0).

Definition bulk_domain_lock (domain_list : list string) (lock : bool)
    : M (World R) BulkResults :=
  bulk_run (fun domain => if lock then lock_domain api_client domain
                          else unlock_domain api_client domain)
           domain_list (mkBulk [] [] 0).

End Services.

End DomainServices.

(** ** Scripted clients and vocabulary for the statements *)

Module RegistrarStub.
Import DomainManager.

(** A registrar client that answers from a fixed script and has no state of
    its own (a test double with [return_value] / [side_effect]). *)
Record Script := mkScript {
  on_check_availability : string -> outcome AvailabilityResponse;
  on_register_domain : outcome unit;
  on_get_domain_status : outcome StatusResponse;
  on_get_domain_info : outcome InfoResponse;
  on_enable_whois_privacy : outcome PrivacyResponse }.

Definition api : RegistrarApi Script := {|
  check_availability := fun d r => (on_check_availability r d, r);
  api_register_domain := fun _ r => (on_register_domain r, r);
  get_domain_status := fun _ r => (on_get_domain_status r, r);
  get_domain_info := fun _ r => (on_get_domain_info r, r);
  enable_whois_privacy := fun _ r => (on_enable_whois_privacy r, r) |}.

(** A date parser that knows the strings of a table. *)
Fixpoint fromisoformat_table (table : list (string * DT.datetime)) (s : string)
    : option DT.datetime :=
  match table with
  | [] => None
  | (k, t) :: rest => if String.eqb k s then Some t else fromisoformat_table rest s
  end.

Definition api_error : exn := mkExn OtherException "API Error".

Definition all_available : Script :=
  mkScript (fun _ => Ok {| available := Some true |})
           (Ok tt)
           (Ok {| st_locked := Some false |})
           (Raise api_error)
           (Ok {| success := Some true |}).

Definition none_available : Script :=
  mkScript (fun _ => Ok {| available := Some false |})
           (Ok tt)
           (Ok {| st_locked := Some false |})
           (Raise api_error)
           (Ok {| success := Some true |}).

(** The privacy call answers [{'success': False}]. *)
Definition privacy_refused : Script :=
  mkScript (fun _ => Ok {| available := Some true |})
           (Ok tt)
           (Ok {| st_locked := Some false |})
           (Raise api_error)
           (Ok {| success := Some false |}).

(** The privacy call throws. *)
Definition privacy_throws : Script :=
  mkScript (fun _ => Ok {| available := Some true |})
           (Ok tt)
           (Ok {| st_locked := Some false |})
           (Raise api_error)
           (Raise api_error).

Definition sample_contact : ContactInfo :=
  mkContact "John" "Doe" "john@example.com" "+1234567890" "123 Main St"
            "New York" "US" "10001" "".

(** 2026-01-01T00:00:00 as microseconds since 0001-01-01. *)
Definition t2026 : Z := 739616 * DT.us_per_day.

(** Successive clock readings, one microsecond apart. *)
Definition readings : list Z := [t2026; t2026 + 1; t2026 + 2; t2026 + 3].

Definition world0 (r : Script) : World Script :=
  mkWorld r [] (fun n => nth n readings (t2026 + 4)) 0 true.

(** The dates the parser stub knows; the last one carries a UTC offset. *)
Definition iso_table : list (string * DT.datetime) :=
  [("2025-01-01T00:00:00", DT.mkDT (t2026 - 365 * DT.us_per_day) false);
   ("2026-01-31T00:00:00", DT.mkDT (t2026 + 30 * DT.us_per_day) false);
   ("2026-04-01T00:00:00", DT.mkDT (t2026 + 90 * DT.us_per_day) false);
   ("2026-04-01T00:00:00+00:00", DT.mkDT (t2026 + 90 * DT.us_per_day) true)].

Definition info_expiring (expiry : string) : InfoResponse := {|
  info_status := Some "active";
  info_expiry_date := Some expiry;
  info_registration_date := Some "2025-01-01T00:00:00";
  info_nameservers := None;
  info_locked := None;
  info_privacy := None;
  info_auto_renew := None |}.

Definition domain_expiring (is_locked : bool) (expiry : string) : Script :=
  mkScript (fun _ => Ok {| available := Some false |})
           (Ok tt)
           (Ok {| st_locked := Some is_locked |})
           (Ok (info_expiring expiry))
           (Ok {| success := Some true |}).

(** The lookup of "error.com" throws; every other name is available. *)
Definition one_lookup_throws : Script :=
  mkScript (fun d => if String.eqb d "error.com" then Raise api_error
                     else Ok {| available := Some true |})
           (Ok tt)
           (Ok {| st_locked := Some false |})
           (Raise api_error)
           (Ok {| success := Some true |}).

End RegistrarStub.

Module DnsSamples.
Import DNSManager.

(** A TXT value of 256 characters. *)
Definition txt_256 : string :=
  String.concat "" (repeat "0123456789abcdef" 16).

Definition old_txt : RecordData :=
  mkData (Some 1) "TXT" "example.com" "v=spf1 -all" (Some 3600) None.

Definition new_txt : DNSRecord :=
  mkRecord None "TXT" "example.com" "v=spf1 mx -all" 3600 None.

(** A provider holding [old_txt] whose client calls fail as scripted. *)
Definition provider (faults : list bool) : FakeRemote :=
  mkFake [old_txt] 2 faults.

Definition world (faults : list bool) : World FakeRemote unit :=
  mkWorld (provider faults) tt.

End DnsSamples.

Module ValidatorSpec.

(** The per-part test of services.py:393-399: 1 to 63 characters. *)
Definition part_ok (part : list ascii) : bool :=
  negb (List.length part <? 1)%nat && negb (63 <? List.length part)%nat.

(** "a." followed by a 64-letter label. *)
Definition long_tld : string :=
  "a." ++ String.concat "" (repeat "bbbbbbbb" 8).

End ValidatorSpec.

Module HostingSpec.
Import HostingManager.

(** How a public HostingManager operation relates to the body of its [try]:
    a normal result is passed on, and any exception [e0] comes out as
    [HostingError(prefix + ": " + str(e0))]. *)
Inductive wrapped {R T} (prefix : string)
    : outcome T * World R -> outcome T * World R -> Prop :=
| wrapped_return a w : wrapped prefix (Ok a, w) (Ok a, w)
| wrapped_failure e0 w :
    wrapped prefix (Raise e0, w)
            (Raise (mkExn HostingError (prefix ++ ": " ++ exn_msg e0)), w).

(** The result is a normal return or a HostingError. *)
Definition only_hosting_errors {R T} (r : outcome T * World R) : bool :=
  match fst r with
  | Ok _ => true
  | Raise e => exn_class_eqb (exn_kind e) HostingError
  end.

(** A WHM stand-in that provisions every account at 10.0.0.1. *)
Definition stub_api : HostingApi unit := {|
  create_account := fun _ _ _ _ _ r => (Ok {| ip_address := Some "10.0.0.1" |}, r);
  suspend_account_api := fun _ _ r => (Ok tt, r);
  unsuspend_account_api := fun _ r => (Ok tt, r);
  change_plan := fun _ _ r => (Ok tt, r);
  get_account_usage_api := fun _ r => (Ok (mkUsage (Some 1024) (Some 10) (Some 2048) None), r);
  delete_account := fun _ r => (Ok tt, r) |}.

Definition sample_package : HostingPackage := mkPackage 10 "starter" 2048 100 true.
Definition sample_customer : Customer := mkCustomer 20 "john@example.com" "John" "Doe".
Definition sample_account : HostingAccount :=
  mkAccount 30 "example.com" "testuser" HS_ACTIVE (Some "10.0.0.1") 0 0 None None
            (Some 20) (Some 10).

(** A datastore in which example.com already has a hosting account. *)
Definition world_with_account : World unit :=
  mkWorld (mkDb [sample_account] [sample_package] [sample_customer])
          tt [] (fun n => nth n RegistrarStub.readings (RegistrarStub.t2026 + 4)) 0
          (fun n => 100 + Z.of_nat n) 0.

(** The same datastore before any account exists. *)
Definition world_without_account : World unit :=
  mkWorld (mkDb [] [sample_package] [sample_customer])
          tt [] (fun n => nth n RegistrarStub.readings (RegistrarStub.t2026 + 4)) 0
          (fun n => 100 + Z.of_nat n) 0.

End HostingSpec.

Module RegistrationSpec.
Import DomainManager.

(** The clock readings a registration can take, moved 365*years days ahead,
    are still datetimes (not after 9999-12-31T23:59:59.999999). *)
Definition expiry_representable {R} (w : World R) (years : Z) : Prop :=
  forall n, (ticks w <= n <= ticks w + 2)%nat ->
    0 <= clock w n /\ clock w n + 365 * years * DT.us_per_day <= DT.max_us.

End RegistrationSpec.

Module BulkSpec.
Import DomainManager.

Section Spec.
Context {R : Type} (api_client : RegistrarApi R).

(** What the bulk loop records for one name, and the world it leaves. *)
Definition single_result (domain : string) (w : World R) : bool * World R :=
  match check_domain_availability api_client domain w with
  | (Ok b, w') => (b, w')
  | (Raise _, w') => (false, w')
  end.

(** The world after the names of [done] have been processed in order. *)
Fixpoint world_after (done : list string) (w : World R) : World R :=
  match done with
  | [] => w
  | d :: rest => world_after rest (snd (single_result d w))
  end.

End Spec.
End BulkSpec.

Module TransferSpec.
Import DomainManager.

Section Spec.
Context {R : Type} (api_client : RegistrarApi R).
Context (fromisoformat : string -> option DT.datetime).

(** The values of the DomainStatus enumeration (models.py:11-16). *)
Definition status_values : list string :=
  ["active"; "expired"; "pending"; "suspended"; "pending_transfer"].

(** A date entry of the registrar's answer, a final Z read as +00:00;
    [None] when the entry is absent or is not an ISO date. *)
Definition reported_date (entry : option string) : option DT.datetime :=
  match entry with
  | Some s => fromisoformat (Py.replace_char "Z" "+00:00" s)
  | None => None
  end.

(** The registrar's answer about a domain can be read: its status, when
    given, is one of the enumeration, and both dates are there and are
    dates. *)
Definition readable (info : InfoResponse) : Prop :=
  In (default "active" (info_status info)) status_values
  /\ is_Some (reported_date (info_expiry_date info))
  /\ is_Some (reported_date (info_registration_date info)).

(** The reasons for which a transfer is refused, in terms of what the
    registrar answers to [get_domain_status] and then to [get_domain_info],
    and of the clock reading: the lock-status fetch throws, the registrar
    reports the domain as locked, the detail fetch throws or its answer
    cannot be read, the reported expiry date carries a UTC offset (it cannot
    be subtracted from the naive clock reading), or the reported expiry date
    is under 60 days after the clock reading. *)
Inductive refused (domain_name : string) (w : World R) : Prop :=
| lock_fetch_throws e r1 :
    get_domain_status api_client domain_name (remote w) = (Raise e, r1) ->
    refused domain_name w
| domain_locked st r1 :
    get_domain_status api_client domain_name (remote w) = (Ok st, r1) ->
    st_locked st = Some true ->
    refused domain_name w
| detail_fetch_throws st r1 e r2 :
    get_domain_status api_client domain_name (remote w) = (Ok st, r1) ->
    get_domain_info api_client domain_name r1 = (Raise e, r2) ->
    refused domain_name w
| details_unreadable st r1 info r2 :
    get_domain_status api_client domain_name (remote w) = (Ok st, r1) ->
    get_domain_info api_client domain_name r1 = (Ok info, r2) ->
    ~ readable info ->
    refused domain_name w
| subtraction_throws st r1 info r2 expiry :
    get_domain_status api_client domain_name (remote w) = (Ok st, r1) ->
    get_domain_info api_client domain_name r1 = (Ok info, r2) ->
    reported_date (info_expiry_date info) = Some expiry ->
    DT.aware expiry = true ->
    refused domain_name w
| expires_soon st r1 info r2 expiry :
    get_domain_status api_client domain_name (remote w) = (Ok st, r1) ->
    get_domain_info api_client domain_name r1 = (Ok info, r2) ->
    reported_date (info_expiry_date info) = Some expiry ->
    DT.us expiry - clock w (ticks w) < 60 * DT.us_per_day ->
    refused domain_name w.

End Spec.
End TransferSpec.

Module HostingInvariants.
Import HostingManager.

(** The domains that have a hosting account, in row order. *)
Definition domains (d : Db) : list string := map acc_domain (hosting_accounts d).

(** One account per domain (the check of manager.py:60-63). *)
Definition domains_unique (d : Db) : Prop := NoDup (domains d).

(** [id] is the primary key of hosting_accounts. *)
Definition ids_unique (d : Db) : Prop := NoDup (map acc_id (hosting_accounts d)).

(** What one repository write does to the datastore: a row is updated in
    place without touching its id or domain, a row for a domain that has none
    is appended, or the first row with an id is removed. *)
Inductive db_step (d : Db) : Db -> Prop :=
| step_none : db_step d d
| step_update id f :
    (forall a, acc_id (f a) = acc_id a /\ acc_domain (f a) = acc_domain a) ->
    db_step d (mkDb (update_first id f (hosting_accounts d))
                    (hosting_packages d) (customers d))
| step_insert a :
    List.find (fun x => String.eqb (acc_domain x) (acc_domain a)) (hosting_accounts d)
    = None ->
    db_step d (mkDb (hosting_accounts d ++ [a]) (hosting_packages d) (customers d))
| step_delete id :
    db_step d (mkDb (delete_first id (hosting_accounts d))
                    (hosting_packages d) (customers d)).

(** The operation ended in an exception. *)
Definition failed {R T} (r : outcome T * World R) : bool := negb (is_ok (fst r)).

(** A WHM stand-in whose usage answer has no ['disk_usage'] entry. *)
Definition partial_usage_api : HostingApi unit := {|
  create_account := fun _ _ _ _ _ r => (Ok {| ip_address := Some "10.0.0.1" |}, r);
  suspend_account_api := fun _ _ r => (Ok tt, r);
  unsuspend_account_api := fun _ r => (Ok tt, r);
  change_plan := fun _ _ r => (Ok tt, r);
  get_account_usage_api := fun _ r => (Ok (mkUsage None (Some 10) (Some 2048) None), r);
  delete_account := fun _ r => (Ok tt, r) |}.

(** A WHM stand-in that is down: every call raises. *)
Definition down_api : HostingApi unit := {|
  create_account := fun _ _ _ _ _ r => (Raise (mkExn APIError "WHM unreachable"), r);
  suspend_account_api := fun _ _ r => (Raise (mkExn APIError "WHM unreachable"), r);
  unsuspend_account_api := fun _ r => (Raise (mkExn APIError "WHM unreachable"), r);
  change_plan := fun _ _ r => (Raise (mkExn APIError "WHM unreachable"), r);
  get_account_usage_api := fun _ r => (Raise (mkExn APIError "WHM unreachable"), r);
  delete_account := fun _ r => (Raise (mkExn APIError "WHM unreachable"), r) |}.

(** An account with recorded usage that expires on 2026-01-01. *)
Definition dated_account : HostingAccount :=
  mkAccount 31 "shop.example.org" "shopuser" HS_SUSPENDED (Some "10.0.0.2") 512 40
            (Some "Unpaid invoice") (Some (DT.mkDT RegistrarStub.t2026 false))
            (Some 20) (Some 10).

Definition world_of (rows : list HostingAccount) : World unit :=
  mkWorld (mkDb rows [HostingSpec.sample_package] [HostingSpec.sample_customer])
          tt [] (fun n => nth n RegistrarStub.readings (RegistrarStub.t2026 + 4)) 0
          (fun n => 100 + Z.of_nat n) 0.

End HostingInvariants.

Module OperationsSpec.
Import DomainOperations DomainServices.

(** The result is [True] or a DomainError. *)
Definition true_or_domain_error {R} (r : outcome bool * World R) : bool :=
  match fst r with
  | Ok b => b
  | Raise e => exn_class_eqb (exn_kind e) DomainError
  end.

(** The three forms of a suggestion for [keyword] under [tld]. *)
Definition suggestion_of (keyword tld s : string) : Prop :=
  s = keyword ++ tld
  \/ (exists prefix, In prefix prefixes /\ s = prefix ++ keyword ++ tld)
  \/ (exists suffix, In suffix suffixes /\ s = keyword ++ suffix ++ tld).

(** What [get_tld_pricing] stores under a key. *)
Definition priced {Price} (get_tld_price : string -> string -> outcome Price)
    (tld : string) : option (PriceInfo Price) :=
  match price_entry get_tld_price tld with
  | Ok info => Some info
  | Raise _ => None
  end.

(** A report accounts for every name of the request exactly once. *)
Definition complete_report (domain_list : list string) (results : BulkResults) : Prop :=
  total_processed results = Z.of_nat (List.length domain_list)
  /\ (successful results ++ failed results)%list ≡ₚ domain_list.

(** A registrar stand-in without state: every call about "error.com"
    raises, every other call succeeds. *)
Definition answer {T} (d : string) (a : T) (r : unit) : outcome T * unit :=
  if String.eqb d "error.com" then (Raise (mkExn APIError "API Error"), r)
  else (Ok a, r).

Definition stub_api : OpsApi unit := {|
  api_renew_domain := fun d _ => answer d tt;
  api_transfer_domain := fun d _ _ => answer d tt;
  api_lock_domain := fun d => answer d tt;
  api_unlock_domain := fun d => answer d tt;
  get_auth_code := fun d => answer d {| auth_code := Some "AUTH123" |};
  get_contacts := fun d _ =>
    answer d {| cr_first_name := Some "John"; cr_last_name := Some "Doe";
                cr_email := Some "john@example.com"; cr_phone := None;
                cr_address := None; cr_city := None; cr_country := None;
                cr_zip_code := None |};
  update_contacts := fun d _ _ => answer d tt |}.

Definition world0 : World unit := mkWorld tt [].

(** A price table that knows com and net. *)
Definition price_table (tld operation : string) : outcome Z :=
  if String.eqb tld "com" then Ok 12
  else if String.eqb tld "net" then Ok 15
  else Raise (mkExn OtherException ("'" ++ tld ++ "'")).

(** A contact without an email address. *)
Definition contact_without_email : ContactInfo :=
  mkContact "John" "Doe" "" "+1234567890" "123 Main St" "New York" "US" "10001" "".

End OperationsSpec.

Module AnchorSpec.
Import Re.

(** The pattern is a concatenation whose last factor is the anchor [$]. *)
Fixpoint ends_in_eol (r : re) : Prop :=
  match r with
  | Cat _ r2 => r2 = Eol \/ ends_in_eol r2
  | _ => False
  end.

Definition newline : string := String "010" EmptyString.

(** The number of digits of a string. *)
Definition digit_count (s : list ascii) : nat := List.length (List.filter Py.is_digit s).

End AnchorSpec.

Module RecordSpec.
Import DNSManager.

(** The record types whose value is an IP address. *)
Definition is_address (record_type : DNSRecordType) : bool :=
  match record_type with A | AAAA => true | _ => false end.

(** Stand-ins for the two address checks that dns.py leaves to
    [_validate_ipv4_address] and to the ipaddress module. *)
Definition any_ipv4 (value : string) : outcome unit := Ok tt.
Definition no_ipv6 (value : string) : bool := false.

End RecordSpec.

(** * Properties *)

(** ** The monad *)

Lemma bind_ok {W A B} (m : M W A) (f : A -> M W B) w a w' :
  m w = (Ok a, w') -> bind m f w = f a w'.
Proof. intros H. unfold bind. now rewrite H. Qed.

Lemma bind_raise {W A B} (m : M W A) (f : A -> M W B) w e w' :
  m w = (Raise e, w') -> bind m f w = (Raise e, w').
Proof. intros H. unfold bind. now rewrite H. Qed.

Lemma try_ok {W A} (m : M W A) h w a w' :
  m w = (Ok a, w') -> try_except m h w = (Ok a, w').
Proof. intros H. unfold try_except. now rewrite H. Qed.

Lemma try_raise {W A} (m : M W A) h w e w' :
  m w = (Raise e, w') -> try_except m h w = h e w'.
Proof. intros H. unfold try_except. now rewrite H. Qed.

(** A handler that always returns makes the whole [try] total. *)
Lemma try_except_total {W A} (m : M W A) (h : exn -> M W A) w :
  (forall e w1, exists a w2, h e w1 = (Ok a, w2)) ->
  exists a w', try_except m h w = (Ok a, w').
Proof.
  intros Hh. unfold try_except.
  destruct (m w) as [[a|e] w1]; [eauto | apply Hh].
Qed.

(** ** Bulk availability *)

Section BulkFacts.
Import DomainManager BulkSpec.
Context {R : Type} (api_client : RegistrarApi R).

Lemma guarded_check_is_single_result domain (w : World R) :
  try_except (check_domain_availability api_client domain) (fun _ => ret false) w
  = (Ok (fst (single_result api_client domain w)),
     snd (single_result api_client domain w)).
Proof.
  unfold try_except, single_result.
  destruct (check_domain_availability api_client domain w) as [[b|e] w1]; reflexivity.
Qed.

Lemma bulk_loop_returns (names : list string) : forall (acc : gmap string bool) (w : World R),
  exists m, bulk_loop api_client names acc w = (Ok m, world_after api_client names w).
Proof.
  induction names as [|d rest IH]; intros acc w; simpl.
  - eexists; reflexivity.
  - unfold bind at 1. rewrite guarded_check_is_single_result. apply IH.
Qed.

Lemma bulk_loop_dom (names : list string) : forall (acc m : gmap string bool) (w w' : World R),
  bulk_loop api_client names acc w = (Ok m, w') ->
  dom m = dom acc ∪ list_to_set names.
Proof.
  induction names as [|d rest IH]; intros acc m w w' H; simpl in H.
  - inversion H; subst. cbn [list_to_set foldr]. now rewrite (right_id_L ∅ (∪)).
  - unfold bind at 1 in H. rewrite guarded_check_is_single_result in H.
    apply IH in H. rewrite H, dom_insert_L. cbn [list_to_set foldr].
    now rewrite (comm_L (∪) {[d]} (dom acc)), (assoc_L (∪)).
Qed.

Lemma bulk_loop_keeps (names : list string) :
  forall (acc m : gmap string bool) (w w' : World R) d,
  bulk_loop api_client names acc w = (Ok m, w') ->
  d ∉ names -> m !! d = acc !! d.
Proof.
  induction names as [|x rest IH]; intros acc m w w' d H Hd; simpl in H.
  - now inversion H.
  - unfold bind at 1 in H. rewrite guarded_check_is_single_result in H.
    apply not_elem_of_cons in Hd as [Hne Hd].
    rewrite (IH _ _ _ _ _ H Hd). now rewrite lookup_insert_ne.
Qed.

Lemma bulk_loop_last (pre : list string) :
  forall (post : list string) (acc m : gmap string bool) (w w' : World R) d,
  bulk_loop api_client (pre ++ d :: post)%list acc w = (Ok m, w') ->
  d ∉ post ->
  m !! d = Some (fst (single_result api_client d (world_after api_client pre w))).
Proof.
  induction pre as [|x pre IH]; intros post acc m w w' d H Hd; simpl in H.
  - unfold bind at 1 in H. rewrite guarded_check_is_single_result in H.
    rewrite (bulk_loop_keeps _ _ _ _ _ _ H Hd). simpl. apply lookup_insert_eq.
  - unfold bind at 1 in H. rewrite guarded_check_is_single_result in H.
    simpl. eapply IH; eauto.
Qed.

(** C5. [check_bulk_domains_availability] returns for every list of names
    and every client: it yields a map whose keys are exactly the input names,
    and the entry of a name is the outcome of that name's own single check
    (the last one, if the name is repeated) run in the world left by the names
    before it, a check that throws counting as [false]. *)
Theorem check_bulk_domains_availability_total (names : list string) (w : World R) :
  exists m : gmap string bool,
    check_bulk_domains_availability api_client names w
      = (Ok m, world_after api_client names w)
    /\ dom m = list_to_set names
    /\ forall pre d post,
         names = (pre ++ d :: post)%list -> d ∉ post ->
         m !! d = Some (fst (single_result api_client d (world_after api_client pre w))).
Proof.
  unfold check_bulk_domains_availability.
  destruct (bulk_loop_returns names ∅ w) as [m Hm].
  exists m. split; [exact Hm|]. split.
  - rewrite (bulk_loop_dom _ _ _ _ _ Hm), dom_empty_L. now rewrite (left_id_L ∅ (∪)).
  - intros pre d post -> Hd. eapply bulk_loop_last; eauto.
Qed.

(** A check that throws is recorded as [false]; one that returns is
    recorded as returned. *)
Lemma single_result_of_raise domain (w w1 : World R) e :
  check_domain_availability api_client domain w = (Raise e, w1) ->
  single_result api_client domain w = (false, w1).
Proof. intros H. unfold single_result. now rewrite H. Qed.

Lemma single_result_of_ok domain (w w1 : World R) b :
  check_domain_availability api_client domain w = (Ok b, w1) ->
  single_result api_client domain w = (b, w1).
Proof. intros H. unfold single_result. now rewrite H. Qed.

End BulkFacts.

(** ** Transfer eligibility *)

Lemma days_under_60 (delta : Z) :
  (DT.days delta <? 60) = true <-> delta < 60 * DT.us_per_day.
Proof.
  unfold DT.days, DT.us_per_day. rewrite Z.ltb_lt. split; intros H.
  - apply Z.nle_gt. intros Hge. apply Z.nle_gt in H. apply H.
    apply Z.div_le_lower_bound; lia.
  - apply Z.div_lt_upper_bound; lia.
Qed.

Lemma sub_ok_inv (a b : DT.datetime) delta :
  DT.sub a b = Ok delta -> DT.aware a = DT.aware b /\ delta = DT.us a - DT.us b.
Proof.
  unfold DT.sub. destruct (Bool.eqb (DT.aware a) (DT.aware b)) eqn:E; [|discriminate].
  intros H; inversion H; subst. split; [now apply Bool.eqb_prop|reflexivity].
Qed.

Lemma sub_raise_inv (a b : DT.datetime) e :
  DT.sub a b = Raise e -> DT.aware a <> DT.aware b.
Proof.
  unfold DT.sub. destruct (Bool.eqb (DT.aware a) (DT.aware b)) eqn:E; [discriminate|].
  intros _ Heq. rewrite Heq, Bool.eqb_reflx in E. discriminate.
Qed.

Section TransferFacts.
Import DomainManager TransferSpec.
Context {R : Type} (api_client : RegistrarApi R).
Context (fromisoformat : string -> option DT.datetime).

Local Abbreviation lock_status := (get_domain_locking_status api_client).
Local Abbreviation details := (get_domain_details api_client fromisoformat).
Local Abbreviation eligible := (check_transfer_eligibility api_client fromisoformat).
Local Abbreviation refused := (refused api_client fromisoformat).

(** The world after one client call. *)
Local Abbreviation called w r c :=
  (mkWorld r (app (calls w) (cons c nil)) (clock w) (ticks w) (orm_domain_ok w)).

(** [get_domain_locking_status] in terms of the registrar's answer. *)
Lemma lock_status_answer domain_name (w : World R) :
  lock_status domain_name w
  = match get_domain_status api_client domain_name (remote w) with
    | (Ok st, r1) =>
        (Ok (default false (st_locked st)), called w r1 (Call_get_domain_status domain_name))
    | (Raise e, r1) =>
        (Raise (mkExn DomainError ("Failed to get domain lock status: " ++ exn_msg e)),
         called w r1 (Call_get_domain_status domain_name))
    end.
Proof.
  unfold get_domain_locking_status, try_except, bind, invoke, ret, raise.
  destruct (get_domain_status api_client domain_name (remote w)) as [[st|e] r1]; reflexivity.
Qed.

Lemma status_of_value_spec v :
  match DomainStatus_of_value v with
  | Ok _ => In v status_values
  | Raise _ => ~ In v status_values
  end.
Proof.
  unfold DomainStatus_of_value, status_values.
  destruct (String.eqb v "active") eqn:E1; [apply String.eqb_eq in E1; subst; cbn; tauto|].
  destruct (String.eqb v "expired") eqn:E2; [apply String.eqb_eq in E2; subst; cbn; tauto|].
  destruct (String.eqb v "pending") eqn:E3; [apply String.eqb_eq in E3; subst; cbn; tauto|].
  destruct (String.eqb v "suspended") eqn:E4; [apply String.eqb_eq in E4; subst; cbn; tauto|].
  destruct (String.eqb v "pending_transfer") eqn:E5;
    [apply String.eqb_eq in E5; subst; cbn; tauto|].
  apply String.eqb_neq in E1, E2, E3, E4, E5. cbn. intros H.
  decompose [or] H; congruence.
Qed.

Lemma parse_date_spec entry :
  match parse_date fromisoformat entry with
  | Ok t => reported_date fromisoformat entry = Some t
  | Raise _ => reported_date fromisoformat entry = None
  end.
Proof.
  unfold parse_date, reported_date. destruct entry as [s|]; [|reflexivity].
  destruct (fromisoformat _); reflexivity.
Qed.

(** The fields computed from an answer: they are computed exactly when the
    answer is readable, and the expiry date is then the reported one. *)
Lemma detail_fields_spec domain_name info :
  match detail_fields fromisoformat domain_name info with
  | Ok d => readable fromisoformat info
            /\ reported_date fromisoformat (info_expiry_date info) = Some (expiry_date d)
  | Raise _ => ~ readable fromisoformat info
  end.
Proof.
  unfold detail_fields, readable.
  pose proof (status_of_value_spec (default "active" (info_status info))) as Hst.
  destruct (DomainStatus_of_value _) as [st|e]; [|tauto].
  pose proof (parse_date_spec (info_expiry_date info)) as Hexp.
  destruct (parse_date fromisoformat (info_expiry_date info)) as [expiry|e].
  2:{ rewrite Hexp. intros (_ & [x Hx] & _). discriminate. }
  pose proof (parse_date_spec (info_registration_date info)) as Hreg.
  destruct (parse_date fromisoformat (info_registration_date info)) as [reg|e].
  2:{ rewrite Hreg. intros (_ & _ & [x Hx]). discriminate. }
  cbn [expiry_date]. rewrite Hexp, Hreg. repeat split; eauto.
Qed.

(** [get_domain_details] in terms of the registrar's answer: it returns the
    computed fields, with or without the ORM constructor, and raises when
    the fetch throws or the fields cannot be computed. *)
Lemma details_answer domain_name (w : World R) :
  match get_domain_info api_client domain_name (remote w) with
  | (Ok info, r1) =>
      match detail_fields fromisoformat domain_name info with
      | Ok d => details domain_name w
                = (Ok d, called w r1 (Call_get_domain_info domain_name))
      | Raise _ => exists e, details domain_name w
                             = (Raise e, called w r1 (Call_get_domain_info domain_name))
      end
  | (Raise _, r1) =>
      exists e, details domain_name w
                = (Raise e, called w r1 (Call_get_domain_info domain_name))
  end.
Proof.
  unfold get_domain_details, try_except, bind, invoke, lift_outcome, orm_Domain, raise.
  destruct (get_domain_info api_client domain_name (remote w)) as [[info|e] r1];
    [|eauto].
  cbn [orm_domain_ok].
  destruct (detail_fields fromisoformat domain_name info) as [d|e]; [|eauto].
  destruct (orm_domain_ok w); reflexivity.
Qed.


(** A locked domain is refused whatever its expiry date. *)
Lemma locked_is_not_eligible (domain_name : string) (w w1 : World R) :
  lock_status domain_name w = (Ok true, w1) ->
  eligible domain_name w = (Ok false, w1).
Proof.
  intros H. unfold check_transfer_eligibility, try_except, bind at 1.
  now rewrite H.
Qed.

(** An unlocked domain whose naive expiry date is [n] days after the clock
    reading is eligible exactly when [n >= 60]. *)
Lemma unlocked_days_out (domain_name : string) (w w1 w2 : World R) d (n : Z) :
  lock_status domain_name w = (Ok false, w1) ->
  details domain_name w1 = (Ok d, w2) ->
  expiry_date d = DT.mkDT (clock w2 (ticks w2) + n * DT.us_per_day) false ->
  exists w', eligible domain_name w = (Ok (60 <=? n), w').
Proof.
  intros Hlock Hdet Hexp.
  unfold check_transfer_eligibility, try_except, bind at 1. rewrite Hlock.
  unfold bind at 1. rewrite Hdet.
  unfold bind, now, lift_outcome, ret; simpl.
  rewrite Hexp. unfold DT.sub; simpl.
  replace (clock w2 (ticks w2) + n * DT.us_per_day - clock w2 (ticks w2))
    with (n * DT.us_per_day) by lia.
  unfold DT.days. rewrite Z.div_mul by (unfold DT.us_per_day; lia).
  destruct (n <? 60) eqn:E.
  - apply Z.ltb_lt in E. replace (60 <=? n) with false by (symmetry; apply Z.leb_gt; lia).
    eexists; reflexivity.
  - apply Z.ltb_ge in E. replace (60 <=? n) with true by (symmetry; apply Z.leb_le; lia).
    eexists; reflexivity.
Qed.

End TransferFacts.

(** ** Registration *)

Section RegistrationFacts.
Import DomainManager RegistrationSpec.
Context {R : Type} (api_client : RegistrarApi R).

Lemma validate_registration_input_ok domain_name years contact_info :
  _validate_registration_input domain_name years contact_info = Ok tt ->
  _validate_domain_name domain_name = true /\ 0 < years
  /\ exists c, contact_info = Some c /\ Py.truthy (email c) = true
               /\ Py.truthy (first_name c) = true /\ Py.truthy (last_name c) = true.
Proof.
  unfold _validate_registration_input.
  destruct (_validate_domain_name domain_name); simpl; [|discriminate].
  destruct (years <=? 0) eqn:Hy; [discriminate|]. apply Z.leb_gt in Hy.
  destruct contact_info as [c|]; [|discriminate].
  destruct (Py.truthy (email c)) eqn:He; simpl; [|discriminate].
  destruct (Py.truthy (first_name c)) eqn:Hf; simpl; [|discriminate].
  destruct (Py.truthy (last_name c)) eqn:Hl; simpl; [|discriminate].
  intros _. split; [reflexivity|]. split; [lia|].
  exists c. repeat split; assumption.
Qed.

Lemma check_domain_availability_answer domain_name (w : World R) response r1 :
  _validate_domain_name domain_name = true ->
  check_availability api_client domain_name (remote w) = (Ok response, r1) ->
  check_domain_availability api_client domain_name w
  = (Ok (default false (available response)),
     mkWorld r1 (calls w ++ [Call_check_availability domain_name])
             (clock w) (ticks w) (orm_domain_ok w)).
Proof.
  intros Hv Hc. unfold check_domain_availability, try_except, bind, invoke, ret.
  rewrite Hv; simpl. now rewrite Hc.
Qed.

(** With an invalid name the remote side is not consulted at all. *)
Lemma check_domain_availability_invalid domain_name (w : World R) :
  _validate_domain_name domain_name = false ->
  check_domain_availability api_client domain_name w
  = (Raise (mkExn DomainError
              ("Invalid domain name: " ++ ("Invalid domain name: " ++ domain_name))), w).
Proof.
  intros Hv. unfold check_domain_availability, try_except, raise.
  now rewrite Hv.
Qed.

Lemma us_per_day_eq : DT.us_per_day = 86400000000.
Proof. reflexivity. Qed.

Lemma max_us_eq : DT.max_us = 315537897599999999.
Proof. reflexivity. Qed.

Lemma max_delta_days_eq : DT.max_delta_days = 999999999.
Proof. reflexivity. Qed.

Ltac dt_consts := rewrite ?us_per_day_eq, ?max_us_eq, ?max_delta_days_eq in *.

Lemma timedelta_days_ok (d : Z) :
  Z.abs d <= DT.max_delta_days -> DT.timedelta_days d = Ok (d * DT.us_per_day).
Proof.
  intros H. unfold DT.timedelta_days.
  destruct (Z.abs d >? DT.max_delta_days) eqn:E; [|reflexivity].
  apply Z.gtb_lt in E. lia.
Qed.

Lemma add_in_range (t : DT.datetime) (delta : Z) :
  0 <= DT.us t + delta <= DT.max_us ->
  DT.add t delta = Ok (DT.mkDT (DT.us t + delta) (DT.aware t)).
Proof.
  intros [H1 H2]. unfold DT.add, DT.in_range.
  apply Z.leb_le in H1, H2. now rewrite H1, H2.
Qed.

Lemma now_eq r cs ck tk orm :
  now (R := R) (mkWorld r cs ck tk orm)
  = (Ok (DT.mkDT (ck tk) false), mkWorld r cs ck (S tk) orm).
Proof. reflexivity. Qed.

Lemma registered_fields_value domain_name years r cs ck tk orm :
  0 < years ->
  0 <= ck tk /\ ck tk + 365 * years * DT.us_per_day <= DT.max_us ->
  registered_fields domain_name years (mkWorld r cs ck tk orm)
  = (Ok (mkDomain domain_name ACTIVE
                  (DT.mkDT (ck tk + 365 * years * DT.us_per_day) false)
                  (DT.mkDT (ck (S tk)) false)
                  ["ns1.default.com"; "ns2.default.com"] false false true),
     mkWorld (R := R) r cs ck (S (S tk)) orm).
Proof.
  intros Hy [H0 Hmax]. unfold registered_fields.
  rewrite (bind_ok _ _ _ _ _ (now_eq _ _ _ _ _)).
  assert (Htd : DT.timedelta_days (365 * years) = Ok (365 * years * DT.us_per_day)).
  { apply timedelta_days_ok. rewrite Z.abs_eq by lia. dt_consts. lia. }
  assert (Hadd : DT.add (DT.mkDT (ck tk) false) (365 * years * DT.us_per_day)
                 = Ok (DT.mkDT (ck tk + 365 * years * DT.us_per_day) false)).
  { apply (add_in_range (DT.mkDT (ck tk) false)). cbn [DT.us]. dt_consts. lia. }
  unfold bind at 1, lift_outcome at 1. rewrite Htd.
  unfold bind at 1, lift_outcome at 1. rewrite Hadd.
  rewrite (bind_ok _ _ _ _ _ (now_eq _ _ _ _ _)).
  reflexivity.
Qed.

(** C3 (as amended). For a request that passes input validation, when the
    remote availability check answers:
    - not available: [register_domain] raises the DomainError "Domain ... is
      not available", and the only client call made is the availability check
      (the remote registration is not invoked);
    - available, the remote registration succeeds, and the clock readings
      plus 365*years days are representable datetimes: a Domain is returned
      with status ACTIVE, expiry_date = clock reading + 365*years days,
      registration_date = the next clock reading, the default nameservers,
      locked = false, privacy_protection = false, auto_renew = true.  The
      readings are the first two of the call, or the third and fourth when
      the ORM constructor rejects its arguments and the fallback object is
      filled in. *)
Theorem register_domain_spec (domain_name : string) (years : Z)
    (contact_info : option ContactInfo) (w : World R) response r1 :
  _validate_registration_input domain_name years contact_info = Ok tt ->
  check_availability api_client domain_name (remote w) = (Ok response, r1) ->
  (default false (available response) = false ->
     exists w',
       register_domain api_client domain_name years contact_info w
       = (Raise (mkExn DomainError ("Domain " ++ domain_name ++ " is not available")), w')
       /\ calls w' = (calls w ++ [Call_check_availability domain_name])%list
       /\ remote w' = r1)
  /\
  (default false (available response) = true ->
     forall c r2,
       contact_info = Some c ->
       api_register_domain api_client
         (Build_RegistrationData domain_name years c false true) r1 = (Ok tt, r2) ->
       expiry_representable w years ->
       exists w' i,
         register_domain api_client domain_name years contact_info w
         = (Ok (mkDomain domain_name ACTIVE
                         (DT.mkDT (clock w i + 365 * years * DT.us_per_day) false)
                         (DT.mkDT (clock w (S i)) false)
                         ["ns1.default.com"; "ns2.default.com"] false false true), w')
         /\ i = (if orm_domain_ok w then ticks w else S (S (ticks w)))
         /\ calls w'
            = (calls w ++ [Call_check_availability domain_name;
                           Call_register_domain
                             (Build_RegistrationData domain_name years c false true)])%list).
Proof.
  intros Hval Hcheck.
  destruct (validate_registration_input_ok _ _ _ Hval) as (Hname & Hyears & c0 & -> & _).
  pose proof (check_domain_availability_answer _ _ _ _ Hname Hcheck) as Hav.
  destruct w as [r cs ck tk orm]; cbn [remote calls clock ticks orm_domain_ok] in *.
  split.
  - intros Hno. eexists.
    unfold register_domain.
    erewrite try_raise.
    2:{ unfold bind at 1, lift_outcome at 1. rewrite Hval. cbv beta iota.
        unfold bind at 1. rewrite Hav. cbv beta iota. rewrite Hno. cbn [negb].
        unfold raise. reflexivity. }
    cbn [exn_kind]. unfold reraise.
    split; [reflexivity|]. split; reflexivity.
  - intros Hyes c r2 Hc Hreg Hrep. inversion Hc; subst c0.
    unfold register_domain.
    assert (Hinv : invoke (Call_register_domain (Build_RegistrationData domain_name years c false true))
              (api_register_domain api_client (Build_RegistrationData domain_name years c false true))
              (mkWorld r1 (cs ++ [Call_check_availability domain_name]) ck tk orm)
            = (Ok tt, mkWorld r2 ((cs ++ [Call_check_availability domain_name]) ++
                 [Call_register_domain (Build_RegistrationData domain_name years c false true)]) ck tk orm)).
    { unfold invoke. cbn [remote calls clock ticks orm_domain_ok]. now rewrite Hreg. }
    destruct orm.
    + eexists _, tk. split; [|split; [reflexivity|]].
      * erewrite try_ok; [reflexivity|].
        unfold bind at 1, lift_outcome at 1. rewrite Hval. cbv beta iota.
        unfold bind at 1. rewrite Hav. cbv beta iota. rewrite Hyes. cbn [negb].
        unfold bind at 1. rewrite Hinv. cbv beta iota.
        erewrite try_ok; [reflexivity|].
        unfold bind at 1. rewrite registered_fields_value by (auto; apply (Hrep tk); cbn [ticks]; lia).
        cbv beta iota. unfold orm_Domain. cbn [orm_domain_ok]. reflexivity.
      * cbn [calls]. now rewrite <- app_assoc.
    + eexists _, (S (S tk)). split; [|split; [reflexivity|]].
      * erewrite try_ok; [reflexivity|].
        unfold bind at 1, lift_outcome at 1. rewrite Hval. cbv beta iota.
        unfold bind at 1. rewrite Hav. cbv beta iota. rewrite Hyes. cbn [negb].
        unfold bind at 1. rewrite Hinv. cbv beta iota.
        erewrite try_raise.
        2:{ unfold bind at 1. rewrite registered_fields_value by (auto; apply (Hrep tk); cbn [ticks]; lia).
            cbv beta iota. unfold orm_Domain. cbn [orm_domain_ok]. reflexivity. }
        cbv beta.
        rewrite registered_fields_value by (auto; apply (Hrep (S (S tk))); cbn [ticks]; lia).
        reflexivity.
      * cbn [calls]. now rewrite <- app_assoc.
Qed.

End RegistrationFacts.

(** C3, the claim as stated fails: a request for 10000 years passes input
    validation, the name is available and the remote registration succeeds,
    yet no Domain is returned; the expiry date would lie after year 9999 and
    [register_domain] raises DomainError after the remote registration. *)
Lemma register_domain_far_future_raises :
  DomainManager._validate_registration_input
    "example.com" 10000 (Some RegistrarStub.sample_contact) = Ok tt
  /\ fst (DomainManager.check_domain_availability RegistrarStub.api "example.com"
            (RegistrarStub.world0 RegistrarStub.all_available))
     = Ok true
  /\ fst (DomainManager.register_domain RegistrarStub.api "example.com" 10000
            (Some RegistrarStub.sample_contact)
            (RegistrarStub.world0 RegistrarStub.all_available))
     = Raise (mkExn DomainError "Domain registration failed: date value out of range")
  /\ existsb DomainManager.is_register_call
       (DomainManager.calls
          (snd (DomainManager.register_domain RegistrarStub.api "example.com" 10000
                  (Some RegistrarStub.sample_contact)
                  (RegistrarStub.world0 RegistrarStub.all_available)))) = true.
Proof. vm_compute. repeat split; reflexivity. Qed.

(** Both branches at concrete requests: "taken.com" is refused before any
    registration call, "example.com" is registered for two years. *)
Lemma register_domain_spec_witness :
  (exists w',
     DomainManager.register_domain RegistrarStub.api "taken.com" 1
       (Some RegistrarStub.sample_contact)
       (RegistrarStub.world0 RegistrarStub.none_available)
     = (Raise (mkExn DomainError "Domain taken.com is not available"), w')
     /\ DomainManager.calls w' = [DomainManager.Call_check_availability "taken.com"]
     /\ DomainManager.remote w' = RegistrarStub.none_available)
  /\
  (exists w' i,
     DomainManager.register_domain RegistrarStub.api "example.com" 2
       (Some RegistrarStub.sample_contact)
       (RegistrarStub.world0 RegistrarStub.all_available)
     = (Ok (mkDomain "example.com" ACTIVE
              (DT.mkDT (nth i RegistrarStub.readings (RegistrarStub.t2026 + 4)
                        + 365 * 2 * DT.us_per_day) false)
              (DT.mkDT (nth (S i) RegistrarStub.readings (RegistrarStub.t2026 + 4)) false)
              ["ns1.default.com"; "ns2.default.com"] false false true), w')
     /\ i = 0%nat
     /\ DomainManager.calls w'
        = [DomainManager.Call_check_availability "example.com";
           DomainManager.Call_register_domain
             (DomainManager.Build_RegistrationData "example.com" 2
                RegistrarStub.sample_contact false true)]).
Proof.
  split.
  - refine (proj1 (register_domain_spec RegistrarStub.api "taken.com" 1
                     (Some RegistrarStub.sample_contact)
                     (RegistrarStub.world0 RegistrarStub.none_available)
                     {| DomainManager.available := Some false |}
                     RegistrarStub.none_available _ _) _);
      vm_compute; reflexivity.
  - refine (proj2 (register_domain_spec RegistrarStub.api "example.com" 2
                     (Some RegistrarStub.sample_contact)
                     (RegistrarStub.world0 RegistrarStub.all_available)
                     {| DomainManager.available := Some true |}
                     RegistrarStub.all_available _ _) _
                  RegistrarStub.sample_contact RegistrarStub.all_available _ _ _).
    + vm_compute; reflexivity.
    + vm_compute; reflexivity.
    + vm_compute; reflexivity.
    + reflexivity.
    + vm_compute; reflexivity.
    + intros n [_ Hn]. cbn [DomainManager.ticks RegistrarStub.world0] in Hn.
      cbn [DomainManager.clock RegistrarStub.world0].
      destruct n as [|[|[|n]]]; [vm_compute; split; discriminate ..|].
      exfalso. clear -Hn. lia.
Defined.

(** ** Registration with privacy *)

Lemma bind_ok_inv {W A B} (m : M W A) (f : A -> M W B) w b w' :
  bind m f w = (Ok b, w') ->
  exists a w1, m w = (Ok a, w1) /\ f a w1 = (Ok b, w').
Proof.
  unfold bind. destruct (m w) as [[a|e] w1]; [eauto | discriminate].
Qed.

Section PrivacyFacts.
Import DomainManager.
Context {R : Type} (api_client : RegistrarApi R).

Lemma registered_fields_shape domain_name years (w w' : World R) d :
  registered_fields domain_name years w = (Ok d, w') ->
  name d = domain_name /\ status d = ACTIVE
  /\ nameservers d = ["ns1.default.com"; "ns2.default.com"]
  /\ locked d = false /\ privacy_protection d = false /\ auto_renew d = true.
Proof.
  unfold registered_fields. intros H.
  apply bind_ok_inv in H as (t1 & w1 & _ & H).
  apply bind_ok_inv in H as (delta & w2 & _ & H).
  apply bind_ok_inv in H as (expiry & w3 & _ & H).
  apply bind_ok_inv in H as (t2 & w4 & _ & H).
  unfold ret in H. inversion H; subst. repeat split.
Qed.

(** Whatever [register_domain] returns was built with the constant fields
    of manager.py:161-170. *)
Lemma register_domain_result_shape domain_name years contact_info (w w' : World R) d :
  register_domain api_client domain_name years contact_info w = (Ok d, w') ->
  name d = domain_name /\ status d = ACTIVE
  /\ nameservers d = ["ns1.default.com"; "ns2.default.com"]
  /\ locked d = false /\ privacy_protection d = false /\ auto_renew d = true.
Proof.
  unfold register_domain, try_except at 1.
  match goal with |- context [match ?body w with _ => _ end] =>
    destruct (body w) as [[d0|e] w0] eqn:Hbody end.
  2:{ destruct (exn_kind e); unfold raise, reraise; discriminate. }
  intros H; inversion H; subst d0 w0; clear H.
  apply bind_ok_inv in Hbody as ([] & w1 & _ & Hbody).
  apply bind_ok_inv in Hbody as (is_available & w2 & _ & Hbody).
  destruct (negb is_available); [unfold raise in Hbody; discriminate|].
  destruct contact_info as [c|]; [|unfold raise in Hbody; discriminate].
  apply bind_ok_inv in Hbody as ([] & w3 & _ & Hbody).
  unfold try_except in Hbody.
  match type of Hbody with context [match ?first w3 with _ => _ end] =>
    destruct (first w3) as [[d1|e] w4] eqn:Hfirst end.
  - inversion Hbody; subst d1 w4; clear Hbody.
    apply bind_ok_inv in Hfirst as (d2 & w5 & Hf & Horm).
    unfold orm_Domain in Horm. destruct (orm_domain_ok w5); [|discriminate].
    inversion Horm; subst. eapply registered_fields_shape; eauto.
  - eapply registered_fields_shape; eauto.
Qed.

(** The behaviour on every input.  Whenever [register_domain] returns a
    domain, [register_domain_with_privacy] on the same input
    - returns that domain, with privacy_protection left false, when the remote
      privacy call answers without success;
    - returns it with privacy_protection = true when the call reports success;
    - raises DomainError "Failed to enable privacy protection: ..." when the
      remote privacy call throws (the registration has already been made). *)
Lemma register_domain_with_privacy_spec (domain_name : string) (years : Z)
    (contact_info : option ContactInfo) (w w1 : World R) (domain : Domain) :
  register_domain api_client domain_name years contact_info w = (Ok domain, w1) ->
  privacy_protection domain = false
  /\ (forall response r2,
        enable_whois_privacy api_client domain_name (remote w1) = (Ok response, r2) ->
        exists w2 result,
          register_domain_with_privacy api_client domain_name years contact_info w
          = (Ok result, w2)
          /\ result = (if default false (success response)
                       then set_privacy_protection domain true else domain)
          /\ privacy_protection result = default false (success response))
  /\ (forall e r2,
        enable_whois_privacy api_client domain_name (remote w1) = (Raise e, r2) ->
        exists w2,
          register_domain_with_privacy api_client domain_name years contact_info w
          = (Raise (mkExn DomainError
                      ("Failed to enable privacy protection: " ++ exn_msg e)), w2)).
Proof.
  intros Hreg.
  destruct (register_domain_result_shape _ _ _ _ _ _ Hreg) as (_ & _ & _ & _ & Hpriv & _).
  split; [exact Hpriv|]. split.
  - intros response r2 Hcall.
    assert (Hpr : enable_privacy_protection api_client domain_name w1
                  = (Ok (default false (success response)),
                     mkWorld r2 (calls w1 ++ [Call_enable_whois_privacy domain_name])
                             (clock w1) (ticks w1) (orm_domain_ok w1))).
    { unfold enable_privacy_protection. erewrite try_ok; [reflexivity|].
      unfold bind at 1, invoke at 1. rewrite Hcall. reflexivity. }
    exists (mkWorld r2 (calls w1 ++ [Call_enable_whois_privacy domain_name])
                    (clock w1) (ticks w1) (orm_domain_ok w1)).
    exists (if default false (success response)
            then set_privacy_protection domain true else domain).
    split; [|split; [reflexivity|]].
    + unfold register_domain_with_privacy. apply try_ok.
      rewrite (bind_ok _ _ _ _ _ Hreg), (bind_ok _ _ _ _ _ Hpr).
      destruct (default false (success response)); reflexivity.
    + destruct (default false (success response)); [reflexivity|exact Hpriv].
  - intros e r2 Hcall.
    unfold register_domain_with_privacy.
    erewrite try_raise.
    2:{ rewrite (bind_ok _ _ _ _ _ Hreg).
        unfold enable_privacy_protection.
        erewrite bind_raise; [reflexivity|].
        erewrite try_raise.
        2:{ unfold bind at 1, invoke at 1. rewrite Hcall. reflexivity. }
        unfold raise. reflexivity. }
    unfold reraise. eexists; reflexivity.
Qed.

End PrivacyFacts.

(** C4, evaluation at the failing input.  The name is available and the
    remote registration succeeds ([register_domain] alone returns the domain);
    the remote privacy call then throws.  [register_domain_with_privacy]
    raises DomainError instead of returning the registered domain, although
    the registration call has been made; when the same privacy call answers
    without success, the same request returns the domain. *)
Theorem register_domain_with_privacy_raises :
  is_ok (fst (DomainManager.register_domain RegistrarStub.api "private.com" 1
                (Some RegistrarStub.sample_contact)
                (RegistrarStub.world0 RegistrarStub.privacy_throws))) = true
  /\ fst (DomainManager.register_domain_with_privacy RegistrarStub.api "private.com" 1
            (Some RegistrarStub.sample_contact)
            (RegistrarStub.world0 RegistrarStub.privacy_throws))
     = Raise (mkExn DomainError "Failed to enable privacy protection: API Error")
  /\ existsb DomainManager.is_register_call
       (DomainManager.calls
          (snd (DomainManager.register_domain_with_privacy RegistrarStub.api
                  "private.com" 1 (Some RegistrarStub.sample_contact)
                  (RegistrarStub.world0 RegistrarStub.privacy_throws)))) = true
  /\ is_ok (fst (DomainManager.register_domain_with_privacy RegistrarStub.api
                   "private.com" 1 (Some RegistrarStub.sample_contact)
                   (RegistrarStub.world0 RegistrarStub.privacy_refused))) = true.
Proof. vm_compute. repeat split; reflexivity. Qed.

(** A run in which registration succeeds and the privacy call reports no
    success: the domain comes back with privacy_protection = false. *)
Lemma register_domain_with_privacy_spec_witness :
  exists w2 result,
    DomainManager.register_domain_with_privacy RegistrarStub.api "private.com" 1
      (Some RegistrarStub.sample_contact)
      (RegistrarStub.world0 RegistrarStub.privacy_refused)
    = (Ok result, w2)
    /\ result
       = mkDomain "private.com" ACTIVE
           (DT.mkDT (RegistrarStub.t2026 + 365 * DT.us_per_day) false)
           (DT.mkDT (RegistrarStub.t2026 + 1) false)
           ["ns1.default.com"; "ns2.default.com"] false false true
    /\ privacy_protection result = false.
Proof.
  refine (proj1 (proj2 (register_domain_with_privacy_spec RegistrarStub.api
            "private.com" 1 (Some RegistrarStub.sample_contact)
            (RegistrarStub.world0 RegistrarStub.privacy_refused)
            (DomainManager.mkWorld RegistrarStub.privacy_refused
               [DomainManager.Call_check_availability "private.com";
                DomainManager.Call_register_domain
                  (DomainManager.Build_RegistrationData "private.com" 1
                     RegistrarStub.sample_contact false true)]
               (fun n => nth n RegistrarStub.readings (RegistrarStub.t2026 + 4))
               2 true)
            _ _))
          {| DomainManager.success := Some false |} RegistrarStub.privacy_refused _).
  - vm_compute. reflexivity.
  - vm_compute. reflexivity.
Defined.

(** ** DNS record validation *)

Lemma within_bounds (x lo hi : Z) :
  lo <= x <= hi -> (x <? lo) || (x >? hi) = false.
Proof.
  intros H. apply orb_false_iff. split; [apply Z.ltb_ge; lia|].
  rewrite Z.gtb_ltb. apply Z.ltb_ge; lia.
Qed.

Section RecordValidationFacts.
Import DNSManager.
Context (_validate_ipv4_address : string -> outcome unit).
Context (ipv6_strict : string -> bool).

Local Abbreviation validate :=
  (_validate_dns_record_input _validate_ipv4_address ipv6_strict).

(** An MX record without a priority is always rejected with a ValidationError. *)
Lemma mx_without_priority_rejected name value ttl :
  exists msg, validate MX name value ttl None = Raise (mkExn ValidationError msg).
Proof.
  unfold _validate_dns_record_input.
  destruct (negb (Py.truthy name) || negb (Py.truthy value)); [eauto|].
  destruct ((ttl <? 60) || (ttl >? 86400)); [eauto|].
  destruct (negb (_validate_dns_name name)); [eauto|].
  cbn [is_MX is_Some_b negb andb]. eauto.
Qed.

(** An MX record whose priority is outside [0, 65535] is always rejected. *)
Lemma mx_priority_out_of_range_rejected name value ttl p :
  p < 0 \/ 65535 < p ->
  exists msg, validate MX name value ttl (Some p) = Raise (mkExn ValidationError msg).
Proof.
  intros Hp. unfold _validate_dns_record_input.
  destruct (negb (Py.truthy name) || negb (Py.truthy value)); [eauto|].
  destruct ((ttl <? 60) || (ttl >? 86400)); [eauto|].
  destruct (negb (_validate_dns_name name)); [eauto|].
  cbn [is_MX is_Some_b negb andb].
  replace ((p <? 0) || (p >? 65535)) with true; [eauto|].
  symmetry. apply orb_true_iff. destruct Hp; [left; apply Z.ltb_lt | right; apply Z.gtb_lt]; lia.
Qed.

(** An MX record with a priority in range passes as soon as its name, value
    and ttl pass the common checks. *)
Lemma mx_priority_in_range_accepted name value ttl p :
  Py.truthy name = true -> Py.truthy value = true ->
  60 <= ttl <= 86400 -> _validate_dns_name name = true ->
  0 <= p <= 65535 ->
  validate MX name value ttl (Some p) = Ok tt.
Proof.
  intros Hn Hv Httl Hname Hp. unfold _validate_dns_record_input.
  rewrite Hn, Hv, Hname. cbn [negb orb is_MX is_Some_b andb].
  replace ((ttl <? 60) || (ttl >? 86400)) with false.
  2:{ symmetry. apply within_bounds; lia. }
  replace ((p <? 0) || (p >? 65535)) with false.
  2:{ symmetry. apply within_bounds; lia. }
  reflexivity.
Qed.

(** The TXT entry of [validation_methods] computes [len(v) <= 255] and the
    caller drops the result: a TXT value of any length passes. *)
Lemma txt_value_length_not_enforced name value ttl priority :
  Py.truthy name = true -> Py.truthy value = true ->
  60 <= ttl <= 86400 -> _validate_dns_name name = true ->
  validate TXT name value ttl priority = Ok tt.
Proof.
  intros Hn Hv Httl Hname. unfold _validate_dns_record_input.
  rewrite Hn, Hv, Hname. cbn [negb orb is_MX andb].
  replace ((ttl <? 60) || (ttl >? 86400)) with false.
  2:{ symmetry. apply within_bounds; lia. }
  reflexivity.
Qed.

(** C8, evaluation at the failing input: a TXT record whose value is 256
    bytes long passes [_validate_dns_record_input]; the MX sample values of
    the claim behave as stated (no priority and priority 70000 are rejected
    with a ValidationError, priority 10 is accepted). *)
Theorem txt_record_of_256_bytes_is_accepted :
  Py.len DnsSamples.txt_256 = 256
  /\ validate TXT "example.com" DnsSamples.txt_256 3600 None = Ok tt
  /\ validate MX "example.com" "mail.example.com" 3600 None
     = Raise (mkExn ValidationError "Priority is required for MX records")
  /\ validate MX "example.com" "mail.example.com" 3600 (Some 70000)
     = Raise (mkExn ValidationError "Priority must be between 0 and 65535")
  /\ validate MX "example.com" "mail.example.com" 3600 (Some 10) = Ok tt.
Proof. vm_compute. repeat split; reflexivity. Qed.

End RecordValidationFacts.

(** ** DNS reconciliation *)

Section ReconciliationFacts.
Import DNSManager.
Context {R D : Type} (api_client : DnsApi R).
Context (add_dns_record :
           string -> DNSRecordType -> string -> string -> Z -> option Z -> M (World R D) unit).
Context (delete_dns_record : string -> option Z -> M (World R D) unit).

Local Abbreviation without_transaction :=
  (_update_records_without_transaction api_client add_dns_record delete_dns_record).
Local Abbreviation with_transaction :=
  (_update_records_with_transaction api_client add_dns_record delete_dns_record).
Local Abbreviation restore :=
  (_restore_from_backup api_client add_dns_record delete_dns_record).
Local Abbreviation update := (update_dns_records api_client).

(** The non-transactional path ends in [except Exception: return False]:
    whatever happens inside, the caller gets a boolean. *)
Lemma without_transaction_never_raises domain_name records (w : World R D) :
  exists b w', without_transaction domain_name records w = (Ok b, w').
Proof.
  unfold _update_records_without_transaction.
  apply try_except_total. intros e w1. unfold ret. eauto.
Qed.

Lemma update_without_session_never_raises domain_name records (w : World R D) :
  exists b w',
    update false add_dns_record delete_dns_record domain_name records w = (Ok b, w').
Proof.
  unfold update_dns_records.
  destruct (without_transaction_never_raises domain_name records w) as (b & w' & H).
  exists b, w'. now apply try_ok.
Qed.

(** When [_restore_from_backup] fails it does so with the "Critical" DNSError. *)
Lemma restore_raises_critical domain_name backup_records (w w' : World R D) e :
  restore domain_name backup_records w = (Raise e, w') ->
  e = mkExn DNSError ("Critical: DNS restoration failed for " ++ domain_name).
Proof.
  unfold _restore_from_backup, try_except.
  match goal with |- context [match ?body w with _ => _ end] =>
    destruct (body w) as [[u|e0] w0] end.
  - discriminate.
  - unfold raise. intros H; now inversion H.
Qed.

(** On the non-transactional path a failed restoration still ends in the
    ordinary return value [False]. *)
Lemma failed_restoration_returns_false domain_name records
    (w w1 w2 w3 : World R D) backup e e' :
  get_dns_records api_client domain_name w = (Ok backup, w1) ->
  (let* current_records := get_dns_records api_client domain_name in
   delete_all delete_dns_record domain_name current_records ;;
   add_all add_dns_record domain_name records ;;
   ret true) w1 = (Raise e, w2) ->
  restore domain_name backup w2 = (Raise e', w3) ->
  without_transaction domain_name records w = (Ok false, w3).
Proof.
  intros Hbackup Hfail Hrestore.
  unfold _update_records_without_transaction.
  erewrite try_raise; [reflexivity|].
  rewrite (bind_ok _ _ _ _ _ Hbackup).
  erewrite try_raise by exact Hfail.
  now rewrite (bind_raise _ _ _ _ _ Hrestore).
Qed.

(** What the transactional scope does guarantee: a failure inside it leaves
    the datastore as it was (the remote side is whatever the calls made it). *)
Lemma with_begin_rolls_back_db {T} (body : M (World R D) T) (w w' : World R D) e :
  with_begin body w = (Raise e, w') -> db w' = db w.
Proof.
  unfold with_begin. destruct (body w) as [[a|e0] w0]; [discriminate|].
  intros H; now inversion H.
Qed.

(** When the fetch, every delete and every add succeed, both paths return True. *)
Lemma with_transaction_success domain_name records (w w1 w2 w3 : World R D) current :
  get_dns_records api_client domain_name w = (Ok current, w1) ->
  delete_all delete_dns_record domain_name current w1 = (Ok tt, w2) ->
  add_all add_dns_record domain_name records w2 = (Ok tt, w3) ->
  update true add_dns_record delete_dns_record domain_name records w = (Ok true, w3).
Proof.
  intros Hget Hdel Hadd. unfold update_dns_records, _update_records_with_transaction.
  apply try_ok. apply try_ok.
  erewrite bind_ok; [reflexivity|].
  unfold with_begin.
  rewrite (bind_ok _ _ _ _ _ Hget), (bind_ok _ _ _ _ _ Hdel), Hadd. reflexivity.
Qed.

(** A failure of an add inside the scope: the call raises, the datastore is
    rolled back, and the remote side stays as the deletes and adds left it. *)
Lemma with_transaction_failure_keeps_remote domain_name records
    (w w1 w2 w3 : World R D) current e :
  get_dns_records api_client domain_name w = (Ok current, w1) ->
  delete_all delete_dns_record domain_name current w1 = (Ok tt, w2) ->
  add_all add_dns_record domain_name records w2 = (Raise e, w3) ->
  update true add_dns_record delete_dns_record domain_name records w
  = (Raise (mkExn DNSError ("Failed to update DNS records: " ++ exn_msg e)),
     mkWorld (remote w3) (db w)).
Proof.
  intros Hget Hdel Hadd. unfold update_dns_records, _update_records_with_transaction.
  erewrite try_raise; [reflexivity|].
  erewrite try_raise; [reflexivity|].
  erewrite bind_raise; [reflexivity|].
  unfold with_begin.
  rewrite (bind_ok _ _ _ _ _ Hget), (bind_ok _ _ _ _ _ Hdel), Hadd. reflexivity.
Qed.

End ReconciliationFacts.

Section ReconciliationRuns.
Import DNSManager.
Context (_validate_ipv4_address : string -> outcome unit).
Context (ipv6_strict : string -> bool).

Local Abbreviation add :=
  (add_dns_record (D := unit) fake_api _validate_ipv4_address ipv6_strict).
Local Abbreviation delete := (delete_dns_record (D := unit) fake_api).

(** C1, evaluation at the failing input.  With a transactional scope
    injected, the provider holds one record; the fetch and the delete succeed
    and the remote add fails.  The call raises, and the provider is left with
    no record at all: the deletion made inside the scope is not undone. *)
Theorem transactional_update_leaves_partial_state :
  fake_records (remote (DnsSamples.world [false; false; true])) = [DnsSamples.old_txt]
  /\ update_dns_records fake_api true add delete "example.com" [DnsSamples.new_txt]
       (DnsSamples.world [false; false; true])
     = (Raise (mkExn DNSError
          "Failed to update DNS records: Failed to add DNS record: remote unavailable"),
        mkWorld (mkFake [] 2 []) tt).
Proof. vm_compute. split; reflexivity. Qed.

(** C2, evaluation at the failing input.  Without a transactional scope,
    the remote add fails and then the add of the restoration fails as well:
    [_restore_from_backup] raises the "Critical" DNSError, and
    [update_dns_records] returns [False] to its caller; the provider is left
    without the old and without the new record. *)
Theorem failed_restoration_is_returned_as_false :
  _restore_from_backup fake_api add delete "example.com"
    [record_of_data DnsSamples.old_txt] (mkWorld (mkFake [] 2 [false; true]) tt)
  = (Raise (mkExn DNSError "Critical: DNS restoration failed for example.com"),
     mkWorld (mkFake [] 2 []) tt)
  /\ update_dns_records fake_api false add delete "example.com" [DnsSamples.new_txt]
       (DnsSamples.world [false; false; false; true; false; true])
     = (Ok false, mkWorld (mkFake [] 2 []) tt).
Proof. vm_compute. split; reflexivity. Qed.

(** The sibling path under the same fault: without a transactional scope the
    failed add is compensated, and the provider holds the old record again
    (under a fresh id). *)
Lemma non_transactional_path_restores_backup :
  update_dns_records fake_api false add delete "example.com" [DnsSamples.new_txt]
    (DnsSamples.world [false; false; false; true])
  = (Ok false,
     mkWorld (mkFake [mkData (Some 2) "TXT" "example.com" "v=spf1 -all" (Some 3600) None]
                     3 []) tt).
Proof. vm_compute. reflexivity. Qed.

(** Without faults both paths replace the record set and return True. *)
Lemma update_without_faults (session : bool) :
  update_dns_records fake_api session add delete "example.com" [DnsSamples.new_txt]
    (DnsSamples.world [])
  = (Ok true,
     mkWorld (mkFake [mkData (Some 2) "TXT" "example.com" "v=spf1 mx -all" (Some 3600) None]
                     3 []) tt).
Proof. destruct session; vm_compute; reflexivity. Qed.

End ReconciliationRuns.

(** ** Hosting accounts *)

Section HostingFacts.
Import HostingManager HostingSpec.
Context {R : Type} (api_client : option (HostingApi R)).

Lemma wrap_hosting_wrapped {T} prefix (body : M (World R) T) (w : World R) :
  wrapped prefix (body w) (wrap_hosting prefix body w).
Proof.
  unfold wrap_hosting, try_except, raise.
  destruct (body w) as [[a|e] w1]; constructor.
Qed.

Lemma wrapped_only_hosting_errors {T} prefix (inner result : outcome T * World R) :
  wrapped prefix inner result -> only_hosting_errors result = true.
Proof. intros []; reflexivity. Qed.

(** A ValidationError raised inside an operation never reaches the caller
    as such. *)
Lemma wrapped_validation_error {T} prefix (body : M (World R) T) (w w' : World R) msg :
  body w = (Raise (mkExn ValidationError msg), w') ->
  wrap_hosting prefix body w = (Raise (mkExn HostingError (prefix ++ ": " ++ msg)), w').
Proof. intros H. unfold wrap_hosting. now rewrite (try_raise _ _ _ _ _ H). Qed.

(** C10. Each public HostingManager operation passes a normal result on and
    turns every exception of its body, ValidationError included, into a
    HostingError whose message is the operation's prefix followed by the
    original message. *)
Theorem hosting_operations_wrap_every_failure
    (domain username password reason : string)
    (package_id customer_id account_id new_package_id : UUID) (years : Z)
    (w : World R) :
  wrapped "Failed to create hosting account"
    (create_body api_client domain package_id customer_id username password w)
    (create_hosting_account api_client domain package_id customer_id username password w)
  /\ wrapped "Failed to suspend hosting account"
       (suspend_body api_client account_id reason w)
       (suspend_account api_client account_id reason w)
  /\ wrapped "Failed to unsuspend hosting account"
       (unsuspend_body api_client account_id w)
       (unsuspend_account api_client account_id w)
  /\ wrapped "Failed to change hosting plan"
       (change_plan_body api_client account_id new_package_id w)
       (change_hosting_plan api_client account_id new_package_id w)
  /\ wrapped "Failed to get account usage"
       (usage_body api_client account_id w)
       (get_account_usage api_client account_id w)
  /\ wrapped "Failed to renew hosting account"
       (renew_body account_id years w)
       (renew_hosting_account account_id years w)
  /\ wrapped "Failed to delete hosting account"
       (delete_body api_client account_id w)
       (delete_hosting_account api_client account_id w).
Proof. repeat split; apply wrap_hosting_wrapped. Qed.

(** No operation lets anything but a HostingError out. *)
Lemma hosting_operations_only_hosting_errors
    (domain username password reason : string)
    (package_id customer_id account_id new_package_id : UUID) (years : Z)
    (w : World R) :
  only_hosting_errors
    (create_hosting_account api_client domain package_id customer_id username password w)
  && only_hosting_errors (suspend_account api_client account_id reason w)
  && only_hosting_errors (unsuspend_account api_client account_id w)
  && only_hosting_errors (change_hosting_plan api_client account_id new_package_id w)
  && only_hosting_errors (get_account_usage api_client account_id w)
  && only_hosting_errors (renew_hosting_account (R := R) account_id years w)
  && only_hosting_errors (delete_hosting_account api_client account_id w) = true.
Proof.
  unfold create_hosting_account, suspend_account, unsuspend_account,
    change_hosting_plan, get_account_usage, renew_hosting_account, delete_hosting_account.
  rewrite !(wrapped_only_hosting_errors _ _ _ (wrap_hosting_wrapped _ _ _)).
  reflexivity.
Qed.

(** A missing account is reported as a HostingError carrying the validation text. *)
Lemma suspend_missing_account account_id reason (w : World R) :
  List.find (fun a => acc_id a =? account_id) (hosting_accounts (db w)) = None ->
  suspend_account api_client account_id reason w
  = (Raise (mkExn HostingError
              "Failed to suspend hosting account: Hosting account not found"), w).
Proof.
  intros H. unfold suspend_account.
  erewrite wrapped_validation_error; [reflexivity|].
  unfold suspend_body, bind at 1, accounts_get. now rewrite H.
Qed.

(** Malformed input is reported as a HostingError carrying the validation text. *)
Lemma create_with_invalid_input domain package_id customer_id username password
    (w : World R) msg :
  _validate_hosting_input domain username password = Raise (mkExn ValidationError msg) ->
  create_hosting_account api_client domain package_id customer_id username password w
  = (Raise (mkExn HostingError ("Failed to create hosting account: " ++ msg)), w).
Proof.
  intros H. unfold create_hosting_account.
  erewrite wrapped_validation_error; [reflexivity|].
  unfold create_body, bind at 1, lift_outcome. now rewrite H.
Qed.

Lemma find_domain_some domain (rows : list HostingAccount) existing :
  In existing rows -> acc_domain existing = domain ->
  exists a, List.find (fun a => String.eqb (acc_domain a) domain) rows = Some a.
Proof.
  intros Hin Hdom.
  destruct (List.find (fun a => String.eqb (acc_domain a) domain) rows) as [a|] eqn:E;
    [eauto|].
  exfalso. pose proof (List.find_none _ _ E _ Hin) as Hno. cbv beta in Hno.
  rewrite Hdom, String.eqb_refl in Hno. discriminate.
Qed.

(** The body of [create_hosting_account] fails before the remote call when
    the domain already has an account: the world is untouched. *)
Lemma create_body_existing domain package_id customer_id username password
    (w : World R) existing :
  In existing (hosting_accounts (db w)) -> acc_domain existing = domain ->
  exists e, create_body api_client domain package_id customer_id username password w
            = (Raise e, w).
Proof.
  intros Hin Hdom.
  destruct (find_domain_some domain _ _ Hin Hdom) as [a Ha].
  unfold create_body, bind at 1, lift_outcome.
  destruct (_validate_hosting_input domain username password) as [[]|e]; [|eauto].
  unfold bind at 1, packages_get.
  destruct (List.find _ (hosting_packages (db w))) as [package|]; [|unfold raise; eauto].
  destruct (negb (pkg_active package)); [unfold raise; eauto|].
  unfold bind at 1, customers_get.
  destruct (List.find _ (customers (db w))) as [customer|]; [|unfold raise; eauto].
  unfold bind at 1, accounts_get_by_domain. rewrite Ha. unfold raise; eauto.
Qed.

(** The remote provisioning call is made only after the input, package,
    customer and uniqueness checks have all passed. *)
Lemma provisioning_only_after_checks domain package_id customer_id username password
    (w w' : World R) o :
  create_body api_client domain package_id customer_id username password w = (o, w') ->
  calls w' <> calls w ->
  _validate_hosting_input domain username password = Ok tt
  /\ (exists package,
        List.find (fun p => pkg_id p =? package_id) (hosting_packages (db w)) = Some package
        /\ pkg_active package = true)
  /\ (exists customer,
        List.find (fun c => cust_id c =? customer_id) (customers (db w)) = Some customer)
  /\ List.find (fun a => String.eqb (acc_domain a) domain) (hosting_accounts (db w)) = None.
Proof.
  unfold create_body, bind at 1, lift_outcome.
  destruct (_validate_hosting_input domain username password) as [[]|e];
    [|intros H; inversion H; subst; congruence].
  unfold bind at 1, packages_get.
  destruct (List.find _ (hosting_packages (db w))) as [package|];
    [|unfold raise; intros H; inversion H; subst; congruence].
  destruct (pkg_active package) eqn:Hact; cbn [negb];
    [|unfold raise; intros H; inversion H; subst; congruence].
  unfold bind at 1, customers_get.
  destruct (List.find _ (customers (db w))) as [customer|];
    [|unfold raise; intros H; inversion H; subst; congruence].
  unfold bind at 1, accounts_get_by_domain.
  destruct (List.find _ (hosting_accounts (db w))) as [a|];
    [unfold raise; intros H; inversion H; subst; congruence|].
  intros _ _. repeat split; eauto.
Qed.

(** When the other checks pass, the message names the domain. *)
Lemma create_existing_domain_message domain package_id customer_id username password
    (w : World R) package customer existing :
  _validate_hosting_input domain username password = Ok tt ->
  List.find (fun p => pkg_id p =? package_id) (hosting_packages (db w)) = Some package ->
  pkg_active package = true ->
  List.find (fun c => cust_id c =? customer_id) (customers (db w)) = Some customer ->
  In existing (hosting_accounts (db w)) -> acc_domain existing = domain ->
  create_hosting_account api_client domain package_id customer_id username password w
  = (Raise (mkExn HostingError
              ("Failed to create hosting account: "
               ++ ("Hosting account already exists for domain: " ++ domain))), w).
Proof.
  intros Hv Hp Hact Hc Hin Hdom.
  destruct (find_domain_some domain _ _ Hin Hdom) as [a Ha].
  unfold create_hosting_account.
  erewrite wrapped_validation_error; [reflexivity|].
  unfold create_body, bind at 1, lift_outcome. rewrite Hv. cbv beta iota.
  unfold bind at 1, packages_get. rewrite Hp, Hact. cbn [negb].
  unfold bind at 1, customers_get. rewrite Hc.
  unfold bind at 1, accounts_get_by_domain. rewrite Ha. reflexivity.
Qed.

(** C9. If the repository already holds a hosting account for the domain,
    [create_hosting_account] raises a HostingError and leaves the world as it
    found it: no client call is logged (the remote provisioning API is not
    called), the remote side is unchanged and no row is written. *)
Theorem create_hosting_account_existing_domain
    (domain : string) (package_id customer_id : UUID) (username password : string)
    (w : World R) (existing : HostingAccount) :
  In existing (hosting_accounts (db w)) ->
  acc_domain existing = domain ->
  exists msg w',
    create_hosting_account api_client domain package_id customer_id username password w
    = (Raise (mkExn HostingError msg), w')
    /\ calls w' = calls w /\ remote w' = remote w /\ db w' = db w.
Proof.
  intros Hin Hdom.
  destruct (create_body_existing domain package_id customer_id username password
              w existing Hin Hdom) as [e He].
  exists ("Failed to create hosting account" ++ ": " ++ exn_msg e), w.
  split; [|repeat split].
  unfold create_hosting_account, wrap_hosting. now rewrite (try_raise _ _ _ _ _ He).
Qed.

End HostingFacts.

(** A datastore that already holds an account for example.com. *)
Lemma create_hosting_account_existing_domain_witness :
  exists msg w',
    HostingManager.create_hosting_account (Some HostingSpec.stub_api)
      "example.com" 10 20 "testuser" "securepassword123" HostingSpec.world_with_account
    = (Raise (mkExn HostingError msg), w')
    /\ HostingManager.calls w' = []
    /\ HostingManager.remote w' = tt
    /\ HostingManager.db w' = HostingManager.db HostingSpec.world_with_account.
Proof.
  apply (create_hosting_account_existing_domain (Some HostingSpec.stub_api)
           "example.com" 10 20 "testuser" "securepassword123"
           HostingSpec.world_with_account HostingSpec.sample_account).
  - simpl. left. reflexivity.
  - reflexivity.
Defined.

(** The same call at full length: all earlier checks pass, the message names
    the domain and the call log stays empty; on the datastore without the
    account the same request is provisioned remotely and stored. *)
Lemma existing_domain_run :
  fst (HostingManager.create_hosting_account (Some HostingSpec.stub_api)
         "example.com" 10 20 "testuser" "securepassword123" HostingSpec.world_with_account)
  = Raise (mkExn HostingError
      "Failed to create hosting account: Hosting account already exists for domain: example.com")
  /\ HostingManager.calls
       (snd (HostingManager.create_hosting_account (Some HostingSpec.stub_api)
               "example.com" 10 20 "testuser" "securepassword123"
               HostingSpec.world_with_account)) = []
  /\ fst (HostingManager.create_hosting_account (Some HostingSpec.stub_api)
            "example.com" 10 20 "testuser" "securepassword123"
            HostingSpec.world_without_account)
     = Ok (HostingManager.mkAccount 100 "example.com" "testuser" HostingManager.HS_PENDING
             (Some "10.0.0.1") 0 0 None
             (Some (DT.mkDT (RegistrarStub.t2026 + 365 * DT.us_per_day) false))
             (Some 20) (Some 10))
  /\ HostingManager.calls
       (snd (HostingManager.create_hosting_account (Some HostingSpec.stub_api)
               "example.com" 10 20 "testuser" "securepassword123"
               HostingSpec.world_without_account))
     = [HostingManager.Call_create_account "example.com" "testuser"].
Proof. vm_compute. repeat split; reflexivity. Qed.

(** ** The matcher decides the language of a pattern *)

Section ReFacts.
Import Re.
Local Open Scope list_scope.

Lemma lang_Void s : lang Void s <-> False.
Proof. split; [inversion 1 | tauto]. Qed.

Lemma lang_Eps s : lang Eps s <-> s = [].
Proof. split; [inversion 1; reflexivity | intros ->; constructor]. Qed.

Lemma lang_Class p s : lang (Class p) s <-> exists a, s = [a] /\ p a = true.
Proof.
  split.
  - inversion 1; subst. eauto.
  - intros (a & -> & H). now constructor.
Qed.

Lemma lang_Cat r1 r2 s :
  lang (Cat r1 r2) s <-> exists s1 s2, s = s1 ++ s2 /\ lang r1 s1 /\ lang r2 s2.
Proof.
  split.
  - inversion 1; subst. eauto.
  - intros (s1 & s2 & -> & H1 & H2). now constructor.
Qed.

Lemma lang_Alt r1 r2 s : lang (Alt r1 r2) s <-> lang r1 s \/ lang r2 s.
Proof.
  split.
  - inversion 1; subst; auto.
  - intros [H|H]; [now apply L_alt_l | now apply L_alt_r].
Qed.

Lemma lang_Rep lo hi r s :
  lang (Rep lo hi r) s <->
  (lo = 0%nat /\ s = []) \/
  (hi_is_zero hi = false /\
   exists s1 s2, s = s1 ++ s2 /\ lang r s1 /\ lang (Rep (Nat.pred lo) (pred_hi hi) r) s2).
Proof.
  split.
  - inversion 1; subst; [left; auto | right; eauto 6].
  - intros [[-> ->] | (Hhi & s1 & s2 & -> & H1 & H2)]; [constructor | now constructor].
Qed.

Lemma lang_cat r1 r2 s : lang (cat r1 r2) s <-> lang (Cat r1 r2) s.
Proof.
  rewrite lang_Cat.
  assert (Hvoid_l : forall r, lang Void s <-> exists s1 s2, s = s1 ++ s2 /\ lang Void s1 /\ lang r s2).
  { intros r. rewrite lang_Void. split; [tauto|].
    intros (s1 & s2 & _ & H & _). now apply lang_Void in H. }
  assert (Hvoid_r : forall r, lang Void s <-> exists s1 s2, s = s1 ++ s2 /\ lang r s1 /\ lang Void s2).
  { intros r. rewrite lang_Void. split; [tauto|].
    intros (s1 & s2 & _ & _ & H). now apply lang_Void in H. }
  assert (Heps : forall r, lang r s <-> exists s1 s2, s = s1 ++ s2 /\ lang Eps s1 /\ lang r s2).
  { intros r. split.
    - intros H. exists [], s. repeat split; [constructor | exact H].
    - intros (s1 & s2 & -> & H1 & H2). apply lang_Eps in H1. now subst. }
  destruct r1; cbn [cat]; try apply Hvoid_l;
    destruct r2; try apply Hvoid_r; try apply Heps; apply lang_Cat.
Qed.

Lemma lang_alt r1 r2 s : lang (alt r1 r2) s <-> lang (Alt r1 r2) s.
Proof.
  rewrite lang_Alt.
  assert (Hl : forall r, lang r s <-> lang Void s \/ lang r s).
  { intros r. rewrite lang_Void. tauto. }
  assert (Hr : forall r, lang r s <-> lang r s \/ lang Void s).
  { intros r. rewrite lang_Void. tauto. }
  destruct r1; cbn [alt]; try apply Hl; destruct r2; try apply Hr; apply lang_Alt.
Qed.

Lemma wf_cat r1 r2 : wf r1 = true -> wf r2 = true -> wf (cat r1 r2) = true.
Proof.
  intros H1 H2. destruct r1; cbn [cat]; try reflexivity; try exact H2;
    destruct r2; try reflexivity; cbn [wf] in *; rewrite ?H1, ?H2; reflexivity.
Qed.

Lemma wf_alt r1 r2 : wf r1 = true -> wf r2 = true -> wf (alt r1 r2) = true.
Proof.
  intros H1 H2. destruct r1; cbn [alt]; try exact H2;
    destruct r2; try exact H1; cbn [wf] in *; rewrite ?H1, ?H2; reflexivity.
Qed.

Lemma wf_deriv a r : wf r = true -> wf (deriv a r) = true.
Proof.
  induction r as [| |p|r1 IH1 r2 IH2|r1 IH1 r2 IH2|lo hi r IH]; cbn [deriv wf]; intros H.
  - reflexivity.
  - reflexivity.
  - now destruct (p a).
  - apply andb_true_iff in H as [H1 H2].
    destruct (nullable r1); [apply wf_alt|]; try apply wf_cat; auto.
  - apply andb_true_iff in H as [H1 H2]. apply wf_alt; auto.
  - apply andb_true_iff in H as [H1 H2].
    destruct (hi_is_zero hi); [reflexivity|].
    apply wf_cat; [auto|]. cbn [wf]. now rewrite H1, H2.
Qed.

Lemma nullable_spec r : wf r = true -> (nullable r = true <-> lang r []).
Proof.
  induction r as [| |p|r1 IH1 r2 IH2|r1 IH1 r2 IH2|lo hi r IH]; cbn [nullable wf]; intros H.
  - rewrite lang_Void. split; [discriminate | tauto].
  - rewrite lang_Eps. tauto.
  - rewrite lang_Class. split; [discriminate|]. intros (a & Hs & _). discriminate.
  - apply andb_true_iff in H as [H1 H2].
    rewrite andb_true_iff, IH1, IH2, lang_Cat by assumption. split.
    + intros [Ha Hb]. exists [], []. auto.
    + intros (s1 & s2 & Hs & Ha & Hb). symmetry in Hs.
      apply app_eq_nil in Hs as [-> ->]. auto.
  - apply andb_true_iff in H as [H1 H2].
    now rewrite orb_true_iff, IH1, IH2, lang_Alt.
  - apply andb_true_iff in H as [H1 H2]. apply negb_true_iff in H2.
    rewrite Nat.eqb_eq, lang_Rep. split.
    + intros ->. left. auto.
    + intros [[Hlo _] | (_ & s1 & s2 & Hs & Ha & _)]; [exact Hlo|].
      symmetry in Hs. apply app_eq_nil in Hs as [-> ->].
      apply IH in Ha; [congruence | assumption].
Qed.

Lemma deriv_spec a r : wf r = true -> forall s, lang (deriv a r) s <-> lang r (a :: s).
Proof.
  induction r as [| |p|r1 IH1 r2 IH2|r1 IH1 r2 IH2|lo hi r IH]; cbn [deriv wf]; intros H s.
  - rewrite !lang_Void. tauto.
  - rewrite lang_Void, lang_Eps. split; [tauto | discriminate].
  - rewrite lang_Class. destruct (p a) eqn:Hp.
    + rewrite lang_Eps. split.
      * intros ->. eauto.
      * intros (b & Hs & _). now inversion Hs.
    + rewrite lang_Void. split; [tauto|].
      intros (b & Hs & Hb). inversion Hs; subst. congruence.
  - apply andb_true_iff in H as [H1 H2].
    assert (Hcat : lang (Cat (deriv a r1) r2) s \/ (lang r1 [] /\ lang r2 (a :: s))
                   <-> lang (Cat r1 r2) (a :: s)).
    { rewrite !lang_Cat. split.
      - intros [(s1 & s2 & -> & Ha & Hb) | [Ha Hb]].
        + exists (a :: s1), s2. rewrite <- IH1 by assumption. auto.
        + exists [], (a :: s). auto.
      - intros (s1 & s2 & Hs & Ha & Hb). destruct s1 as [|b s1].
        + right. cbn [app] in Hs. subst s2. auto.
        + left. cbn [app] in Hs. inversion Hs; subst b s.
          exists s1, s2. rewrite IH1 by assumption. auto. }
    rewrite <- Hcat. destruct (nullable r1) eqn:Hn.
    + rewrite lang_alt, lang_Alt, lang_cat, IH2 by assumption.
      apply nullable_spec in Hn; [|assumption]. tauto.
    + rewrite lang_cat. split; [tauto|]. intros [Hc | [Hnil _]]; [exact Hc|].
      apply nullable_spec in Hnil; [congruence | assumption].
  - apply andb_true_iff in H as [H1 H2].
    now rewrite lang_alt, !lang_Alt, IH1, IH2.
  - apply andb_true_iff in H as [H1 H2]. apply negb_true_iff in H2.
    rewrite lang_Rep. destruct (hi_is_zero hi) eqn:Hhi.
    + rewrite lang_Void. split; [tauto|].
      intros [[_ Hs] | [Hz _]]; [discriminate | discriminate].
    + rewrite lang_cat, lang_Cat. split.
      * intros (s1 & s2 & -> & Ha & Hb). right. split; [reflexivity|].
        exists (a :: s1), s2. rewrite <- IH by assumption. auto.
      * intros [[_ Hs] | (_ & s1 & s2 & Hs & Ha & Hb)]; [discriminate|].
        destruct s1 as [|b s1].
        -- apply nullable_spec in Ha; [congruence | assumption].
        -- cbn [app] in Hs. inversion Hs; subst b s.
           exists s1, s2. rewrite IH by assumption. auto.
Qed.

(** The derivative matcher accepts exactly the language of a pattern. *)
Lemma accepts_spec s : forall r, wf r = true -> (accepts r s = true <-> lang r s).
Proof.
  unfold accepts. induction s as [|a s IH]; intros r Hwf; cbn [derivs].
  - now apply nullable_spec.
  - rewrite IH by now apply wf_deriv. now apply deriv_spec.
Qed.

End ReFacts.

(** ** Character classes and string helpers *)

Section StringFacts.
Local Open Scope list_scope.

Lemma ascii_cases (P : ascii -> bool) :
  forallb (fun n => P (ascii_of_nat n)) (seq 0 256) = true -> forall a, P a = true.
Proof.
  intros H a. rewrite forallb_forall in H.
  rewrite <- (ascii_nat_embedding a). apply H.
  apply in_seq. pose proof (nat_ascii_bounded a). lia.
Qed.

Lemma class_implies (P Q : ascii -> bool) :
  forallb (fun n => implb (P (ascii_of_nat n)) (Q (ascii_of_nat n))) (seq 0 256) = true ->
  forall a, P a = true -> Q a = true.
Proof.
  intros H a Ha. pose proof (ascii_cases (fun a => implb (P a) (Q a)) H a) as Hi.
  cbv beta in Hi. rewrite Ha in Hi. exact Hi.
Qed.

Lemma alnum_is_alnum_hyphen a :
  (Py.is_alnum a) = true -> Py.is_alnum a || Py.is_char "-" a = true.
Proof.
  apply (class_implies (fun a => Py.is_alnum a) (fun a => Py.is_alnum a || Py.is_char "-" a)).
  vm_compute. reflexivity.
Qed.

Lemma alnum_hyphen_allowed a :
  (Py.is_alnum a || Py.is_char "-" a) = true -> Patterns.allowed_char a = true.
Proof.
  apply (class_implies (fun a => Py.is_alnum a || Py.is_char "-" a) (fun a => Patterns.allowed_char a)).
  vm_compute. reflexivity.
Qed.

Lemma alpha_allowed a :
  (Py.is_alpha a) = true -> Patterns.allowed_char a = true.
Proof.
  apply (class_implies (fun a => Py.is_alpha a) (fun a => Patterns.allowed_char a)).
  vm_compute. reflexivity.
Qed.

Lemma dot_allowed a :
  (Py.is_char "." a) = true -> Patterns.allowed_char a = true.
Proof.
  apply (class_implies (fun a => Py.is_char "." a) (fun a => Patterns.allowed_char a)).
  vm_compute. reflexivity.
Qed.

Lemma alnum_hyphen_not_dot a :
  (Py.is_alnum a || Py.is_char "-" a) = true -> Py.not_char "." a = true.
Proof.
  apply (class_implies (fun a => Py.is_alnum a || Py.is_char "-" a) (fun a => Py.not_char "." a)).
  vm_compute. reflexivity.
Qed.

Lemma alnum_not_hyphen a :
  (Py.is_alnum a) = true -> Py.not_char "-" a = true.
Proof.
  apply (class_implies (fun a => Py.is_alnum a) (fun a => Py.not_char "-" a)).
  vm_compute. reflexivity.
Qed.

Lemma alpha_not_dot a :
  (Py.is_alpha a) = true -> Py.not_char "." a = true.
Proof.
  apply (class_implies (fun a => Py.is_alpha a) (fun a => Py.not_char "." a)).
  vm_compute. reflexivity.
Qed.

Lemma alpha_not_hyphen a :
  (Py.is_alpha a) = true -> Py.not_char "-" a = true.
Proof.
  apply (class_implies (fun a => Py.is_alpha a) (fun a => Py.not_char "-" a)).
  vm_compute. reflexivity.
Qed.

Lemma dot_not_hyphen a :
  (Py.is_char "." a) = true -> Py.not_char "-" a = true.
Proof.
  apply (class_implies (fun a => Py.is_char "." a) (fun a => Py.not_char "-" a)).
  vm_compute. reflexivity.
Qed.

Lemma newline_not_dot a :
  (Py.is_char "010" a) = true -> Py.not_char "." a = true.
Proof.
  apply (class_implies (fun a => Py.is_char "010" a) (fun a => Py.not_char "." a)).
  vm_compute. reflexivity.
Qed.

Lemma newline_not_hyphen a :
  (Py.is_char "010" a) = true -> Py.not_char "-" a = true.
Proof.
  apply (class_implies (fun a => Py.is_char "010" a) (fun a => Py.not_char "-" a)).
  vm_compute. reflexivity.
Qed.

Lemma len_chars (s : string) : Py.len s = Z.of_nat (List.length (Py.chars s)).
Proof.
  unfold Py.len, Py.chars. f_equal.
  induction s as [|a s IH]; cbn; [reflexivity | now rewrite IH].
Qed.

Lemma truthy_chars (s : string) : Py.truthy s = true -> Py.chars s <> [].
Proof. destruct s; [discriminate|]. intros _. cbn. discriminate. Qed.

(** *** [split] *)

Lemma split_not_nil c s : Py.split c s <> [].
Proof.
  destruct s as [|a s]; cbn [Py.split]; [discriminate|].
  destruct (Py.ascii_eqb a c); [discriminate|].
  destruct (Py.split c s); discriminate.
Qed.

Lemma split_cons_other c a s :
  Py.ascii_eqb a c = false ->
  exists p ps, Py.split c s = p :: ps /\ Py.split c (a :: s) = (a :: p) :: ps.
Proof.
  intros H. cbn [Py.split]. rewrite H.
  destruct (Py.split c s) as [|p ps] eqn:E; [now apply split_not_nil in E|]. eauto.
Qed.

Lemma split_free c l :
  Forall (fun a => Py.not_char c a = true) l -> Py.split c l = [l].
Proof.
  induction 1 as [|a l Ha _ IH]; [reflexivity|].
  apply negb_true_iff in Ha.
  destruct (split_cons_other c a l Ha) as (p & ps & E1 & E2).
  rewrite E2. rewrite IH in E1. now inversion E1.
Qed.

Lemma split_app_sep c l rest :
  Forall (fun a => Py.not_char c a = true) l ->
  Py.split c (l ++ c :: rest) = l :: Py.split c rest.
Proof.
  induction 1 as [|a l Ha _ IH]; cbn [app].
  - cbn [Py.split]. unfold Py.ascii_eqb. now rewrite Ascii.eqb_refl.
  - apply negb_true_iff in Ha.
    destruct (split_cons_other c a (l ++ c :: rest) Ha) as (p & ps & E1 & E2).
    rewrite E2. rewrite IH in E1. now inversion E1.
Qed.

(** A doubled separator shows up as an empty part after the first one. *)
Lemma contains_double_empty_part c s :
  Py.contains_double c s = true -> In [] (tl (Py.split c s)).
Proof.
  induction s as [|a s IH]; [discriminate|].
  destruct s as [|b s]; [discriminate|].
  change (Py.contains_double c (a :: b :: s))
    with ((Py.ascii_eqb a c && Py.ascii_eqb b c) || Py.contains_double c (b :: s)).
  destruct (Py.ascii_eqb a c) eqn:Ea.
  - change (Py.split c (a :: b :: s))
      with (if Py.ascii_eqb a c then [] :: Py.split c (b :: s)
            else match Py.split c (b :: s) with
                 | p :: ps => (a :: p) :: ps | [] => [[a]] end).
    rewrite Ea. cbn [tl andb orb].
    destruct (Py.ascii_eqb b c) eqn:Eb; cbn [orb].
    + intros _. cbn [Py.split]. rewrite Eb. now left.
    + intros H. apply IH in H.
      destruct (Py.split c (b :: s)); [contradiction | now right].
  - cbn [andb orb]. intros H. apply IH in H.
    destruct (split_cons_other c a (b :: s) Ea) as (p & ps & E1 & E2).
    rewrite E2. rewrite E1 in H. exact H.
Qed.

Lemma no_empty_part_no_double c s :
  Forall (fun p => p <> []) (Py.split c s) -> Py.contains_double c s = false.
Proof.
  intros H. destruct (Py.contains_double c s) eqn:E; [|reflexivity].
  apply contains_double_empty_part in E.
  rewrite List.Forall_forall in H. exfalso.
  apply (H []); [|reflexivity].
  destruct (Py.split c s); [contradiction | now right].
Qed.

(** *** [endswith] *)

Lemma endswith_app c x y :
  y <> [] -> Py.endswith_char c (x ++ y) = Py.endswith_char c y.
Proof.
  intros Hy. induction x as [|a x IH]; [reflexivity|].
  cbn [app]. destruct (x ++ y) as [|b z] eqn:E.
  - apply app_eq_nil in E as [_ ->]. contradiction.
  - rewrite <- IH. reflexivity.
Qed.

Lemma endswith_absent c y :
  Forall (fun a => Py.not_char c a = true) y -> Py.endswith_char c y = false.
Proof.
  induction 1 as [|a y Ha _ IH]; [reflexivity|].
  apply negb_true_iff in Ha.
  destruct y as [|b y]; [exact Ha | exact IH].
Qed.

End StringFacts.

(** ** The two domain-name validators *)

Section ValidatorFacts.
Import Re Patterns DomainValidationService ValidatorSpec.
Local Open Scope list_scope.

(** *** Shape of the strings of the manager's pattern *)

Lemma rep_class_inv p s : forall lo hi,
  lang (Rep lo hi (Class p)) s ->
  Forall (fun a => p a = true) s /\ (lo <= List.length s)%nat.
Proof.
  induction s as [|a s IH]; intros lo hi H; apply lang_Rep in H.
  - destruct H as [[-> _] | (_ & s1 & s2 & Hs & H1 & _)]; [split; [constructor | cbn; lia]|].
    apply lang_Class in H1 as (b & -> & _). discriminate.
  - destruct H as [[_ Hs] | (_ & s1 & s2 & Hs & H1 & H2)]; [discriminate|].
    apply lang_Class in H1 as (b & -> & Hb). cbn [app] in Hs. inversion Hs; subst b s2.
    apply IH in H2 as [HF Hlen]. split; [now constructor | cbn; lia].
Qed.

Lemma rep_class_intro p s : forall lo,
  Forall (fun a => p a = true) s -> (lo <= List.length s)%nat ->
  lang (Rep lo None (Class p)) s.
Proof.
  induction s as [|a s IH]; intros lo HF Hlen.
  - cbn in Hlen. replace lo with 0%nat by lia. constructor.
  - inversion HF; subst. change (a :: s) with ([a] ++ s).
    constructor; [reflexivity | now constructor |].
    apply IH; [assumption | cbn in *; lia].
Qed.

Lemma label_inv l :
  lang label l ->
  exists c m, l = c :: m /\ Py.is_alnum c = true
              /\ Forall (fun a => (Py.is_alnum a || Py.is_char "-" a) = true) m.
Proof.
  unfold label, Opt, Between, alnum, alnum_hyphen. intros H.
  apply lang_Cat in H as (s1 & o & -> & H1 & Ho).
  apply lang_Class in H1 as (c & -> & Hc).
  exists c, o. split; [reflexivity|]. split; [exact Hc|].
  apply lang_Rep in Ho as [[_ ->] | (_ & x & y & -> & Hx & Hy)]; [constructor|].
  apply lang_Rep in Hy as [[_ ->] | (Hz & _)]; [|discriminate].
  apply lang_Cat in Hx as (h & z & -> & Hh & Hz).
  apply rep_class_inv in Hh as [Hh _].
  apply lang_Class in Hz as (b & -> & Hb).
  rewrite app_nil_r. apply Forall_app. split; [exact Hh|].
  constructor; [now apply alnum_is_alnum_hyphen | constructor].
Qed.

(** The dotted groups [(\.[a-zA-Z]{2,})] laid end to end. *)
Lemma groups_inv g : forall lo,
  lang (Rep lo None (Cat (Chr ".") (AtLeast 2 (Class Py.is_alpha)))) g ->
  exists ts : list (list ascii),
    g = List.concat (map (cons "."%char) ts)
    /\ Forall (fun t => Forall (fun a => Py.is_alpha a = true) t
                        /\ (2 <= List.length t)%nat) ts
    /\ (lo <= List.length ts)%nat.
Proof.
  intros lo H.
  remember (Rep lo None (Cat (Chr ".") (AtLeast 2 (Class Py.is_alpha)))) as r eqn:Er.
  revert lo Er.
  induction H as [ |p a Hp|r1 r2 s1 s2 H1 IH1 H2 IH2|r1 r2 s H IH|r1 r2 s H IH
                 |hi r0|lo0 hi r0 s1 s2 Hhi H1 IH1 H2 IH2];
    intros lo Er; inversion Er; subst.
  - exists []. repeat split; [constructor | cbn; lia].
  - destruct (IH2 (Nat.pred lo) eq_refl) as (ts & -> & Hts & Hlen).
    apply lang_Cat in H1 as (d & t & -> & Hd & Ht).
    apply lang_Class in Hd as (b & -> & Hb).
    unfold Py.is_char, Py.ascii_eqb in Hb. apply Ascii.eqb_eq in Hb. subst b.
    apply rep_class_inv in Ht as [Ht Hlt].
    exists (t :: ts). split; [reflexivity|]. split; [constructor; auto | cbn; lia].
Qed.

Lemma eol_inv e :
  lang Eol e -> e = [] \/ exists nl, e = [nl] /\ Py.is_char "010" nl = true.
Proof.
  unfold Eol, Opt, Chr. intros H.
  apply lang_Rep in H as [[_ ->] | (_ & x & y & -> & Hx & Hy)]; [now left|].
  apply lang_Rep in Hy as [[_ ->] | (Hz & _)]; [|discriminate].
  apply lang_Class in Hx as (nl & -> & Hnl). right. eauto.
Qed.

Lemma domain_pattern_inv s :
  lang domain_pattern s ->
  exists c m ts e,
    s = (c :: m) ++ List.concat (map (cons "."%char) ts) ++ e
    /\ Py.is_alnum c = true
    /\ Forall (fun a => (Py.is_alnum a || Py.is_char "-" a) = true) m
    /\ Forall (fun t => Forall (fun a => Py.is_alpha a = true) t
                        /\ (2 <= List.length t)%nat) ts
    /\ (1 <= List.length ts)%nat
    /\ (e = [] \/ exists nl, e = [nl] /\ Py.is_char "010" nl = true).
Proof.
  unfold domain_pattern, Plus. intros H.
  apply lang_Cat in H as (l & rest & -> & Hl & Hrest).
  apply lang_Cat in Hrest as (g & e & -> & Hg & He).
  apply label_inv in Hl as (c & m & -> & Hc & Hm).
  apply groups_inv in Hg as (ts & -> & Hts & Hlen).
  apply eol_inv in He.
  exists c, m, ts, e. repeat split; assumption.
Qed.

(** *** Parts of such a string *)

Lemma split_groups (e : list ascii) (ts : list (list ascii)) : forall l,
  Forall (fun a => Py.not_char "." a = true) l ->
  Forall (fun t => Forall (fun a => Py.not_char "." a = true) t /\ t <> []) ts ->
  Forall (fun a => Py.not_char "." a = true) e ->
  l <> [] ->
  Forall (fun p => p <> []) (Py.split "." (l ++ List.concat (map (cons "."%char) ts) ++ e))
  /\ List.length (Py.split "." (l ++ List.concat (map (cons "."%char) ts) ++ e))
     = S (List.length ts).
Proof.
  induction ts as [|t ts IH]; intros l Hl Hts He Hne.
  - cbn [map List.concat app]. rewrite split_free by (apply Forall_app; auto).
    split; [|reflexivity]. constructor; [|constructor].
    destruct l; [contradiction | discriminate].
  - inversion Hts as [|? ? [Ht Htne] Hts']; subst.
    cbn [map List.concat]. rewrite <- !app_assoc. cbn [app].
    rewrite split_app_sep by assumption.
    destruct (IH t Ht Hts' He Htne) as [HF Hlen].
    rewrite app_assoc in HF, Hlen. rewrite <- app_assoc in HF, Hlen.
    split; [constructor; assumption | cbn [List.length]; now rewrite Hlen].
Qed.

(** *** The service's verdict as a conjunction of its checks *)

Lemma valid_flag cond msg r : valid (flag cond msg r) = valid r && negb cond.
Proof. unfold flag. destruct cond; cbn; [now rewrite andb_false_r | now rewrite andb_true_r]. Qed.

Lemma valid_check_parts parts : forall r,
  valid (fold_left check_part parts r) = valid r && forallb part_ok parts.
Proof.
  induction parts as [|p ps IH]; intros r; cbn [fold_left forallb].
  - now rewrite andb_true_r.
  - rewrite IH. unfold check_part, part_ok.
    destruct (List.length p <? 1)%nat; [rewrite valid_flag; cbn; now rewrite !andb_false_r|].
    destruct (63 <? List.length p)%nat; [rewrite valid_flag; cbn; now rewrite !andb_false_r|].
    reflexivity.
Qed.

Lemma validate_domain_syntax_valid (domain_name : string) :
  valid (validate_domain_syntax domain_name)
  = negb (Py.len domain_name <? 4) && negb (Py.len domain_name >? 253)
    && re_match allowed_chars_pattern domain_name
    && negb (Py.startswith_char "-" (Py.chars domain_name)
             || Py.endswith_char "-" (Py.chars domain_name))
    && negb (Py.contains_double "." (Py.chars domain_name))
    && negb (List.length (Py.split "." (Py.chars domain_name)) <? 2)%nat
    && forallb part_ok (Py.split "." (Py.chars domain_name)).
Proof.
  unfold validate_domain_syntax. cbv zeta.
  rewrite valid_check_parts, !valid_flag, negb_involutive.
  destruct (Py.len domain_name <? 4); [reflexivity|].
  destruct (Py.len domain_name >? 253); reflexivity.
Qed.

End ValidatorFacts.

Section ValidatorComparison.
Import Re Patterns DomainValidationService ValidatorSpec.
Local Open Scope list_scope.

Lemma eol_intro e :
  e = [] \/ (exists nl, e = [nl] /\ Py.is_char "010" nl = true) -> lang Eol e.
Proof.
  unfold Eol, Opt, Chr. intros [-> | (nl & -> & Hnl)]; [constructor|].
  change [nl] with ([nl] ++ []). constructor; [reflexivity | now constructor | constructor].
Qed.

Lemma Forall_groups (P : ascii -> Prop) (ts : list (list ascii)) :
  P "."%char -> Forall (fun t => Forall P t) ts ->
  Forall P (List.concat (map (cons "."%char) ts)).
Proof.
  intros Hdot. induction 1 as [|t ts Ht _ IH]; cbn [map List.concat]; [constructor|].
  cbn [app]. constructor; [exact Hdot|]. apply Forall_app. auto.
Qed.

Lemma groups_length (ts : list (list ascii)) :
  Forall (fun t => (2 <= List.length t)%nat) ts -> (1 <= List.length ts)%nat ->
  (3 <= List.length (List.concat (map (cons "."%char) ts)))%nat.
Proof.
  intros H Hn. destruct ts as [|t ts]; [cbn in Hn; lia|].
  inversion H; subst. cbn [map List.concat app List.length].
  rewrite length_app. lia.
Qed.

(** C7 (as amended). Every name accepted by DomainManager's validator whose
    dot-separated labels have at most 63 characters each is reported valid by
    DomainValidationService's syntax check. *)
Theorem manager_accepted_names_are_service_valid (domain_name : string) :
  DomainManager._validate_domain_name domain_name = true ->
  Forall (fun part => (List.length part <= 63)%nat)
         (Py.split "." (Py.chars domain_name)) ->
  valid (validate_domain_syntax domain_name) = true.
Proof.
  intros Hacc Hparts. unfold DomainManager._validate_domain_name in Hacc.
  destruct (negb (Py.truthy domain_name) || (Py.len domain_name >? 253)) eqn:Hguard;
    [discriminate|].
  apply orb_false_iff in Hguard as [_ Hlen].
  unfold re_match in Hacc. apply accepts_spec in Hacc; [|reflexivity].
  apply domain_pattern_inv in Hacc as (c & m & ts & e & Hs & Hc & Hm & Hts & Hn & He).
  rewrite validate_domain_syntax_valid. unfold re_match.
  rewrite len_chars in *. rewrite Hlen. rewrite Hs in *. clear Hs.
  set (G := List.concat (map (cons "."%char) ts)) in *.
  (* facts about the three segments *)
  assert (Hts_alpha : Forall (fun t => Forall (fun a => Py.is_alpha a = true) t) ts).
  { eapply List.Forall_impl; [|exact Hts]. now intros t [Ht _]. }
  assert (Hts_len : Forall (fun t => (2 <= List.length t)%nat) ts).
  { eapply List.Forall_impl; [|exact Hts]. now intros t [_ Ht]. }
  assert (HGlen : (3 <= List.length G)%nat) by now apply groups_length.
  assert (Hl_dot : Forall (fun a => Py.not_char "." a = true) (c :: m)).
  { constructor; [now apply alnum_hyphen_not_dot, alnum_is_alnum_hyphen|].
    eapply List.Forall_impl; [|exact Hm]. intros a. apply alnum_hyphen_not_dot. }
  assert (Hts_dot : Forall (fun t => Forall (fun a => Py.not_char "." a = true) t
                                     /\ t <> []) ts).
  { eapply List.Forall_impl; [|exact Hts]. intros t [Ht Hl]. split.
    - eapply List.Forall_impl; [|exact Ht]. intros a. apply alpha_not_dot.
    - destruct t; [cbn in Hl; lia | discriminate]. }
  assert (He_dot : Forall (fun a => Py.not_char "." a = true) e).
  { destruct He as [-> | (nl & -> & Hnl)]; [constructor|].
    constructor; [now apply newline_not_dot | constructor]. }
  assert (He_hyp : Forall (fun a => Py.not_char "-" a = true) e).
  { destruct He as [-> | (nl & -> & Hnl)]; [constructor|].
    constructor; [now apply newline_not_hyphen | constructor]. }
  assert (HG_hyp : Forall (fun a => Py.not_char "-" a = true) G).
  { apply Forall_groups; [reflexivity|].
    eapply List.Forall_impl; [|exact Hts_alpha]. intros t Ht.
    eapply List.Forall_impl; [|exact Ht]. intros a. apply alpha_not_hyphen. }
  assert (HG_allowed : Forall (fun a => allowed_char a = true) G).
  { apply Forall_groups; [reflexivity|].
    eapply List.Forall_impl; [|exact Hts_alpha]. intros t Ht.
    eapply List.Forall_impl; [|exact Ht]. intros a. apply alpha_allowed. }
  assert (Hl_allowed : Forall (fun a => allowed_char a = true) (c :: m)).
  { constructor; [now apply alnum_hyphen_allowed, alnum_is_alnum_hyphen|].
    eapply List.Forall_impl; [|exact Hm]. intros a. apply alnum_hyphen_allowed. }
  destruct (split_groups e ts (c :: m) Hl_dot Hts_dot He_dot ltac:(discriminate))
    as [Hnonempty Hcount].
  fold G in Hnonempty, Hcount.
  repeat (apply andb_true_iff; split).
  - apply negb_true_iff, Z.ltb_ge. rewrite !length_app. cbn [List.length]. lia.
  - reflexivity.
  - apply accepts_spec; [reflexivity|]. unfold allowed_chars_pattern, Plus.
    rewrite app_assoc. constructor; [|now apply eol_intro].
    apply rep_class_intro; [now apply Forall_app|].
    rewrite length_app. cbn [List.length]. lia.
  - apply negb_true_iff, orb_false_iff. split.
    + cbn [app Py.startswith_char]. apply negb_true_iff. now apply alnum_not_hyphen.
    + rewrite endswith_app.
      * apply endswith_absent. now apply Forall_app.
      * destruct G; [cbn in HGlen; lia | discriminate].
  - apply negb_true_iff. now apply no_empty_part_no_double.
  - apply negb_true_iff, Nat.ltb_ge. rewrite Hcount. lia.
  - apply forallb_forall. intros part Hin.
    rewrite List.Forall_forall in Hnonempty, Hparts.
    specialize (Hnonempty part Hin). specialize (Hparts part Hin).
    unfold part_ok. apply andb_true_iff. split; apply negb_true_iff, Nat.ltb_ge.
    + destruct part; [contradiction | cbn; lia].
    + exact Hparts.
Qed.

End ValidatorComparison.

(** C7, the claim as stated fails in both directions: "test-.com" is
    rejected by the manager and valid for the service, and a name whose second
    label has 64 letters is accepted by the manager and invalid for the
    service. Neither validator is the stated grammar: "test-.com" has a label
    ending in a hyphen, and "sub.domain1.com", which the grammar allows, is
    rejected by the manager. *)
Lemma validators_disagree :
  DomainManager._validate_domain_name "test-.com" = false
  /\ DomainValidationService.valid
       (DomainValidationService.validate_domain_syntax "test-.com") = true
  /\ DomainManager._validate_domain_name ValidatorSpec.long_tld = true
  /\ DomainValidationService.valid
       (DomainValidationService.validate_domain_syntax ValidatorSpec.long_tld) = false
  /\ DomainManager._validate_domain_name "sub.domain1.com" = false
  /\ DomainValidationService.valid
       (DomainValidationService.validate_domain_syntax "sub.domain1.com") = true.
Proof. vm_compute. repeat split; reflexivity. Qed.

(** "my-domain.org" is accepted by the manager, so it is valid for the service. *)
Lemma manager_accepted_names_are_service_valid_witness :
  DomainValidationService.valid
    (DomainValidationService.validate_domain_syntax "my-domain.org") = true.
Proof.
  apply (manager_accepted_names_are_service_valid "my-domain.org").
  - vm_compute. reflexivity.
  - vm_compute. repeat constructor.
Defined.

(** ** Runs of the scenarios of the test suite *)

(** Transfer eligibility: locked; unlocked and 30 days out; unlocked and 90
    days out; and 90 days out with a date that carries a UTC offset, where the
    subtraction from the naive [datetime.now()] throws. *)
Lemma transfer_eligibility_runs :
  let eligible script :=
    fst (DomainManager.check_transfer_eligibility RegistrarStub.api
           (RegistrarStub.fromisoformat_table RegistrarStub.iso_table)
           "example.com" (RegistrarStub.world0 script)) in
  eligible (RegistrarStub.domain_expiring true "2026-04-01T00:00:00") = Ok false
  /\ eligible (RegistrarStub.domain_expiring false "2026-01-31T00:00:00") = Ok false
  /\ eligible (RegistrarStub.domain_expiring false "2026-04-01T00:00:00") = Ok true
  /\ eligible (RegistrarStub.domain_expiring false "2026-04-01T00:00:00Z") = Ok false.
Proof. vm_compute. repeat split; reflexivity. Qed.

(** Bulk availability over three names, the second of which throws. *)
Lemma bulk_availability_run :
  let results :=
    fst (DomainManager.check_bulk_domains_availability RegistrarStub.api
           ["good.com"; "error.com"; "another.com"]
           (RegistrarStub.world0 RegistrarStub.one_lookup_throws)) in
  results = Ok (<["another.com" := true]>
                 (<["error.com" := false]> (<["good.com" := true]> ∅))).
Proof. vm_compute. reflexivity. Qed.

(** * Further properties of the code *)

(** ** Name suggestions *)

Section SuggestionFacts.
Import DomainOperations OperationsSpec.
Local Open Scope list_scope.

Lemma existsb_eqb_In (x : string) (keys : list string) :
  existsb (String.eqb x) keys = true <-> In x keys.
Proof.
  rewrite existsb_exists. split.
  - intros (y & Hin & Heq). apply String.eqb_eq in Heq. now subst.
  - intros Hin. exists x. split; [assumption | apply String.eqb_refl].
Qed.

Local Abbreviation add_key :=
  (fun (keys : list string) (x : string) =>
     if existsb (String.eqb x) keys then keys else keys ++ [x]).

Lemma fromkeys_from_NoDup items : forall keys,
  NoDup keys -> NoDup (fold_left add_key items keys).
Proof.
  induction items as [|x items IH]; intros keys Hk; cbn [fold_left]; [assumption|].
  apply IH. destruct (existsb (String.eqb x) keys) eqn:E; [assumption|].
  apply NoDup_app. repeat split; [assumption| |apply NoDup_singleton].
  intros y Hy Hin. apply list_elem_of_In in Hy.
  apply list_elem_of_singleton in Hin. subst y.
  apply existsb_eqb_In in Hy. congruence.
Qed.

Lemma fromkeys_from_In items : forall keys s,
  In s (fold_left add_key items keys) -> In s keys \/ In s items.
Proof.
  induction items as [|x items IH]; intros keys s Hin; cbn [fold_left] in Hin; [now left|].
  apply IH in Hin. destruct Hin as [Hin|Hin]; [|right; now right].
  destruct (existsb (String.eqb x) keys); [now left|].
  apply in_app_or in Hin. destruct Hin as [Hin|[->|[]]]; [now left | right; now left].
Qed.

Lemma fromkeys_from_fresh items : forall keys,
  NoDup (keys ++ items) -> fold_left add_key items keys = keys ++ items.
Proof.
  induction items as [|x items IH]; intros keys Hnd; cbn [fold_left].
  - now rewrite app_nil_r.
  - replace (keys ++ x :: items) with ((keys ++ [x]) ++ items) in *
      by now rewrite <- app_assoc.
    destruct (existsb (String.eqb x) keys) eqn:E.
    + exfalso. apply existsb_eqb_In in E.
      apply NoDup_app in Hnd. destruct Hnd as (Hnd & _ & _).
      apply NoDup_app in Hnd. destruct Hnd as (_ & Hdis & _).
      apply (Hdis x); [now apply list_elem_of_In | apply list_elem_of_singleton; reflexivity].
    + now apply IH.
Qed.

Lemma fromkeys_from_prefix items : forall keys,
  exists rest, fold_left add_key items keys = keys ++ rest.
Proof.
  induction items as [|x items IH]; intros keys; cbn [fold_left].
  - exists []. now rewrite app_nil_r.
  - destruct (existsb (String.eqb x) keys).
    + apply IH.
    + destruct (IH (keys ++ [x])) as [rest Hrest]. exists (x :: rest).
      rewrite Hrest. now rewrite <- app_assoc.
Qed.

Lemma fromkeys_NoDup items : NoDup (fromkeys items).
Proof. apply fromkeys_from_NoDup. constructor. Qed.

Lemma fromkeys_In items s : In s (fromkeys items) -> In s items.
Proof. intros H. apply fromkeys_from_In in H. destruct H as [[]|H]; assumption. Qed.

Lemma slice_to_sublist {T} count (items : list T) : sublist (slice_to count items) items.
Proof. unfold slice_to. destruct (0 <=? count); apply sublist_take. Qed.

Lemma append_inj_r (k a b : string) : (k ++ a = k ++ b)%string -> a = b.
Proof. induction k as [|c k IH]; cbn; [tauto|]. intros H. apply IH. now inversion H. Qed.

Lemma base_suggestions_NoDup keyword tlds :
  NoDup tlds -> NoDup (base_suggestions keyword tlds).
Proof.
  intros H. unfold base_suggestions. apply NoDup_fmap_2; [|assumption].
  intros a b. apply append_inj_r.
Qed.

(** X1. The list of suggestions never contains a name twice. *)
Theorem suggest_domain_names_no_duplicates keyword tlds count :
  NoDup (suggest_domain_names keyword tlds count).
Proof.
  unfold suggest_domain_names.
  eapply sublist_NoDup; [apply fromkeys_NoDup | apply slice_to_sublist].
Qed.

(** X2. Every suggestion is the keyword under one of the requested TLDs,
    alone, behind one of the five prefixes or before one of the five
    suffixes. *)
Theorem suggest_domain_names_forms keyword tlds count s :
  In s (suggest_domain_names keyword (Some tlds) count) ->
  exists tld, In tld tlds /\ suggestion_of keyword tld s.
Proof.
  unfold suggest_domain_names. cbn [default]. intros Hin.
  apply list_elem_of_In in Hin.
  eapply elem_of_sublist in Hin; [|apply slice_to_sublist].
  apply list_elem_of_In in Hin.
  apply fromkeys_In, in_app_or in Hin. destruct Hin as [Hin|Hin].
  - unfold base_suggestions in Hin. apply in_map_iff in Hin.
    destruct Hin as (tld & <- & Htld). exists tld. split; [assumption | now left].
  - unfold combined_suggestions in Hin. apply in_flat_map in Hin.
    destruct Hin as (tld & Htld & Hin). exists tld. split; [assumption|].
    apply in_app_or in Hin. destruct Hin as [Hin|Hin]; apply in_map_iff in Hin;
      destruct Hin as (x & <- & Hx).
    + right; left. eauto.
    + right; right. eauto.
Qed.

(** X3. When no more names are asked for than there are (distinct) TLDs, the
    answer is the keyword under the first [count] TLDs, in the order given. *)
Theorem suggest_domain_names_plain_names_first keyword tlds count :
  NoDup tlds -> 0 <= count <= Z.of_nat (List.length tlds) ->
  suggest_domain_names keyword (Some tlds) count
  = map (fun tld => (keyword ++ tld)%string) (firstn (Z.to_nat count) tlds).
Proof.
  intros Hnd Hcount. unfold suggest_domain_names. cbn [default from_option]. unfold id.
  unfold fromkeys. rewrite fold_left_app.
  rewrite (fromkeys_from_fresh (base_suggestions keyword tlds) [])
    by (cbn [app]; now apply base_suggestions_NoDup).
  cbn [app].
  destruct (fromkeys_from_prefix (combined_suggestions keyword tlds)
              (base_suggestions keyword tlds)) as [rest ->].
  unfold slice_to. replace (0 <=? count) with true by (symmetry; apply Z.leb_le; lia).
  rewrite firstn_app.
  replace (Z.to_nat count - List.length (base_suggestions keyword tlds))%nat with 0%nat.
  2:{ unfold base_suggestions. rewrite length_map. lia. }
  cbn [firstn]. rewrite app_nil_r. unfold base_suggestions. apply firstn_map.
Qed.

End SuggestionFacts.

Lemma suggest_domain_names_forms_witness :
  exists tld, In tld [".com"; ".net"] /\ OperationsSpec.suggestion_of "shop" tld "myshop.com".
Proof.
  apply (suggest_domain_names_forms "shop" [".com"; ".net"] 3 "myshop.com").
  vm_compute. right. right. left. reflexivity.
Defined.

Lemma suggest_domain_names_plain_names_first_witness :
  DomainOperations.suggest_domain_names "shop" (Some [".com"; ".net"; ".org"]) 2
  = ["shop.com"; "shop.net"].
Proof.
  apply (suggest_domain_names_plain_names_first "shop" [".com"; ".net"; ".org"] 2).
  - apply (bool_decide_eq_true_1 (NoDup [".com"; ".net"; ".org"])). vm_compute. reflexivity.
  - cbn. lia.
Defined.

(** ** Renewal, transfer, locking and authorization codes *)

Section OperationFacts.
Import DomainOperations OperationsSpec.
Context {R : Type} (api_client : OpsApi R).

Lemma invoke_calls {T} c (h : R -> outcome T * R) (w : World R) :
  calls (snd (invoke c h w)) = (calls w ++ [c])%list.
Proof. unfold invoke. now destruct (h (remote w)). Qed.

(** A [try] whose body returns [True] when it returns and whose handler
    raises a DomainError. *)
Lemma guarded_true_or_domain_error (body : M (World R) bool) prefix (w : World R) :
  (forall b w', body w = (Ok b, w') -> b = true) ->
  true_or_domain_error
    (try_except body (fun e => raise DomainError (prefix ++ str_exn e)) w) = true.
Proof.
  intros Hbody. unfold true_or_domain_error, try_except.
  destruct (body w) as [[b|e] w'] eqn:E; [|reflexivity].
  cbn. eauto.
Qed.

Lemma invoke_then_true {T} c (h : R -> outcome T * R) (w w' : World R) b :
  (invoke c h ;; ret true) w = (Ok b, w') -> b = true.
Proof.
  unfold bind, invoke, ret. destruct (h (remote w)) as [[a|e] r']; intros H; now inversion H.
Qed.

(** X4. [renew_domain], [transfer_domain], [lock_domain] and [unlock_domain]
    never return [False]: each returns [True] or raises a DomainError. *)
Theorem domain_operations_true_or_domain_error
    (domain_name auth : string) (years : Z) (contact_info : option ContactInfo)
    (w : World R) :
  true_or_domain_error (renew_domain api_client domain_name years w) = true
  /\ true_or_domain_error (transfer_domain api_client domain_name auth contact_info w) = true
  /\ true_or_domain_error (lock_domain api_client domain_name w) = true
  /\ true_or_domain_error (unlock_domain api_client domain_name w) = true.
Proof.
  repeat split; apply guarded_true_or_domain_error; intros b w'.
  - destruct (years <=? 0); [discriminate | apply invoke_then_true].
  - destruct contact_info; [apply invoke_then_true | discriminate].
  - apply invoke_then_true.
  - apply invoke_then_true.
Qed.

(** A renewal for zero or fewer years fails before the registrar is asked. *)
Lemma renew_domain_invalid_years domain_name years (w : World R) :
  years <= 0 ->
  renew_domain api_client domain_name years w
  = (Raise (mkExn DomainError "Domain renewal failed: Years must be a positive integer"), w).
Proof.
  intros Hy. unfold renew_domain, try_except.
  replace (years <=? 0) with true by (symmetry; apply Z.leb_le; lia). reflexivity.
Qed.

(** X5. [get_authorization_code] never returns an empty code: an answer
    without a code, or with an empty one, ends in a DomainError, as does
    every failure of the registrar; the registrar is asked exactly once. *)
Theorem get_authorization_code_non_empty domain_name (w : World R) :
  match get_authorization_code api_client domain_name w with
  | (Ok code, w') => code <> ""
  | (Raise e, w') => exn_kind e = DomainError
  end
  /\ calls (snd (get_authorization_code api_client domain_name w))
     = (calls w ++ [Call_get_auth_code domain_name])%list.
Proof.
  unfold get_authorization_code, try_except, bind.
  pose proof (invoke_calls (Call_get_auth_code domain_name)
                (get_auth_code api_client domain_name) w) as Hcalls.
  destruct (invoke _ _ w) as [[response|e] w1]; cbn [snd] in Hcalls.
  - destruct (auth_code response) as [[|c code]|]; cbn [default Py.truthy negb];
      unfold raise, ret; cbn [fst snd]; split; try assumption; try reflexivity.
    discriminate.
  - unfold raise. cbn. split; [reflexivity | assumption].
Qed.

End OperationFacts.

(** ** Pricing *)

Section PricingFacts.
Import DomainOperations OperationsSpec.
Context {Price : Type} (get_tld_price : string -> string -> outcome Price).

Local Abbreviation record_price :=
  (fun (pricing : gmap string (option (PriceInfo Price))) (tld : string) =>
     match price_entry get_tld_price tld with
     | Ok info => <[tld := Some info]> pricing
     | Raise _ => <[tld := None]> pricing
     end).

Lemma record_price_insert pricing tld :
  record_price pricing tld = <[tld := priced get_tld_price tld]> pricing.
Proof. unfold priced. now destruct (price_entry get_tld_price tld). Qed.

Lemma pricing_from tld_list : forall pricing tld,
  fold_left record_price tld_list pricing !! tld
  = if bool_decide (tld ∈ tld_list) then Some (priced get_tld_price tld)
    else pricing !! tld.
Proof.
  induction tld_list as [|t rest IH]; intros pricing tld; cbn [fold_left].
  - reflexivity.
  - rewrite IH, record_price_insert.
    destruct (bool_decide (tld ∈ rest)) eqn:Erest.
    + apply bool_decide_eq_true_1 in Erest.
      rewrite bool_decide_eq_true_2 by (now right). reflexivity.
    + apply bool_decide_eq_false_1 in Erest.
      destruct (decide (tld = t)) as [->|Hne].
      * rewrite lookup_insert_eq. rewrite bool_decide_eq_true_2 by left. reflexivity.
      * rewrite lookup_insert_ne by congruence.
        rewrite bool_decide_eq_false_2; [reflexivity|].
        intros Hin. apply elem_of_cons in Hin. tauto.
Qed.

(** X6. [get_tld_pricing] answers for exactly the TLDs it was asked about:
    each of them maps to its three prices, or to [None] when a price lookup
    raised; no lookup failure escapes, and one failing TLD does not affect
    the entries of the others. *)
Theorem get_tld_pricing_lookup tld_list tld :
  get_tld_pricing get_tld_price tld_list !! tld
  = if bool_decide (tld ∈ tld_list) then Some (priced get_tld_price tld) else None.
Proof. unfold get_tld_pricing. now rewrite pricing_from, lookup_empty. Qed.

End PricingFacts.


(** ** Contact updates and bulk operations *)

Section ServiceFacts.
Import DomainOperations DomainServices OperationsSpec.
Context {R : Type} (api_client : OpsApi R).
Local Open Scope list_scope.

Lemma validate_contact_data_kind contact_data e :
  _validate_contact_data contact_data = Raise e -> exn_kind e = ValidationError.
Proof.
  unfold _validate_contact_data.
  destruct (negb (Py.truthy (email contact_data))); [intros H; now inversion H|].
  destruct (negb (Py.truthy (first_name contact_data))
            || negb (Py.truthy (last_name contact_data)));
    [intros H; now inversion H | discriminate].
Qed.

(** Contact data that fails the local check is refused with that very
    ValidationError, and the registrar is not contacted. *)
Lemma update_contact_info_invalid domain_name contact_type contact_data (w : World R) e :
  _validate_contact_data contact_data = Raise e ->
  update_contact_info api_client domain_name contact_type contact_data w = (Raise e, w).
Proof.
  intros H. pose proof (validate_contact_data_kind _ _ H) as Hk.
  unfold update_contact_info, try_except, bind, lift_outcome. rewrite H, Hk. reflexivity.
Qed.

(** X7. [update_contact_info]: contact data that fails the local check is
    refused with that ValidationError, unwrapped, and the world is left as it
    was; otherwise the registrar is asked once.  Whatever happens, the caller
    sees [True], a ValidationError or a DomainError. *)
Theorem update_contact_info_outcomes domain_name contact_type contact_data (w : World R) :
  match _validate_contact_data contact_data with
  | Raise e =>
      update_contact_info api_client domain_name contact_type contact_data w = (Raise e, w)
  | Ok _ =>
      calls (snd (update_contact_info api_client domain_name contact_type contact_data w))
      = calls w ++ [Call_update_contacts domain_name (ContactType_value contact_type)]
  end
  /\ match fst (update_contact_info api_client domain_name contact_type contact_data w) with
     | Ok b => b = true
     | Raise e => exn_kind e = ValidationError \/ exn_kind e = DomainError
     end.
Proof.
  split.
  - destruct (_validate_contact_data contact_data) as [[]|e] eqn:E.
    + unfold update_contact_info, try_except, bind at 1, lift_outcome. rewrite E.
      cbv beta iota. unfold bind.
      pose proof (invoke_calls
                    (Call_update_contacts domain_name (ContactType_value contact_type))
                    (update_contacts api_client domain_name (ContactType_value contact_type)
                                     contact_data) w) as Hcalls.
      destruct (invoke _ _ w) as [[[]|e] w1]; cbn [snd] in Hcalls.
      * exact Hcalls.
      * destruct (exn_kind e); exact Hcalls.
    + now apply update_contact_info_invalid.
  - unfold update_contact_info, try_except.
    match goal with |- context [match ?body w with _ => _ end] =>
      destruct (body w) as [[b|e] w1] eqn:E end.
    + cbn [fst]. revert E. unfold bind at 1, lift_outcome.
      destruct (_validate_contact_data contact_data) as [[]|e]; [|discriminate].
      unfold bind, ret.
      destruct (invoke _ _ w) as [[[]|e] w2]; intros H; now inversion H.
    + destruct (exn_kind e) eqn:Ek; cbn [fst]; unfold reraise, raise; cbn; auto.
Qed.

(** *** The loops *)

Lemma bulk_turn_returns (operation : string -> M (World R) bool) results domain
    (w : World R) :
  exists results',
    bulk_turn operation results domain w = (Ok results', snd (operation domain w))
    /\ total_processed results' = total_processed results + 1
    /\ successful results' ++ failed results'
       ≡ₚ successful results ++ failed results ++ [domain].
Proof.
  unfold bulk_turn, try_except, bind, ret.
  destruct (operation domain w) as [[[|]|e] w1]; cbn [snd];
    eexists; (split; [reflexivity|]); cbn [total_processed successful failed];
    (split; [reflexivity|]).
  - rewrite <- (List.app_assoc (successful results) [domain] (failed results)).
    apply Permutation_app_head, Permutation_app_comm.
  - reflexivity.
  - reflexivity.
Qed.

Lemma bulk_run_returns (operation : string -> M (World R) bool) domain_list :
  forall results (w : World R),
  exists results' w',
    bulk_run operation domain_list results w = (Ok results', w')
    /\ total_processed results'
       = total_processed results + Z.of_nat (List.length domain_list)
    /\ successful results' ++ failed results'
       ≡ₚ successful results ++ failed results ++ domain_list.
Proof.
  induction domain_list as [|domain rest IH]; intros results w; cbn [bulk_run].
  - exists results, w. repeat split; cbn [List.length]; [lia|].
    now rewrite app_nil_r.
  - destruct (bulk_turn_returns operation results domain w) as (r1 & H1 & Ht1 & Hp1).
    destruct (IH r1 (snd (operation domain w))) as (r2 & w2 & H2 & Ht2 & Hp2).
    exists r2, w2. rewrite (bind_ok _ _ _ _ _ H1). split; [exact H2|]. split.
    + rewrite Ht2, Ht1. cbn [List.length]. lia.
    + rewrite Hp2. rewrite (app_assoc (successful r1)), Hp1.
      rewrite <- !app_assoc. reflexivity.
Qed.

Lemma bulk_run_complete (operation : string -> M (World R) bool) domain_list (w : World R) :
  exists results w',
    bulk_run operation domain_list (mkBulk [] [] 0) w = (Ok results, w')
    /\ complete_report domain_list results.
Proof.
  destruct (bulk_run_returns operation domain_list (mkBulk [] [] 0) w)
    as (results & w' & Hrun & Ht & Hp).
  exists results, w'. split; [exact Hrun|]. split; [exact Ht | exact Hp].
Qed.

(** X8. The three bulk operations never raise and never stop early: each
    returns a report in which every requested name is counted once, either
    among the successful or among the failed ones. *)
Theorem bulk_operations_report_every_domain
    (domain_list : list string) (years : Z) (contact_type : ContactType)
    (contact_data : ContactInfo) (lock : bool) (w : World R) :
  (exists results w',
     bulk_domain_renewal api_client domain_list years w = (Ok results, w')
     /\ complete_report domain_list results)
  /\ (exists results w',
        bulk_contact_update api_client domain_list contact_type contact_data w
        = (Ok results, w')
        /\ complete_report domain_list results)
  /\ (exists results w',
        bulk_domain_lock api_client domain_list lock w = (Ok results, w')
        /\ complete_report domain_list results).
Proof. repeat split; apply bulk_run_complete. Qed.

(** An operation that fails without touching the world fails every name. *)
Lemma bulk_run_all_fail (operation : string -> M (World R) bool) domain_list :
  (forall domain (w : World R), exists e, operation domain w = (Raise e, w)) ->
  forall results (w : World R),
    bulk_run operation domain_list results w
    = (Ok (mkBulk (successful results) (failed results ++ domain_list)
                  (total_processed results + Z.of_nat (List.length domain_list))), w).
Proof.
  intros Hop. induction domain_list as [|domain rest IH]; intros results w; cbn [bulk_run].
  - unfold ret. rewrite app_nil_r. cbn [List.length]. rewrite Z.add_0_r.
    now destruct results.
  - destruct (Hop domain w) as [e He].
    erewrite bind_ok.
    2:{ unfold bulk_turn. erewrite try_raise; [reflexivity|].
        now rewrite (bind_raise _ _ _ _ _ He). }
    rewrite IH. cbn [successful failed total_processed List.length].
    rewrite <- List.app_assoc. cbn [app].
    replace (total_processed results + 1 + Z.of_nat (List.length rest))
      with (total_processed results + Z.of_nat (S (List.length rest))) by lia.
    reflexivity.
Qed.

(** X9. A bulk renewal for zero or fewer years, or a bulk contact update with
    contact data that fails the local check, marks every name as failed and
    contacts the registrar for none of them. *)
Theorem bulk_operations_with_invalid_arguments
    (domain_list : list string) (years : Z) (contact_type : ContactType)
    (contact_data : ContactInfo) (w : World R) :
  (years <= 0 ->
   bulk_domain_renewal api_client domain_list years w
   = (Ok (mkBulk [] domain_list (Z.of_nat (List.length domain_list))), w))
  /\ (is_ok (_validate_contact_data contact_data) = false ->
      bulk_contact_update api_client domain_list contact_type contact_data w
      = (Ok (mkBulk [] domain_list (Z.of_nat (List.length domain_list))), w)).
Proof.
  split.
  - intros Hy. unfold bulk_domain_renewal. rewrite bulk_run_all_fail; [reflexivity|].
    intros domain w0. eexists. now apply renew_domain_invalid_years.
  - intros Hbad. unfold bulk_contact_update. rewrite bulk_run_all_fail; [reflexivity|].
    intros domain w0. destruct (_validate_contact_data contact_data) as [[]|e] eqn:E;
      [discriminate|].
    exists e. now apply update_contact_info_invalid.
Qed.

(** Calls made by a loop whose operation contacts the registrar once. *)
Lemma bulk_run_calls (operation : string -> M (World R) bool) (c : string -> ApiCall)
    domain_list :
  (forall domain (w : World R), calls (snd (operation domain w)) = calls w ++ [c domain]) ->
  forall results (w : World R),
    calls (snd (bulk_run operation domain_list results w)) = calls w ++ map c domain_list.
Proof.
  intros Hop. induction domain_list as [|domain rest IH]; intros results w; cbn [bulk_run].
  - cbn. now rewrite app_nil_r.
  - destruct (bulk_turn_returns operation results domain w) as (r1 & H1 & _).
    rewrite (bind_ok _ _ _ _ _ H1), IH, Hop. cbn [map]. now rewrite <- app_assoc.
Qed.

Lemma guarded_invoke_calls {T} c (h : R -> outcome T * R) prefix (w : World R) :
  calls (snd (try_except (invoke c h ;; ret true)
                         (fun e => raise DomainError (prefix ++ str_exn e)) w))
  = calls w ++ [c].
Proof.
  pose proof (invoke_calls c h w) as Hcalls.
  unfold try_except, bind, ret, raise.
  destruct (invoke c h w) as [[a|e] w1]; exact Hcalls.
Qed.

(** X10. [bulk_domain_lock] asks the registrar about every name exactly once
    and in the order given, whether earlier names failed or not. *)
Theorem bulk_domain_lock_calls (domain_list : list string) (lock : bool) (w : World R) :
  calls (snd (bulk_domain_lock api_client domain_list lock w))
  = calls w ++ map (if lock then Call_lock_domain else Call_unlock_domain) domain_list.
Proof.
  unfold bulk_domain_lock. apply bulk_run_calls. intros domain w0.
  destruct lock; apply guarded_invoke_calls.
Qed.

End ServiceFacts.

Lemma bulk_operations_with_invalid_arguments_witness :
  DomainServices.bulk_domain_renewal OperationsSpec.stub_api ["a.com"; "b.net"] 0
    OperationsSpec.world0
  = (Ok (DomainServices.mkBulk [] ["a.com"; "b.net"] 2), OperationsSpec.world0)
  /\ DomainServices.bulk_contact_update OperationsSpec.stub_api ["a.com"; "b.net"]
       DomainServices.ADMIN OperationsSpec.contact_without_email OperationsSpec.world0
     = (Ok (DomainServices.mkBulk [] ["a.com"; "b.net"] 2), OperationsSpec.world0).
Proof.
  pose proof (bulk_operations_with_invalid_arguments OperationsSpec.stub_api
                ["a.com"; "b.net"] 0 DomainServices.ADMIN
                OperationsSpec.contact_without_email OperationsSpec.world0) as [H1 H2].
  split; [apply H1; lia | apply H2; reflexivity].
Defined.

(** ** The hosting datastore across operations *)

Section HostingStoreFacts.
Import HostingManager HostingSpec HostingInvariants.
Context {R : Type} (api_client : option (HostingApi R)).
Local Open Scope list_scope.

Lemma snd_wrap_hosting {T} prefix (body : M (World R) T) (w : World R) :
  snd (wrap_hosting prefix body w) = snd (body w).
Proof. unfold wrap_hosting, try_except, raise. now destruct (body w) as [[a|e] w1]. Qed.

Lemma failed_wrap_hosting {T} prefix (body : M (World R) T) (w : World R) :
  failed (wrap_hosting prefix body w) = failed (body w).
Proof. unfold failed, wrap_hosting, try_except, raise. now destruct (body w) as [[a|e] w1]. Qed.

Lemma db_eta (d : Db) : mkDb (hosting_accounts d) (hosting_packages d) (customers d) = d.
Proof. now destruct d. Qed.

(** Running a body to its leaves. *)
Ltac run_body :=
  try (destruct api_client as [?api|]);
  cbv [create_body suspend_body unsuspend_body change_plan_body usage_body renew_body
       delete_body bind ret raise lift_outcome accounts_get packages_get customers_get
       accounts_get_by_domain accounts_update accounts_delete accounts_create uuid4
       invoke now set_db failed is_ok negb];
  cbn [db fst snd];
  repeat (match goal with
          | |- context [match ?x with _ => _ end] =>
              lazymatch x with
              | context [match _ with _ => _ end] => fail
              | _ => destruct x eqn:?
              end
          end; cbn [db fst snd]).

Lemma set_status_reason_keeps st reason a :
  acc_id (set_status_reason st reason a) = acc_id a
  /\ acc_domain (set_status_reason st reason a) = acc_domain a.
Proof. split; reflexivity. Qed.

Lemma set_package_id_keeps pid a :
  acc_id (set_package_id pid a) = acc_id a /\ acc_domain (set_package_id pid a) = acc_domain a.
Proof. split; reflexivity. Qed.

Lemma set_usage_keeps disk bw a :
  acc_id (set_usage disk bw a) = acc_id a /\ acc_domain (set_usage disk bw a) = acc_domain a.
Proof. split; reflexivity. Qed.

Lemma set_expiry_active_keeps t a :
  acc_id (set_expiry_active t a) = acc_id a
  /\ acc_domain (set_expiry_active t a) = acc_domain a.
Proof. split; reflexivity. Qed.

Create HintDb hosting.
Local Hint Resolve set_status_reason_keeps set_package_id_keeps set_usage_keeps
  set_expiry_active_keeps : hosting.
Local Hint Constructors db_step : hosting.

Lemma create_body_step domain package_id customer_id username password (w : World R) :
  db_step (db w)
          (db (snd (create_body api_client domain package_id customer_id username password w))).
Proof.
  run_body; try apply step_none.
  all: match goal with
       | |- db_step _ (mkDb (_ ++ [?a]) _ _) => apply (step_insert (db w) a); assumption
       end.
Qed.

Lemma suspend_body_step account_id reason (w : World R) :
  db_step (db w) (db (snd (suspend_body api_client account_id reason w))).
Proof. run_body; auto with hosting. Qed.

Lemma unsuspend_body_step account_id (w : World R) :
  db_step (db w) (db (snd (unsuspend_body api_client account_id w))).
Proof. run_body; auto with hosting. Qed.

Lemma change_plan_body_step account_id new_package_id (w : World R) :
  db_step (db w) (db (snd (change_plan_body api_client account_id new_package_id w))).
Proof. run_body; auto with hosting. Qed.

Lemma usage_body_step account_id (w : World R) :
  db_step (db w) (db (snd (usage_body api_client account_id w))).
Proof. run_body; auto with hosting. Qed.

Lemma renew_body_step account_id years (w : World R) :
  db_step (db w) (db (snd (renew_body account_id years w))).
Proof. run_body; auto with hosting. Qed.

Lemma delete_body_step account_id (w : World R) :
  db_step (db w) (db (snd (delete_body api_client account_id w))).
Proof. run_body; auto with hosting. Qed.

Lemma update_first_domains id f rows :
  (forall a, acc_id (f a) = acc_id a /\ acc_domain (f a) = acc_domain a) ->
  map acc_domain (update_first id f rows) = map acc_domain rows.
Proof.
  intros Hf. induction rows as [|a rows IH]; cbn [update_first map]; [reflexivity|].
  destruct (acc_id a =? id); cbn [map]; [now rewrite (proj2 (Hf a)) | now rewrite IH].
Qed.

Lemma delete_first_sublist id rows : sublist (delete_first id rows) rows.
Proof.
  induction rows as [|a rows IH]; cbn [delete_first]; [constructor|].
  destruct (acc_id a =? id); [now apply sublist_cons | now apply sublist_skip].
Qed.

Lemma find_domain_none domain rows :
  List.find (fun x => String.eqb (acc_domain x) domain) rows = None ->
  ~ In domain (map acc_domain rows).
Proof.
  intros Hnone Hin. apply in_map_iff in Hin. destruct Hin as (a & Hdom & Hin).
  pose proof (List.find_none _ _ Hnone a Hin) as Hno. cbv beta in Hno.
  rewrite Hdom, String.eqb_refl in Hno. discriminate.
Qed.

Lemma db_step_domains_unique d d' :
  db_step d d' -> domains_unique d -> domains_unique d'.
Proof.
  unfold domains_unique, domains. intros [ | id f Hf | a Hnone | id ] Hu;
    cbn [hosting_accounts].
  - assumption.
  - now rewrite update_first_domains.
  - rewrite map_app. cbn [map]. apply NoDup_app. repeat split.
    + assumption.
    + intros x Hx Hin. apply list_elem_of_singleton in Hin. subst x.
      apply list_elem_of_In in Hx. now apply find_domain_none in Hnone.
    + apply NoDup_singleton.
  - eapply sublist_NoDup; [exact Hu|]. apply (fmap_sublist acc_domain), delete_first_sublist.
Qed.

(** X11. One hosting account per domain is an invariant of the manager:
    whatever an operation is given and however it ends, it leaves a datastore
    without two accounts for the same domain as such. *)
Theorem hosting_operations_keep_domains_unique
    (domain username password reason : string)
    (package_id customer_id account_id new_package_id : UUID) (years : Z)
    (w : World R) :
  domains_unique (db w) ->
  domains_unique
    (db (snd (create_hosting_account api_client domain package_id customer_id
                                     username password w)))
  /\ domains_unique (db (snd (suspend_account api_client account_id reason w)))
  /\ domains_unique (db (snd (unsuspend_account api_client account_id w)))
  /\ domains_unique (db (snd (change_hosting_plan api_client account_id new_package_id w)))
  /\ domains_unique (db (snd (get_account_usage api_client account_id w)))
  /\ domains_unique (db (snd (renew_hosting_account account_id years w)))
  /\ domains_unique (db (snd (delete_hosting_account api_client account_id w))).
Proof.
  intros Hu.
  unfold create_hosting_account, suspend_account, unsuspend_account, change_hosting_plan,
    get_account_usage, renew_hosting_account, delete_hosting_account.
  rewrite !snd_wrap_hosting.
  repeat split; (eapply db_step_domains_unique; [|exact Hu]).
  - apply create_body_step.
  - apply suspend_body_step.
  - apply unsuspend_body_step.
  - apply change_plan_body_step.
  - apply usage_body_step.
  - apply renew_body_step.
  - apply delete_body_step.
Qed.

(** *** Failures *)

Lemma create_body_failed domain package_id customer_id username password (w : World R) :
  failed (create_body api_client domain package_id customer_id username password w) = true ->
  db (snd (create_body api_client domain package_id customer_id username password w)) = db w.
Proof. run_body; intros; try reflexivity; discriminate. Qed.

Lemma suspend_body_failed account_id reason (w : World R) :
  failed (suspend_body api_client account_id reason w) = true ->
  db (snd (suspend_body api_client account_id reason w)) = db w.
Proof. run_body; intros; try reflexivity; discriminate. Qed.

Lemma unsuspend_body_failed account_id (w : World R) :
  failed (unsuspend_body api_client account_id w) = true ->
  db (snd (unsuspend_body api_client account_id w)) = db w.
Proof. run_body; intros; try reflexivity; discriminate. Qed.

Lemma change_plan_body_failed account_id new_package_id (w : World R) :
  failed (change_plan_body api_client account_id new_package_id w) = true ->
  db (snd (change_plan_body api_client account_id new_package_id w)) = db w.
Proof. run_body; intros; try reflexivity; discriminate. Qed.

Lemma renew_body_failed account_id years (w : World R) :
  failed (renew_body account_id years w) = true ->
  db (snd (renew_body account_id years w)) = db w.
Proof. run_body; intros; try reflexivity; discriminate. Qed.

Lemma delete_body_failed account_id (w : World R) :
  failed (delete_body api_client account_id w) = true ->
  db (snd (delete_body api_client account_id w)) = db w.
Proof. run_body; intros; try reflexivity; discriminate. Qed.

(** X12. Creating, suspending, unsuspending, re-planning, renewing and
    deleting are all-or-nothing on the datastore: when the operation raises,
    every table is as it was before the call. *)
Theorem failed_hosting_operations_leave_datastore
    (domain username password reason : string)
    (package_id customer_id account_id new_package_id : UUID) (years : Z)
    (w : World R) :
  (failed (create_hosting_account api_client domain package_id customer_id
                                  username password w) = true ->
   db (snd (create_hosting_account api_client domain package_id customer_id
                                   username password w)) = db w)
  /\ (failed (suspend_account api_client account_id reason w) = true ->
      db (snd (suspend_account api_client account_id reason w)) = db w)
  /\ (failed (unsuspend_account api_client account_id w) = true ->
      db (snd (unsuspend_account api_client account_id w)) = db w)
  /\ (failed (change_hosting_plan api_client account_id new_package_id w) = true ->
      db (snd (change_hosting_plan api_client account_id new_package_id w)) = db w)
  /\ (failed (renew_hosting_account account_id years w) = true ->
      db (snd (renew_hosting_account account_id years w)) = db w)
  /\ (failed (delete_hosting_account api_client account_id w) = true ->
      db (snd (delete_hosting_account api_client account_id w)) = db w).
Proof.
  unfold create_hosting_account, suspend_account, unsuspend_account, change_hosting_plan,
    renew_hosting_account, delete_hosting_account.
  rewrite !snd_wrap_hosting, !failed_wrap_hosting.
  repeat split.
  - apply create_body_failed.
  - apply suspend_body_failed.
  - apply unsuspend_body_failed.
  - apply change_plan_body_failed.
  - apply renew_body_failed.
  - apply delete_body_failed.
Qed.

End HostingStoreFacts.
(** ** Single hosting operations *)

Section HostingOperationFacts.
Import HostingManager HostingSpec HostingInvariants.
Context {R : Type}.
Local Open Scope list_scope.

Local Abbreviation has_id account_id := (fun a : HostingAccount => acc_id a =? account_id).

Lemma find_update_first account_id f rows a :
  (forall x, acc_id (f x) = acc_id x) ->
  List.find (has_id account_id) rows = Some a ->
  List.find (has_id account_id) (update_first account_id f rows) = Some (f a).
Proof.
  intros Hf. induction rows as [|x rows IH]; cbn [List.find update_first]; [discriminate|].
  destruct (acc_id x =? account_id) eqn:E.
  - intros H; inversion H; subst. cbn [List.find]. now rewrite Hf, E.
  - intros H. cbn [List.find]. rewrite E. now apply IH.
Qed.

Lemma update_first_twice account_id f g rows :
  (forall x, acc_id (f x) = acc_id x) ->
  update_first account_id g (update_first account_id f rows)
  = update_first account_id (fun x => g (f x)) rows.
Proof.
  intros Hf. induction rows as [|x rows IH]; cbn [update_first]; [reflexivity|].
  destruct (acc_id x =? account_id) eqn:E; cbn [update_first].
  - now rewrite Hf, E.
  - now rewrite E, IH.
Qed.

Lemma update_first_fixed account_id f rows a :
  List.find (has_id account_id) rows = Some a -> f a = a ->
  update_first account_id f rows = rows.
Proof.
  intros Hfind Hfa. induction rows as [|x rows IH]; cbn [update_first]; [reflexivity|].
  cbn [List.find] in Hfind. destruct (acc_id x =? account_id).
  - inversion Hfind; subst. now rewrite Hfa.
  - now rewrite IH.
Qed.

Lemma find_id_In account_id rows a :
  List.find (has_id account_id) rows = Some a -> In a rows /\ acc_id a = account_id.
Proof.
  intros H. apply List.find_some in H. destruct H as [Hin Hid].
  split; [assumption | now apply Z.eqb_eq].
Qed.

Lemma delete_first_unique account_id rows :
  NoDup (map acc_id rows) ->
  delete_first account_id rows
  = List.filter (fun a => negb (acc_id a =? account_id)) rows.
Proof.
  induction rows as [|x rows IH]; cbn [delete_first List.filter map]; [reflexivity|].
  intros Hnd. apply NoDup_cons in Hnd. destruct Hnd as [Hx Hnd].
  destruct (acc_id x =? account_id) eqn:E; cbn [negb].
  - apply Z.eqb_eq in E.
    symmetry. apply forallb_filter_id. apply forallb_forall. intros y Hy.
    apply negb_true_iff, Z.eqb_neq. intros Heq. apply Hx.
    apply list_elem_of_In, in_map_iff. exists y. split; [congruence | assumption].
  - now rewrite IH.
Qed.

(** X13. [get_account_usage] is not all-or-nothing.  When the provider's
    answer has no ['disk_usage'] entry (and a positive or absent disk limit),
    the stored usage is first overwritten with the default 0 and only then
    does the percentage computation fail on the missing key: the caller gets
    a HostingError and the account's recorded disk usage is lost. *)
Theorem get_account_usage_fails_after_writing
    (api : HostingApi R) (account_id : UUID) (account : HostingAccount)
    (usage : UsageData) (r' : R) (w : World R) :
  List.find (has_id account_id) (hosting_accounts (db w)) = Some account ->
  get_account_usage_api api (acc_username account) (remote w) = (Ok usage, r') ->
  ud_disk_usage usage = None ->
  (default 1024 (ud_disk_limit usage) >? 0) = true ->
  fst (get_account_usage (Some api) account_id w)
  = Raise (mkExn HostingError "Failed to get account usage: 'disk_usage'")
  /\ hosting_accounts (db (snd (get_account_usage (Some api) account_id w)))
     = update_first account_id (set_usage 0 (default 0 (ud_bandwidth_usage usage)))
                    (hosting_accounts (db w)).
Proof.
  intros Hfind Hapi Hdisk Hlimit.
  cbv [get_account_usage wrap_hosting try_except usage_body bind accounts_get
       accounts_update invoke ret raise lift_outcome subscript set_db].
  rewrite !Hfind, !Hapi. cbn [db]. rewrite !Hfind, !Hlimit, !Hdisk. cbn [fst snd db].
  split; reflexivity.
Qed.

(** X14. Suspending an active account and unsuspending it again restores the
    datastore exactly. *)
Theorem suspend_then_unsuspend_restores
    (api_client : option (HostingApi R)) (account_id : UUID) (reason : string)
    (account : HostingAccount) (w w1 w2 : World R) :
  List.find (has_id account_id) (hosting_accounts (db w)) = Some account ->
  acc_status account = HS_ACTIVE -> acc_suspended_reason account = None ->
  suspend_account api_client account_id reason w = (Ok true, w1) ->
  unsuspend_account api_client account_id w1 = (Ok true, w2) ->
  db w2 = db w.
Proof.
  intros Hfind Hst Hreason Hs Hu.
  assert (Hdb1 : db w1 = mkDb (update_first account_id
                                 (set_status_reason HS_SUSPENDED (Some reason))
                                 (hosting_accounts (db w)))
                              (hosting_packages (db w)) (customers (db w))).
  { revert Hs.
    cbv [suspend_account wrap_hosting try_except suspend_body bind accounts_get
         accounts_update invoke ret raise set_db].
    rewrite !Hfind.
    destruct api_client as [api|];
      [destruct (suspend_account_api api _ _ _) as [[[]|e] r1]|];
      cbn [db]; rewrite ?Hfind; intros H; inversion H; reflexivity. }
  assert (Hfind1 : List.find (has_id account_id) (hosting_accounts (db w1))
                   = Some (set_status_reason HS_SUSPENDED (Some reason) account)).
  { rewrite Hdb1. cbn [hosting_accounts]. now apply find_update_first. }
  assert (Hfinal :
    mkDb (update_first account_id (set_status_reason HS_ACTIVE None)
                       (hosting_accounts (db w1)))
         (hosting_packages (db w1)) (customers (db w1)) = db w).
  { rewrite Hdb1. cbn [hosting_accounts hosting_packages customers].
    rewrite update_first_twice by reflexivity.
    rewrite (update_first_fixed _ _ _ account Hfind).
    - now destruct (db w).
    - destruct account. cbn in Hst, Hreason. subst. reflexivity. }
  revert Hu.
  cbv [unsuspend_account wrap_hosting try_except unsuspend_body bind accounts_get
       accounts_update invoke ret raise set_db].
  rewrite !Hfind1.
  destruct api_client as [api|];
    [destruct (unsuspend_account_api api _ _) as [[[]|e] r1]|];
    cbn [db]; rewrite ?Hfind1; intros H; inversion H; cbn [db]; exact Hfinal.
Qed.

(** X15. [renew_hosting_account] on an account with an expiry date: the new
    expiry is the old one plus 365 days per year, the status becomes active
    whatever it was, and neither the remote provider nor the clock is
    consulted.  The number of years is not validated: the same holds for
    zero and for negative years, which move the expiry back. *)
Theorem renew_hosting_account_extends_expiry
    (account_id : UUID) (years : Z) (account : HostingAccount) (t : DT.datetime)
    (w : World R) :
  List.find (has_id account_id) (hosting_accounts (db w)) = Some account ->
  acc_expires_date account = Some t ->
  (Z.abs (365 * years) >? DT.max_delta_days) = false ->
  DT.in_range (DT.us t + 365 * years * DT.us_per_day) = true ->
  renew_hosting_account account_id years w
  = (Ok true,
     set_db w (mkDb (update_first account_id
                       (set_expiry_active
                          (DT.mkDT (DT.us t + 365 * years * DT.us_per_day) (DT.aware t)))
                       (hosting_accounts (db w)))
                    (hosting_packages (db w)) (customers (db w)))).
Proof.
  intros Hfind Hexp Hdelta Hrange.
  cbv [renew_hosting_account wrap_hosting try_except renew_body bind accounts_get
       accounts_update ret raise lift_outcome DT.timedelta_days DT.add].
  rewrite !Hfind, Hexp, Hdelta, Hrange, !Hfind. reflexivity.
Qed.

(** X16. Deleting an account that exists removes exactly the rows with that
    id (ids being unique, one row) and keeps every other row, in order. *)
Theorem delete_hosting_account_removes_the_account
    (api_client : option (HostingApi R)) (account_id : UUID) (b : bool) (w w' : World R) :
  ids_unique (db w) ->
  delete_hosting_account api_client account_id w = (Ok b, w') ->
  b = true
  /\ hosting_accounts (db w')
     = List.filter (fun a => negb (acc_id a =? account_id)) (hosting_accounts (db w))
  /\ List.find (has_id account_id) (hosting_accounts (db w')) = None.
Proof.
  intros Hu Hdel.
  assert (Hrows : b = true /\ hosting_accounts (db w')
                             = delete_first account_id (hosting_accounts (db w))).
  { revert Hdel.
    cbv [delete_hosting_account wrap_hosting try_except delete_body bind accounts_get
         accounts_delete invoke ret raise set_db].
    destruct (List.find _ (hosting_accounts (db w))) as [account|] eqn:Hfind;
      [|discriminate].
    destruct api_client as [api|];
      [destruct (delete_account api _ _) as [[[]|e] r1]|];
      cbn [db]; rewrite ?Hfind; intros H; inversion H; split; reflexivity. }
  destruct Hrows as [-> Hrows]. rewrite Hrows, (delete_first_unique _ _ Hu).
  repeat split.
  destruct (List.find _ (List.filter _ _)) as [a|] eqn:E; [|reflexivity].
  apply List.find_some in E. destruct E as [Hin Hid].
  apply filter_In in Hin. destruct Hin as [_ Hne]. cbv beta in Hid.
  rewrite Hid in Hne. discriminate.
Qed.

End HostingOperationFacts.

Section HostingCreationFacts.
Import HostingManager HostingSpec HostingInvariants.
Context {R : Type} (api_client : option (HostingApi R)).
Local Open Scope list_scope.

Lemma find_domain_last domain rows a :
  List.find (fun x => String.eqb (acc_domain x) domain) rows = None ->
  acc_domain a = domain ->
  List.find (fun x => String.eqb (acc_domain x) domain) (rows ++ [a]) = Some a.
Proof.
  intros Hnone Hdom. induction rows as [|x rows IH]; cbn [app List.find] in *.
  - now rewrite Hdom, String.eqb_refl.
  - destruct (String.eqb (acc_domain x) domain); [discriminate | now apply IH].
Qed.

(** What a successful creation stores. *)
Lemma create_body_stores domain package_id customer_id username password
    (w w1 : World R) account :
  create_body api_client domain package_id customer_id username password w
  = (Ok account, w1) ->
  List.find (fun x => String.eqb (acc_domain x) domain) (hosting_accounts (db w)) = None
  /\ hosting_accounts (db w1) = hosting_accounts (db w) ++ [account]
  /\ acc_domain account = domain /\ acc_username account = username
  /\ acc_status account = HS_PENDING
  /\ acc_customer_id account = Some customer_id
  /\ acc_package_id account = Some package_id.
Proof.
  destruct api_client as [api|];
  cbv [create_body bind ret raise lift_outcome accounts_get packages_get customers_get
       accounts_get_by_domain accounts_create uuid4 invoke now set_db];
  cbn [db fst snd];
  repeat (match goal with
          | |- context [match ?x with _ => _ end] =>
              lazymatch x with
              | context [match _ with _ => _ end] => fail
              | _ => destruct x eqn:?
              end
          end; cbn [db fst snd]);
  intros H; inversion H; subst; clear H; cbn [db hosting_accounts]; repeat split;
    assumption.
Qed.

(** X17. After [create_hosting_account] has succeeded for a domain, the new
    account is the one found for that domain, it is pending and belongs to
    the given customer and package, and any further creation for the same
    domain is refused with a HostingError that leaves the world untouched. *)
Theorem create_hosting_account_then_again
    (domain : string) (package_id customer_id : UUID) (username password : string)
    (package_id' customer_id' : UUID) (username' password' : string)
    (account : HostingAccount) (w w1 : World R) :
  create_hosting_account api_client domain package_id customer_id username password w
  = (Ok account, w1) ->
  accounts_get_by_domain domain w1 = (Ok (Some account), w1)
  /\ acc_status account = HS_PENDING
  /\ acc_customer_id account = Some customer_id
  /\ acc_package_id account = Some package_id
  /\ exists msg,
       create_hosting_account api_client domain package_id' customer_id'
                              username' password' w1
       = (Raise (mkExn HostingError msg), w1).
Proof.
  intros Hcreate.
  assert (Hbody : create_body api_client domain package_id customer_id username password w
                  = (Ok account, w1)).
  { revert Hcreate. unfold create_hosting_account, wrap_hosting, try_except, raise.
    destruct (create_body _ _ _ _ _ _ w) as [[a|e] w0]; [tauto | discriminate]. }
  apply create_body_stores in Hbody.
  destruct Hbody as (Hnone & Hrows & Hdom & _ & Hst & Hcust & Hpkg).
  repeat split; try assumption.
  - unfold accounts_get_by_domain. rewrite Hrows. now rewrite (find_domain_last _ _ _ Hnone Hdom).
  - assert (Hin : In account (hosting_accounts (db w1))).
    { rewrite Hrows. apply in_or_app. right. now left. }
    destruct (create_body_existing api_client domain package_id' customer_id'
                username' password' w1 account Hin Hdom) as [e He].
    exists ("Failed to create hosting account" ++ ": " ++ exn_msg e)%string.
    unfold create_hosting_account, wrap_hosting. now rewrite (try_raise _ _ _ _ _ He).
Qed.

Lemma truthy_chars_eq (s : string) :
  Py.truthy s = match Py.chars s with [] => false | _ :: _ => true end.
Proof. now destruct s. Qed.

Lemma lower_shape (l1 l2 : list ascii) :
  Py.lower l1 = Py.lower l2 ->
  List.length l1 = List.length l2.
Proof. unfold Py.lower. intros H. apply (f_equal (@List.length _)) in H.
  now rewrite !length_map in H. Qed.

(** X18. The user-name check of [_validate_hosting_input] is made on the
    lower-cased name: two names that differ only in the case of their letters
    get the same verdict, so upper-case names pass although the message
    speaks of lowercase letters. *)
Theorem hosting_username_case_is_ignored (domain username1 username2 password : string) :
  Py.lower (Py.chars username1) = Py.lower (Py.chars username2) ->
  _validate_hosting_input domain username1 password
  = _validate_hosting_input domain username2 password.
Proof.
  intros Hlow. pose proof (lower_shape _ _ Hlow) as Hlen.
  unfold _validate_hosting_input. rewrite Hlow, !len_chars, Hlen, !truthy_chars_eq.
  destruct (Py.chars username1), (Py.chars username2); try discriminate; reflexivity.
Qed.

End HostingCreationFacts.

(** *** Runs on the sample datastore *)

Lemma hosting_operations_keep_domains_unique_witness :
  HostingInvariants.domains_unique
    (HostingManager.db
       (snd (HostingManager.create_hosting_account (Some HostingSpec.stub_api)
               "new.example.net" 10 20 "newuser" "securepassword123"
               HostingSpec.world_with_account))).
Proof.
  apply (hosting_operations_keep_domains_unique (Some HostingSpec.stub_api)
           "new.example.net" "newuser" "securepassword123" "Administrative"
           10 20 30 10 1 HostingSpec.world_with_account).
  apply (bool_decide_eq_true_1 (NoDup ["example.com"])). vm_compute. reflexivity.
Defined.

Lemma failed_hosting_operations_leave_datastore_witness :
  HostingManager.db
    (snd (HostingManager.suspend_account (Some HostingInvariants.down_api) 30
            "Administrative" HostingSpec.world_with_account))
  = HostingManager.db HostingSpec.world_with_account.
Proof.
  apply (failed_hosting_operations_leave_datastore (Some HostingInvariants.down_api)
           "example.com" "testuser" "securepassword123" "Administrative"
           10 20 30 10 1 HostingSpec.world_with_account).
  vm_compute. reflexivity.
Defined.

Lemma get_account_usage_fails_after_writing_witness :
  fst (HostingManager.get_account_usage (Some HostingInvariants.partial_usage_api) 31
         (HostingInvariants.world_of [HostingInvariants.dated_account]))
  = Raise (mkExn HostingError "Failed to get account usage: 'disk_usage'")
  /\ HostingManager.hosting_accounts
       (HostingManager.db
          (snd (HostingManager.get_account_usage
                  (Some HostingInvariants.partial_usage_api) 31
                  (HostingInvariants.world_of [HostingInvariants.dated_account]))))
     = HostingManager.update_first 31 (HostingManager.set_usage 0 (default 0 (Some 10)))
         [HostingInvariants.dated_account].
Proof.
  apply (get_account_usage_fails_after_writing HostingInvariants.partial_usage_api 31
           HostingInvariants.dated_account
           (HostingManager.mkUsage None (Some 10) (Some 2048) None) tt
           (HostingInvariants.world_of [HostingInvariants.dated_account]));
    reflexivity.
Defined.

Lemma suspend_then_unsuspend_restores_witness :
  HostingManager.db
    (snd (HostingManager.unsuspend_account (Some HostingSpec.stub_api) 30
            (snd (HostingManager.suspend_account (Some HostingSpec.stub_api) 30
                    "Unpaid invoice" HostingSpec.world_with_account))))
  = HostingManager.db HostingSpec.world_with_account.
Proof.
  apply (suspend_then_unsuspend_restores (Some HostingSpec.stub_api) 30 "Unpaid invoice"
           HostingSpec.sample_account HostingSpec.world_with_account
           (snd (HostingManager.suspend_account (Some HostingSpec.stub_api) 30
                   "Unpaid invoice" HostingSpec.world_with_account))
           (snd (HostingManager.unsuspend_account (Some HostingSpec.stub_api) 30
                   (snd (HostingManager.suspend_account (Some HostingSpec.stub_api) 30
                           "Unpaid invoice" HostingSpec.world_with_account)))));
    reflexivity.
Defined.

Lemma renew_hosting_account_extends_expiry_witness :
  HostingManager.renew_hosting_account 31 1
    (HostingInvariants.world_of [HostingInvariants.dated_account])
  = (Ok true,
     HostingManager.set_db (HostingInvariants.world_of [HostingInvariants.dated_account])
       (HostingManager.mkDb
          (HostingManager.update_first 31
             (HostingManager.set_expiry_active
                (DT.mkDT (RegistrarStub.t2026 + 365 * 1 * DT.us_per_day) false))
             [HostingInvariants.dated_account])
          [HostingSpec.sample_package] [HostingSpec.sample_customer])).
Proof.
  apply (renew_hosting_account_extends_expiry 31 1 HostingInvariants.dated_account
           (DT.mkDT RegistrarStub.t2026 false)
           (HostingInvariants.world_of [HostingInvariants.dated_account]));
    vm_compute; reflexivity.
Defined.

Lemma delete_hosting_account_removes_the_account_witness :
  true = true
  /\ HostingManager.hosting_accounts
       (HostingManager.db
          (snd (HostingManager.delete_hosting_account (Some HostingSpec.stub_api) 30
                  HostingSpec.world_with_account)))
     = List.filter (fun a => negb (HostingManager.acc_id a =? 30))
         (HostingManager.hosting_accounts (HostingManager.db HostingSpec.world_with_account))
  /\ List.find (fun a => HostingManager.acc_id a =? 30)
       (HostingManager.hosting_accounts
          (HostingManager.db
             (snd (HostingManager.delete_hosting_account (Some HostingSpec.stub_api) 30
                     HostingSpec.world_with_account))))
     = None.
Proof.
  apply (delete_hosting_account_removes_the_account (Some HostingSpec.stub_api) 30 true
           HostingSpec.world_with_account
           (snd (HostingManager.delete_hosting_account (Some HostingSpec.stub_api) 30
                   HostingSpec.world_with_account))).
  - apply (bool_decide_eq_true_1 (NoDup [30])). vm_compute. reflexivity.
  - reflexivity.
Defined.

Lemma create_hosting_account_then_again_witness :
  exists account w1,
    HostingManager.create_hosting_account (Some HostingSpec.stub_api)
      "example.com" 10 20 "testuser" "securepassword123" HostingSpec.world_without_account
    = (Ok account, w1)
    /\ HostingManager.accounts_get_by_domain "example.com" w1 = (Ok (Some account), w1)
    /\ exists msg,
         HostingManager.create_hosting_account (Some HostingSpec.stub_api)
           "example.com" 10 20 "otheruser" "anotherpassword" w1
         = (Raise (mkExn HostingError msg), w1).
Proof.
  eexists _, _. split; [reflexivity|].
  pose proof (create_hosting_account_then_again (Some HostingSpec.stub_api)
                "example.com" 10 20 "testuser" "securepassword123"
                10 20 "otheruser" "anotherpassword" _ HostingSpec.world_without_account _
                eq_refl) as (Hget & _ & _ & _ & Hagain).
  split; [exact Hget | exact Hagain].
Defined.

Lemma hosting_username_case_is_ignored_witness :
  HostingManager._validate_hosting_input "example.com" "TestUser" "securepassword123"
  = HostingManager._validate_hosting_input "example.com" "testuser" "securepassword123".
Proof.
  apply (hosting_username_case_is_ignored "example.com" "TestUser" "testuser"
           "securepassword123").
  reflexivity.
Defined.


(** ** DNS record validation, continued *)

Section RecordValidationSoundness.
Import DNSManager.
Context (_validate_ipv4_address : string -> outcome unit).
Context (ipv6_strict : string -> bool).

Local Abbreviation validate :=
  (_validate_dns_record_input _validate_ipv4_address ipv6_strict).

Lemma truthy_non_empty (s : string) : Py.truthy s = true -> s <> "".
Proof. destruct s; [discriminate | discriminate]. Qed.

(** X19. What an accepted record is known to satisfy: a non-empty name and
    value, a TTL between 60 and 86400, a name of DNS syntax and, for MX, a
    priority between 0 and 65535. *)
Theorem validate_dns_record_input_sound record_type name value ttl priority :
  validate record_type name value ttl priority = Ok tt ->
  name <> "" /\ value <> "" /\ 60 <= ttl <= 86400
  /\ _validate_dns_name name = true
  /\ (record_type = MX -> exists p, priority = Some p /\ 0 <= p <= 65535).
Proof.
  unfold _validate_dns_record_input.
  destruct (Py.truthy name) eqn:Hn; cbn [negb orb]; [|discriminate].
  destruct (Py.truthy value) eqn:Hv; cbn [negb orb]; [|discriminate].
  destruct ((ttl <? 60) || (ttl >? 86400)) eqn:Httl; [discriminate|].
  destruct (_validate_dns_name name) eqn:Hname; cbn [negb]; [|discriminate].
  apply orb_false_iff in Httl. destruct Httl as [Hlo Hhi].
  apply Z.ltb_ge in Hlo. rewrite Z.gtb_ltb in Hhi. apply Z.ltb_ge in Hhi.
  intros Hrest. repeat split; try (now apply truthy_non_empty); try lia.
  intros ->. revert Hrest. cbn [is_MX andb].
  destruct priority as [p|]; cbn [is_Some_b negb]; [|discriminate].
  destruct ((p <? 0) || (p >? 65535)) eqn:Hp; [discriminate|].
  apply orb_false_iff in Hp. destruct Hp as [Hplo Hphi].
  apply Z.ltb_ge in Hplo. rewrite Z.gtb_ltb in Hphi. apply Z.ltb_ge in Hphi.
  intros _. exists p. split; [reflexivity | lia].
Qed.

(** X20. Only address records have their value checked.  For every type
    other than A and AAAA the verdict does not depend on the value beyond its
    being non-empty: the results of the CNAME, MX, NS and TXT entries of
    [validation_methods] are computed and dropped. *)
Theorem dns_value_checked_only_for_addresses
    record_type name value1 value2 ttl priority :
  RecordSpec.is_address record_type = false ->
  Py.truthy value1 = Py.truthy value2 ->
  validate record_type name value1 ttl priority
  = validate record_type name value2 ttl priority.
Proof.
  intros Haddr Hv. unfold _validate_dns_record_input. rewrite Hv.
  destruct (negb (Py.truthy name) || negb (Py.truthy value2)); [reflexivity|].
  destruct ((ttl <? 60) || (ttl >? 86400)); [reflexivity|].
  destruct (negb (_validate_dns_name name)); [reflexivity|].
  destruct (is_MX record_type && negb (is_Some_b priority)); [reflexivity|].
  destruct (is_MX record_type && _); [reflexivity|].
  destruct record_type; try discriminate; reflexivity.
Qed.

End RecordValidationSoundness.

Lemma validate_dns_record_input_sound_witness :
  "example.com" <> "" /\ "mail.example.com" <> "" /\ 60 <= 3600 <= 86400
  /\ DNSManager._validate_dns_name "example.com" = true
  /\ (DNSManager.MX = DNSManager.MX -> exists p, Some 10 = Some p /\ 0 <= p <= 65535).
Proof.
  apply (validate_dns_record_input_sound RecordSpec.any_ipv4 RecordSpec.no_ipv6
           DNSManager.MX "example.com" "mail.example.com" 3600 (Some 10)).
  reflexivity.
Defined.

Lemma dns_value_checked_only_for_addresses_witness :
  DNSManager._validate_dns_record_input RecordSpec.any_ipv4 RecordSpec.no_ipv6
    DNSManager.CNAME "www.example.com" "not a host name!" 3600 None
  = DNSManager._validate_dns_record_input RecordSpec.any_ipv4 RecordSpec.no_ipv6
      DNSManager.CNAME "www.example.com" "example.com" 3600 None.
Proof.
  apply (dns_value_checked_only_for_addresses RecordSpec.any_ipv4 RecordSpec.no_ipv6
           DNSManager.CNAME "www.example.com" "not a host name!" "example.com" 3600 None);
    reflexivity.
Defined.

(** ** How the two reconciliation paths report a failure *)

Section ReconciliationReports.
Import DNSManager.
Context {R D : Type} (api_client : DnsApi R).
Context (add_dns_record :
           string -> DNSRecordType -> string -> string -> Z -> option Z -> M (World R D) unit).
Context (delete_dns_record : string -> option Z -> M (World R D) unit).

(** X21. With a database session, [update_dns_records] returns [True] or
    raises a DNSError and never returns [False]; without one it returns
    [True] or [False] and never raises.  A caller has to handle both. *)
Theorem update_dns_records_failure_reports domain_name records (w : World R D) :
  match fst (update_dns_records api_client true add_dns_record delete_dns_record
               domain_name records w) with
  | Ok b => b = true
  | Raise e => exn_kind e = DNSError
  end
  /\ is_ok (fst (update_dns_records api_client false add_dns_record delete_dns_record
                   domain_name records w)) = true.
Proof.
  split.
  - unfold update_dns_records, _update_records_with_transaction, try_except, bind,
      reraise, raise, ret.
    destruct (with_begin _ w) as [[[]|e] w1]; reflexivity.
  - destruct (update_without_session_never_raises api_client add_dns_record
                delete_dns_record domain_name records w) as (b & w' & H).
    now rewrite H.
Qed.

End ReconciliationReports.

(** ** Registration refusals *)

Section RegistrationRefusals.
Import DomainManager.
Context {R : Type} (api_client : RegistrarApi R).

Lemma validate_registration_input_kind domain_name years contact_info e :
  _validate_registration_input domain_name years contact_info = Raise e ->
  exn_kind e = ValidationError.
Proof.
  unfold _validate_registration_input.
  repeat match goal with
         | |- context [if ?c then _ else _] => destruct c
         | |- context [match ?c with Some _ => _ | None => _ end] => destruct c
         end; intros H; inversion H; reflexivity.
Qed.

(** X22. [register_domain] refuses without registering: input that fails
    validation ends in a DomainError with the world untouched (no remote call
    at all), and a name that the registrar reports as taken ends in the
    DomainError "Domain ... is not available" after the availability lookup,
    with no registration call made. *)
Theorem register_domain_refusals domain_name years contact_info (w : World R) :
  (forall e, _validate_registration_input domain_name years contact_info = Raise e ->
     register_domain api_client domain_name years contact_info w
     = (Raise (mkExn DomainError ("Domain registration failed: " ++ exn_msg e)), w))
  /\ (_validate_registration_input domain_name years contact_info = Ok tt ->
      fst (check_domain_availability api_client domain_name w) = Ok false ->
      register_domain api_client domain_name years contact_info w
      = (Raise (mkExn DomainError ("Domain " ++ domain_name ++ " is not available")),
         snd (check_domain_availability api_client domain_name w))
      /\ calls (snd (check_domain_availability api_client domain_name w))
         = (calls w ++ [Call_check_availability domain_name])%list).
Proof.
  split.
  - intros e He. pose proof (validate_registration_input_kind _ _ _ _ He) as Hk.
    unfold register_domain, try_except, bind at 1, lift_outcome. rewrite He, Hk.
    reflexivity.
  - intros Hv Hav.
    destruct (validate_registration_input_ok _ _ _ Hv) as (Hname & _).
    split.
    + unfold register_domain, try_except, bind at 1, lift_outcome. rewrite Hv.
      cbv beta iota. unfold bind at 1.
      destruct (check_domain_availability api_client domain_name w) as [[b|e] w1];
        cbn [fst snd] in *; [|discriminate].
      inversion Hav; subst. reflexivity.
    + revert Hav. unfold check_domain_availability, try_except. rewrite Hname.
      cbn [negb]. unfold bind, invoke, ret.
      destruct (check_availability api_client domain_name (remote w)) as [[resp|e] r1].
      * reflexivity.
      * destruct (exn_kind e); discriminate.
Qed.

End RegistrationRefusals.

Lemma register_domain_refusals_witness :
  DomainManager.register_domain RegistrarStub.api "taken.com" 1
    (Some RegistrarStub.sample_contact) (RegistrarStub.world0 RegistrarStub.none_available)
  = (Raise (mkExn DomainError ("Domain " ++ "taken.com" ++ " is not available")),
     snd (DomainManager.check_domain_availability RegistrarStub.api "taken.com"
            (RegistrarStub.world0 RegistrarStub.none_available)))
  /\ DomainManager.calls
       (snd (DomainManager.check_domain_availability RegistrarStub.api "taken.com"
               (RegistrarStub.world0 RegistrarStub.none_available)))
     = (DomainManager.calls (RegistrarStub.world0 RegistrarStub.none_available)
        ++ [DomainManager.Call_check_availability "taken.com"])%list.
Proof.
  apply (register_domain_refusals RegistrarStub.api "taken.com" 1
           (Some RegistrarStub.sample_contact)
           (RegistrarStub.world0 RegistrarStub.none_available)); reflexivity.
Defined.

(** ** Validation reports *)

Section ReportFacts.
Import DomainValidationService DomainServices.
Local Open Scope list_scope.

Lemma snoc_not_nil {T} (l : list T) x : l ++ [x] <> [].
Proof. destruct l; discriminate. Qed.

Lemma flag_report cond msg r :
  (valid r = true <-> errors r = []) /\ warnings r = [] ->
  (valid (flag cond msg r) = true <-> errors (flag cond msg r) = [])
  /\ warnings (flag cond msg r) = [].
Proof.
  unfold flag. destruct cond; [|tauto]. cbn. intros [_ Hw]. split; [|exact Hw].
  split; [discriminate | intros H; now apply snoc_not_nil in H].
Qed.

Lemma check_part_report r part :
  (valid r = true <-> errors r = []) /\ warnings r = [] ->
  (valid (check_part r part) = true <-> errors (check_part r part) = [])
  /\ warnings (check_part r part) = [].
Proof.
  unfold check_part. destruct (_ <? 1)%nat; [apply flag_report|].
  destruct (63 <? _)%nat; [apply flag_report | tauto].
Qed.

Lemma check_parts_report parts : forall r,
  (valid r = true <-> errors r = []) /\ warnings r = [] ->
  (valid (fold_left check_part parts r) = true
   <-> errors (fold_left check_part parts r) = [])
  /\ warnings (fold_left check_part parts r) = [].
Proof.
  induction parts as [|p parts IH]; intros r Hr; cbn [fold_left]; [exact Hr|].
  apply IH. now apply check_part_report.
Qed.

Lemma fail_if_report cond msg r :
  (cv_valid r = true <-> cv_errors r = []) ->
  (cv_valid (fail_if cond msg r) = true <-> cv_errors (fail_if cond msg r) = []).
Proof.
  unfold fail_if. destruct cond; [|tauto]. cbn. intros _.
  split; [discriminate | intros H; now apply snoc_not_nil in H].
Qed.

(** X23. The reports of [validate_domain_syntax] and [validate_contact_info]
    are consistent: the verdict is [valid] exactly when the list of errors is
    empty; the syntax report never carries a warning. *)
Theorem validation_reports_consistent
    (domain_name : string) (contact_data : ContactInfo) (tld : string) :
  (valid (validate_domain_syntax domain_name) = true
   <-> errors (validate_domain_syntax domain_name) = [])
  /\ warnings (validate_domain_syntax domain_name) = []
  /\ (cv_valid (validate_contact_info contact_data tld) = true
      <-> cv_errors (validate_contact_info contact_data tld) = []).
Proof.
  assert (H0 : (valid (mkResult true [] []) = true <-> errors (mkResult true [] []) = [])
               /\ warnings (mkResult true [] []) = []) by (cbn; tauto).
  assert (H1 : cv_valid (mkValidation true []) = true
               <-> cv_errors (mkValidation true []) = []) by (cbn; tauto).
  assert (Hsyntax :
    (valid (validate_domain_syntax domain_name) = true
     <-> errors (validate_domain_syntax domain_name) = [])
    /\ warnings (validate_domain_syntax domain_name) = []).
  { unfold validate_domain_syntax.
    apply check_parts_report. do 4 apply flag_report.
    destruct (_ <? 4); [now apply flag_report|].
    destruct (_ >? 253); [now apply flag_report | exact H0]. }
  destruct Hsyntax as [Hv Hw]. split; [exact Hv|]. split; [exact Hw|].
  unfold validate_contact_info.
  destruct (String.eqb tld ".eu"); [|destruct (String.eqb tld ".ca")];
    repeat apply fail_if_report; exact H1.
Qed.

End ReportFacts.


(** ** The end anchor *)

Section AnchorFacts.
Import Re AnchorSpec.
Local Open Scope list_scope.

Lemma chars_append (s t : string) : Py.chars (s ++ t)%string = Py.chars s ++ Py.chars t.
Proof.
  unfold Py.chars. induction s as [|a s IH]; [reflexivity|].
  change (String a s ++ t)%string with (String a (s ++ t)).
  cbn [list_ascii_of_string app]. now f_equal.
Qed.

Lemma truthy_append (s t : string) : Py.truthy s = true -> Py.truthy (s ++ t)%string = true.
Proof. now destruct s. Qed.

Lemma lang_newline : lang Eol ["010"%char].
Proof. apply eol_intro. right. exists "010"%char. split; reflexivity. Qed.

(** A string of a pattern that ends in [$] can be followed by one newline,
    unless it ends in one already. *)
Lemma lang_trailing_newline r : forall s,
  ends_in_eol r -> lang r s -> Py.endswith_char "010" s = false ->
  lang r (s ++ ["010"%char]).
Proof.
  induction r as [| | p | r1 _ r2 IH | r1 _ r2 _ | lo hi r _]; cbn [ends_in_eol];
    try tauto.
  intros s Hend Hlang Hnl. apply lang_Cat in Hlang as (s1 & s2 & -> & H1 & H2).
  rewrite <- List.app_assoc. apply L_cat; [exact H1|].
  destruct s2 as [|a s2].
  - destruct Hend as [-> | Hend]; [exact lang_newline|].
    apply IH; [exact Hend | exact H2 | reflexivity].
  - rewrite endswith_app in Hnl by discriminate.
    destruct Hend as [-> | Hend]; [|now apply IH].
    exfalso. apply eol_inv in H2 as [H2 | (nl & H2 & Hc)]; [discriminate|].
    inversion H2; subst. cbn in Hnl. unfold Py.is_char in Hc. congruence.
Qed.

Lemma re_match_trailing_newline r (s : string) :
  wf r = true -> ends_in_eol r ->
  re_match r s = true -> Py.endswith_char "010" (Py.chars s) = false ->
  re_match r (s ++ newline) = true.
Proof.
  intros Hwf Hend Hm Hnl. unfold re_match in *.
  apply (accepts_spec _ _ Hwf) in Hm. apply (accepts_spec _ _ Hwf).
  rewrite chars_append. now apply lang_trailing_newline.
Qed.

(** X24. Every check made with [re.match] against a pattern ending in [$]
    also accepts the accepted string followed by a line feed: the domain-name
    check of the manager (while the length stays within 253), the DNS name
    check, and the e-mail and phone checks of the contact service. *)
Theorem validators_accept_a_trailing_newline (s tld : string) :
  Py.endswith_char "010" (Py.chars s) = false ->
  (DomainManager._validate_domain_name s = true -> Py.len s < 253 ->
   DomainManager._validate_domain_name (s ++ newline) = true)
  /\ (DNSManager._validate_dns_name s = true ->
      DNSManager._validate_dns_name (s ++ newline) = true)
  /\ (DomainServices._validate_email s = true ->
      DomainServices._validate_email (s ++ newline) = true)
  /\ (DomainServices._validate_phone s tld = true ->
      DomainServices._validate_phone (s ++ newline) tld = true).
Proof.
  intros Hnl. repeat split.
  - unfold DomainManager._validate_domain_name. intros Hv Hlen.
    destruct (Py.truthy s) eqn:Ht; cbn [negb orb] in Hv; [|discriminate].
    destruct (Py.len s >? 253); [discriminate|].
    rewrite (truthy_append _ _ Ht). cbn [negb orb].
    replace (Py.len (s ++ newline) >? 253) with false.
    2:{ symmetry. rewrite Z.gtb_ltb. apply Z.ltb_ge.
        rewrite len_chars in *. rewrite chars_append, length_app. cbn. lia. }
    apply re_match_trailing_newline; try assumption; [reflexivity | cbn; tauto].
  - unfold DNSManager._validate_dns_name. intros Hv.
    apply re_match_trailing_newline; try assumption; [reflexivity | cbn; tauto].
  - unfold DomainServices._validate_email. intros Hv.
    destruct (Py.truthy s) eqn:Ht; cbn [negb] in Hv; [|discriminate].
    rewrite (truthy_append _ _ Ht). cbn [negb].
    apply re_match_trailing_newline; try assumption; [reflexivity | cbn; tauto].
  - unfold DomainServices._validate_phone. intros Hv.
    destruct (Py.truthy s) eqn:Ht; cbn [negb] in Hv; [|discriminate].
    rewrite (truthy_append _ _ Ht). cbn [negb].
    apply re_match_trailing_newline; try assumption; [reflexivity | cbn; tauto].
Qed.

End AnchorFacts.

Lemma validators_accept_a_trailing_newline_witness :
  DomainManager._validate_domain_name ("example.com" ++ AnchorSpec.newline) = true
  /\ DomainServices._validate_email ("john@example.com" ++ AnchorSpec.newline) = true.
Proof.
  pose proof (validators_accept_a_trailing_newline "example.com" ".com" eq_refl)
    as (Hdomain & _ & _ & _).
  pose proof (validators_accept_a_trailing_newline "john@example.com" ".com" eq_refl)
    as (_ & _ & Hemail & _).
  split; [apply Hdomain; [reflexivity | vm_compute; reflexivity]
         | apply Hemail; reflexivity].
Defined.

(** ** E-mail addresses and phone numbers *)

Section ContactPatternFacts.
Import Re AnchorSpec DomainServices.
Local Open Scope list_scope.

Lemma local_char_not_at a : email_local_char a = true -> Py.not_char "@" a = true.
Proof.
  apply (class_implies (fun a => email_local_char a) (fun a => Py.not_char "@" a)).
  vm_compute. reflexivity.
Qed.

Lemma allowed_char_not_at a : Patterns.allowed_char a = true -> Py.not_char "@" a = true.
Proof.
  apply (class_implies (fun a => Patterns.allowed_char a) (fun a => Py.not_char "@" a)).
  vm_compute. reflexivity.
Qed.

Lemma alpha_not_at a : Py.is_alpha a = true -> Py.not_char "@" a = true.
Proof.
  apply (class_implies (fun a => Py.is_alpha a) (fun a => Py.not_char "@" a)).
  vm_compute. reflexivity.
Qed.

Lemma newline_not_at a : Py.is_char "010" a = true -> Py.not_char "@" a = true.
Proof.
  apply (class_implies (fun a => Py.is_char "010" a) (fun a => Py.not_char "@" a)).
  vm_compute. reflexivity.
Qed.

Lemma is_char_eq c a : Py.is_char c a = true -> a = c.
Proof. unfold Py.is_char, Py.ascii_eqb. apply Ascii.eqb_eq. Qed.

(** X25. An accepted e-mail address has exactly one "@": a non-empty local
    part without "@", then "@", then a domain part without "@" that contains
    a dot. *)
Theorem validate_email_shape (email : string) :
  _validate_email email = true ->
  exists local_part domain_part,
    Py.chars email = local_part ++ "@"%char :: domain_part
    /\ local_part <> []
    /\ Forall (fun a => Py.not_char "@" a = true) local_part
    /\ Forall (fun a => Py.not_char "@" a = true) domain_part
    /\ In "."%char domain_part.
Proof.
  unfold _validate_email. destruct (Py.truthy email); cbn [negb]; [|discriminate].
  unfold re_match. intros H. apply accepts_spec in H; [|reflexivity].
  unfold email_pattern, Plus, AtLeast, Chr in H.
  apply lang_Cat in H as (l & s1 & Hs & Hl & H).
  apply lang_Cat in H as (at_ & s2 & -> & Hat & H).
  apply lang_Cat in H as (d & s3 & -> & Hd & H).
  apply lang_Cat in H as (dot & s4 & -> & Hdot & H).
  apply lang_Cat in H as (t & e & -> & Ht & He).
  apply rep_class_inv in Hl as [Hl Hllen].
  apply lang_Class in Hat as (a & -> & Ha). apply is_char_eq in Ha. subst a.
  apply rep_class_inv in Hd as [Hd _].
  apply lang_Class in Hdot as (b & -> & Hb). apply is_char_eq in Hb. subst b.
  apply rep_class_inv in Ht as [Ht _].
  exists l, (d ++ ["."%char] ++ t ++ e). split; [exact Hs|]. split.
  { intros ->. cbn in Hllen. lia. }
  split.
  { eapply List.Forall_impl; [|exact Hl]. cbv beta. apply local_char_not_at. }
  split.
  - apply Forall_app. split.
    { eapply List.Forall_impl; [|exact Hd]. cbv beta. apply allowed_char_not_at. }
    apply Forall_app. split; [repeat constructor|].
    apply Forall_app. split.
    { eapply List.Forall_impl; [|exact Ht]. cbv beta. apply alpha_not_at. }
    apply eol_inv in He as [-> | (nl & -> & Hnl)]; [constructor|].
    constructor; [now apply newline_not_at | constructor].
  - apply in_or_app. right. now left.
Qed.

Lemma rep_class_bounded p : forall hi s lo,
  lang (Rep lo (Some hi) (Class p)) s -> (List.length s <= hi)%nat.
Proof.
  induction hi as [|hi IH]; intros s lo H; apply lang_Rep in H;
    destruct H as [[_ ->] | (Hz & s1 & s2 & -> & H1 & H2)]; cbn [List.length];
    try lia; try discriminate.
  apply lang_Class in H1 as (a & -> & _). cbn [pred_hi Nat.pred] in H2.
  apply IH in H2. cbn. lia.
Qed.

Lemma digits_inv lo hi s :
  lang (digits lo hi) s ->
  Forall (fun a => Py.is_digit a = true) s /\ (lo <= List.length s <= hi)%nat.
Proof.
  unfold digits, Between. intros H. pose proof (rep_class_bounded _ _ _ _ H).
  apply rep_class_inv in H. destruct H. repeat split; assumption.
Qed.

Lemma opt_class_inv p s :
  lang (Opt (Class p)) s -> Forall (fun a => p a = true) s.
Proof. unfold Opt. intros H. now apply rep_class_inv in H. Qed.

Lemma digit_count_app s t : digit_count (s ++ t) = (digit_count s + digit_count t)%nat.
Proof. unfold digit_count. now rewrite List.filter_app, length_app. Qed.

Lemma digit_count_digits s :
  Forall (fun a => Py.is_digit a = true) s -> digit_count s = List.length s.
Proof.
  unfold digit_count. induction 1 as [|a s Ha _ IH]; cbn [List.filter]; [reflexivity|].
  rewrite Ha. cbn. now rewrite IH.
Qed.

Lemma digit_count_none (p : ascii -> bool) s :
  (forall a, p a = true -> Py.is_digit a = false) ->
  Forall (fun a => p a = true) s -> digit_count s = 0%nat.
Proof.
  unfold digit_count. intros Hp. induction 1 as [|a s Ha _ IH]; cbn [List.filter];
    [reflexivity|].
  now rewrite (Hp a Ha).
Qed.

Lemma class_excludes (P Q : ascii -> bool) :
  forallb (fun n => implb (P (ascii_of_nat n)) (negb (Q (ascii_of_nat n)))) (seq 0 256)
  = true ->
  forall a, P a = true -> Q a = false.
Proof.
  intros H a Ha.
  pose proof (class_implies P (fun a => negb (Q a)) H a Ha) as Hn.
  now apply negb_true_iff in Hn.
Qed.

Lemma separator_no_digit a : is_separator a = true -> Py.is_digit a = false.
Proof. apply (class_excludes is_separator Py.is_digit). vm_compute. reflexivity. Qed.

Lemma char_no_digit c :
  Py.is_digit c = false -> forall a, Py.is_char c a = true -> Py.is_digit a = false.
Proof. intros Hc a Ha. apply is_char_eq in Ha. now subst. Qed.

(** X26. An accepted phone number starts with "+" and has between 4 and 20
    digits; the TLD passed along plays no part in the verdict. *)
Theorem validate_phone_shape (phone tld : string) :
  _validate_phone phone tld = true ->
  (exists rest, Py.chars phone = "+"%char :: rest
                /\ (4 <= digit_count rest <= 20)%nat)
  /\ forall tld', _validate_phone phone tld' = true.
Proof.
  intros Hv. split; [|intros tld'; exact Hv]. revert Hv.
  unfold _validate_phone. destruct (Py.truthy phone); cbn [negb]; [|discriminate].
  unfold re_match. intros H. apply accepts_spec in H; [|reflexivity].
  unfold phone_pattern, sep_opt, Chr in H.
  apply lang_Cat in H as (plus & s1 & Hs & Hplus & H).
  apply lang_Cat in H as (d1 & s2 & -> & Hd1 & H).
  apply lang_Cat in H as (p1 & s3 & -> & Hp1 & H).
  apply lang_Cat in H as (po & s4 & -> & Hpo & H).
  apply lang_Cat in H as (d2 & s5 & -> & Hd2 & H).
  apply lang_Cat in H as (pc & s6 & -> & Hpc & H).
  apply lang_Cat in H as (p2 & s7 & -> & Hp2 & H).
  apply lang_Cat in H as (d3 & s8 & -> & Hd3 & H).
  apply lang_Cat in H as (p3 & s9 & -> & Hp3 & H).
  apply lang_Cat in H as (d4 & e & -> & Hd4 & He).
  apply lang_Class in Hplus as (a & -> & Ha). apply is_char_eq in Ha. subst a.
  apply digits_inv in Hd1 as [Hd1 Hl1]. apply digits_inv in Hd2 as [Hd2 Hl2].
  apply digits_inv in Hd3 as [Hd3 Hl3]. apply digits_inv in Hd4 as [Hd4 Hl4].
  apply opt_class_inv in Hp1, Hpo, Hpc, Hp2, Hp3.
  unfold Eol in He. apply opt_class_inv in He.
  eexists. split; [exact Hs|].
  rewrite !digit_count_app.
  rewrite (digit_count_digits _ Hd1), (digit_count_digits _ Hd2),
    (digit_count_digits _ Hd3), (digit_count_digits _ Hd4).
  rewrite (digit_count_none _ _ separator_no_digit Hp1),
    (digit_count_none _ _ separator_no_digit Hp2),
    (digit_count_none _ _ separator_no_digit Hp3).
  rewrite (digit_count_none _ _ (char_no_digit "("%char eq_refl) Hpo),
    (digit_count_none _ _ (char_no_digit ")"%char eq_refl) Hpc),
    (digit_count_none _ _ (char_no_digit "010"%char eq_refl) He).
  lia.
Qed.

End ContactPatternFacts.

Lemma validate_email_shape_witness :
  exists local_part domain_part,
    Py.chars "john@example.com" = (local_part ++ "@"%char :: domain_part)%list
    /\ local_part <> []
    /\ Forall (fun a => Py.not_char "@" a = true) local_part
    /\ Forall (fun a => Py.not_char "@" a = true) domain_part
    /\ In "."%char domain_part.
Proof. apply (validate_email_shape "john@example.com"). reflexivity. Defined.

Lemma validate_phone_shape_witness :
  (exists rest, Py.chars "+1234567890" = "+"%char :: rest
                /\ (4 <= AnchorSpec.digit_count rest <= 20)%nat)
  /\ forall tld', DomainServices._validate_phone "+1234567890" tld' = true.
Proof. apply (validate_phone_shape "+1234567890" ".com"). reflexivity. Defined.

(** ** Transfer eligibility and time zones *)

Section TransferZoneFacts.
Import DomainManager.
Context {R : Type} (api_client : RegistrarApi R).
Context (fromisoformat : string -> option DT.datetime).

(** X27. A domain whose expiry date was parsed as timezone-aware (an ISO
    string with an offset, or with the suffix Z that [get_domain_details]
    rewrites to +00:00) is never eligible for transfer, however far away the
    expiry: the subtraction from the naive [datetime.now()] raises and the
    answer is [False]. *)
Theorem aware_expiry_is_never_eligible (domain_name : string) (w w1 w2 : World R)
    (d : Domain) :
  get_domain_locking_status api_client domain_name w = (Ok false, w1) ->
  get_domain_details api_client fromisoformat domain_name w1 = (Ok d, w2) ->
  DT.aware (expiry_date d) = true ->
  fst (check_transfer_eligibility api_client fromisoformat domain_name w) = Ok false.
Proof.
  intros Hlock Hdet Haware.
  unfold check_transfer_eligibility, try_except, bind at 1. rewrite Hlock.
  unfold bind at 1. rewrite Hdet.
  unfold bind, now, lift_outcome, ret, DT.sub. cbn [DT.aware]. rewrite Haware.
  reflexivity.
Qed.

End TransferZoneFacts.

Lemma aware_expiry_is_never_eligible_witness :
  fst (DomainManager.check_transfer_eligibility RegistrarStub.api
         (RegistrarStub.fromisoformat_table RegistrarStub.iso_table) "example.com"
         (RegistrarStub.world0
            (RegistrarStub.domain_expiring false "2026-04-01T00:00:00+00:00")))
  = Ok false.
Proof.
  apply (aware_expiry_is_never_eligible RegistrarStub.api
           (RegistrarStub.fromisoformat_table RegistrarStub.iso_table) "example.com"
           (RegistrarStub.world0
              (RegistrarStub.domain_expiring false "2026-04-01T00:00:00+00:00"))
           (snd (DomainManager.get_domain_locking_status RegistrarStub.api "example.com"
                   (RegistrarStub.world0
                      (RegistrarStub.domain_expiring false "2026-04-01T00:00:00+00:00"))))
           (snd (DomainManager.get_domain_details RegistrarStub.api
                   (RegistrarStub.fromisoformat_table RegistrarStub.iso_table) "example.com"
                   (snd (DomainManager.get_domain_locking_status RegistrarStub.api
                           "example.com"
                           (RegistrarStub.world0
                              (RegistrarStub.domain_expiring false
                                 "2026-04-01T00:00:00+00:00"))))))
           (mkDomain "example.com" ACTIVE
              (DT.mkDT (RegistrarStub.t2026 + 90 * DT.us_per_day) true)
              (DT.mkDT (RegistrarStub.t2026 - 365 * DT.us_per_day) false)
              [] false false true));
    reflexivity.
Defined.

(** ** Usage and plans *)

Section HostingPlanFacts.
Import HostingManager HostingSpec HostingInvariants.
Context {R : Type}.
Local Open Scope list_scope.

Local Abbreviation has_id account_id := (fun a : HostingAccount => acc_id a =? account_id).

(** X28. Without a remote client [get_account_usage] is a pure read that
    succeeds for every existing account: it reports the stored usage and
    leaves the world as it was. *)
Theorem get_account_usage_simulation (account_id : UUID) (account : HostingAccount)
    (w : World R) :
  List.find (has_id account_id) (hosting_accounts (db w)) = Some account ->
  exists report,
    get_account_usage None account_id w = (Ok report, w)
    /\ ud_disk_usage (rep_usage report) = Some (acc_disk_usage account)
    /\ ud_bandwidth_usage (rep_usage report) = Some (acc_bandwidth_usage account).
Proof.
  intros Hfind.
  cbv [get_account_usage wrap_hosting try_except usage_body bind accounts_get ret raise
       lift_outcome subscript].
  rewrite Hfind. cbn [default ud_disk_limit ud_bandwidth_limit ud_disk_usage
                      ud_bandwidth_usage from_option id].
  destruct (_ >? 0); destruct (_ >? 0); eexists; repeat split.
Qed.


End HostingPlanFacts.

Lemma get_account_usage_simulation_witness :
  exists report,
    HostingManager.get_account_usage None 31
      (HostingInvariants.world_of [HostingInvariants.dated_account])
    = (Ok report, HostingInvariants.world_of [HostingInvariants.dated_account])
    /\ HostingManager.ud_disk_usage (HostingManager.rep_usage report) = Some 512
    /\ HostingManager.ud_bandwidth_usage (HostingManager.rep_usage report) = Some 40.
Proof.
  apply (get_account_usage_simulation 31 HostingInvariants.dated_account
           (HostingInvariants.world_of [HostingInvariants.dated_account])).
  reflexivity.
Defined.

